(** * get-cyberark-ssh-key.py: a shallow embedding and its properties

    The script authenticates against a CyberArk PAM server, fetches the
    cached SSH keys, writes each key under [~/.ssh/id_cyberark_session_*]
    and hands it to the SSH agent.

    The embedding follows the script statement by statement.  Everything
    the script observes from outside is an input of the model:
    - the HTTP server and the external commands ([ls], [ssh-add]) are
      oracles of a [world];
    - the environment variables, the process umask and the size of the
      buffer of Python file objects are fields of the [world];
    - the functions of the Python standard library whose results the
      script only passes on ([json.loads], [str.lower], [bytes.decode],
      [datetime.fromtimestamp(..).isoformat()], the matching done by
      [glob.glob]) are the methods of the class [PyLib].
    The file system is a finite map from path strings to regular files;
    a text ([str]) and a byte string ([bytes]) are both a [string].
    [os.chmod], [os.remove] and [os.unlink] fail in the model exactly where
    the path they are given does not exist.  [open] is modelled where it
    succeeds: the directory of the path exists and the system accepts the
    name.  A run in which [open] itself raises is not a run of the model,
    so what is stated of a run that goes through [open] is stated of a run
    in which [open] returned. *)

From Stdlib Require Import ZArith NArith List String Ascii Bool Lia.
From stdpp Require Import base option list gmap strings.
Import ListNotations.

Local Open Scope string_scope.
Local Open Scope list_scope.
Local Open Scope Z_scope.
Local Set Warnings "-register-all,-abstract-large-number".

(** ** Python values *)

(** What [json.loads] produces.  A [JObj] is a [dict]: its members in the
    order of insertion, no key twice.  A [JFloat] carries the text of the
    number. *)
Inductive json : Type :=
| JNull
| JBool (b : bool)
| JInt (z : Z)
| JFloat (repr : string)
| JStr (s : string)
| JArr (items : list json)
| JObj (members : list (string * json)).

Inductive exn : Type :=
| KeyError
| TypeError
| AttributeError
| ValueError
| OverflowError
| UnicodeDecodeError
| FileNotFoundError
| RequestException.

(** How a piece of Python code ends: with a value, in [exit(code)], or in
    an exception that nothing in the script catches. *)
Inductive outcome (A : Type) : Type :=
| Ret (a : A)
| Exit (code : Z)
| Raise (e : exn).
Arguments Ret {A} a.
Arguments Exit {A} code.
Arguments Raise {A} e.

(** The status the process ends with. *)
Definition exit_status {A} (o : outcome A) : Z :=
  match o with
  | Ret _ => 0
  | Exit code => code
  | Raise _ => 1
  end.

(** ** The outside world *)

Inductive payload : Type :=
| JsonDumps (j : json)
| Body (s : string).

Record request : Type := mkRequest {
  req_url : string;
  req_headers : list (string * option string);
  req_data : payload }.

Record response : Type := mkResponse {
  status_code : Z;
  content : string }.

Inductive http_result : Type :=
| Responded (resp : response)
| ConnectionFailed.

Record completed : Type := mkCompleted {
  returncode : Z;
  stdout : string;
  stderr : string }.

(** [subprocess.run] either gives a [CompletedProcess] or raises because
    the command could not be started. *)
Inductive proc_result : Type :=
| Completed (c : completed)
| NotStarted.

Record world : Type := mkWorld {
  getenv : string -> option string;
  umask : N;
  io_buffer_size : nat;
  http_post : request -> http_result;
  (* the n-th call of subprocess.run, with its argv *)
  subprocess : nat -> list string -> proc_result }.

(** The functions of the Python library the script calls. *)
Class PyLib : Type := {
  json_loads : string -> option json;
  str_lower : string -> string;
  decode_utf8 : string -> option string;
  (* datetime.fromtimestamp(x).isoformat() for a number x *)
  fromtimestamp_isoformat : json -> option string;
  (* does the path match the glob pattern *)
  glob_match : string -> string -> bool }.

(** ** Files, the state and the trace *)

Record file : Type := mkFile {
  f_mode : N;
  f_data : string }.

Abbreviation filesystem := (gmap string file).

Record state : Type := mkState {
  fs : filesystem;
  (* text written to the open file object and not yet flushed *)
  wbuf : string;
  (* private keys held by the SSH agent *)
  agent : list string;
  (* calls of subprocess.run so far *)
  nspawn : nat }.

(** The level of a call of [logging].  The trace records every call; the
    main block shows [INFO] and [ERROR] always, and [DEBUG] when the
    variable [DEBUG] is set. *)
Inductive level : Type := DEBUG | INFO | ERROR.

Inductive message : Type :=
| MAuthOk (token_head : string)
| MAuthFailed (status : Z) (body : string)
| MNoHome
| MDeleting (path : string)
| MFetchFailed (status : Z) (body : string)
| MGotData (data : json)
| MWrote (alg : json) (expires : string) (publickey : json) (path : string)
| MAdded (out : string)
| MDeleted (path : string)
| MAddFailed (err : string)
| MLeft (path : string).

Inductive event : Type :=
| EPost (r : request)
| ELog (lvl : level) (m : message)
| EGlob (pattern : string) (found : list string)
| ERemove (path : string)
| EOpen (path : string)
| EWrite (path : string) (text : string)
| EChmod (path : string) (mode : N)
| EClose (path : string)
| ERun (argv : list string)
| EUnlink (path : string).

(** An entry of the trace: what was done, and the file system right after. *)
Definition entry : Type := event * filesystem.

(** ** The monad of the script: state, trace, exit and exceptions *)

Definition M (A : Type) : Type := state -> outcome A * state * list entry.

Global Instance M_ret : MRet M := fun A a s => (Ret a, s, []).

Global Instance M_bind : MBind M := fun A B f m s =>
  match m s with
  | (Ret a, s1, t1) => let '(o, s2, t2) := f a s1 in (o, s2, t1 ++ t2)
  | (Exit code, s1, t1) => (Exit code, s1, t1)
  | (Raise e, s1, t1) => (Raise e, s1, t1)
  end.

Definition raise {A} (e : exn) : M A := fun s => (Raise e, s, []).
Definition py_exit {A} (code : Z) : M A := fun s => (Exit code, s, []).

Definition emit (e : event) : M unit := fun s => (Ret tt, s, [(e, fs s)]).

(** [try: body finally: fin], as the [with] statement needs it. *)
Definition finally {A} (body : M A) (fin : M unit) : M A := fun s =>
  let '(o, s1, t1) := body s in
  let '(o2, s2, t2) := fin s1 in
  (match o2 with
   | Ret _ => o
   | Exit code => Exit code
   | Raise e => Raise e
   end, s2, t1 ++ t2).

Fixpoint for_each {A} (l : list A) (body : A -> M unit) : M unit :=
  match l with
  | [] => mret tt
  | x :: rest => body x ;; for_each rest body
  end.

(** The result [r] of a computation that ran after the steps [t]. *)
Definition prepend {A} (t : list entry) (r : outcome A * state * list entry) :
    outcome A * state * list entry :=
  (r.1.1, r.1.2, t ++ r.2).

Definition outcome_of {A} (r : outcome A * state * list entry) : outcome A := r.1.1.
Definition state_of {A} (r : outcome A * state * list entry) : state := r.1.2.
Definition trace_of {A} (r : outcome A * state * list entry) : list entry := r.2.
Definition events_of {A} (r : outcome A * state * list entry) : list event := (trace_of r).*1.

(** ** Operating system and library calls *)

Definition logging (lvl : level) (m : message) : M unit := emit (ELog lvl m).

Definition requests_post (w : world) (r : request) : M response := fun s =>
  match http_post w r with
  | Responded resp => (Ret resp, s, [(EPost r, fs s)])
  | ConnectionFailed => (Raise RequestException, s, [(EPost r, fs s)])
  end.

(** [a or b] on values that are [None] or a [str]: [None] and the empty
    string are false. *)
Definition py_or (a b : option string) : option string :=
  match a with
  | Some EmptyString => b
  | Some s => Some s
  | None => b
  end.

Definition starts_with_sep (s : string) : bool :=
  match s with
  | String c _ => Ascii.eqb c "/"
  | EmptyString => false
  end.

Fixpoint ends_with_sep (s : string) : bool :=
  match s with
  | EmptyString => false
  | String c EmptyString => Ascii.eqb c "/"
  | String _ s' => ends_with_sep s'
  end.

(** One step of [posixpath.join]. *)
Definition join_step (path b : string) : string :=
  if starts_with_sep b then b
  else if String.eqb path "" || ends_with_sep path then path +:+ b
  else path +:+ "/" +:+ b.

Definition os_path_join (a : string) (p : list string) : string :=
  fold_left join_step p a.

(** [open(path, 'w')] where it succeeds: an existing file is truncated and
    keeps its mode, a new one gets mode [0o666 & ~umask].  The failures of
    [open] (a directory that is missing, a name the system refuses) are
    not modelled. *)
Definition created_mode (w : world) : N := N.ldiff 438 (umask w).

Definition py_open (w : world) (path : string) : M unit := fun s =>
  let f := match fs s !! path with
           | Some old => mkFile (f_mode old) ""
           | None => mkFile (created_mode w) ""
           end in
  let fs' := <[path := f]> (fs s) in
  (Ret tt, mkState fs' "" (agent s) (nspawn s), [(EOpen path, fs')]).

Definition append_data (text : string) (f : file) : file :=
  mkFile (f_mode f) (f_data f +:+ text).

(** [f.write(v)]: the text goes to the buffer of the file object, and from
    there to the file once it is longer than the buffer; text that fits
    stays in the buffer until the file is closed. *)
Definition f_write (w : world) (path : string) (v : json) : M unit := fun s =>
  match v with
  | JStr text =>
      let pending := wbuf s +:+ text in
      if (io_buffer_size w <? String.length pending)%nat then
        let fs' := alter (append_data pending) path (fs s) in
        (Ret tt, mkState fs' "" (agent s) (nspawn s), [(EWrite path text, fs')])
      else
        (Ret tt, mkState (fs s) pending (agent s) (nspawn s), [(EWrite path text, fs s)])
  | _ => (Raise TypeError, s, [])
  end.

(** Leaving the [with] block: the buffer is flushed and the file closed. *)
Definition py_close (path : string) : M unit := fun s =>
  let fs' := alter (append_data (wbuf s)) path (fs s) in
  (Ret tt, mkState fs' "" (agent s) (nspawn s), [(EClose path, fs')]).

Definition with_open {A} (w : world) (path : string) (body : M A) : M A :=
  py_open w path ;; finally body (py_close path).

Definition set_mode (mode : N) (f : file) : file := mkFile mode (f_data f).

Definition os_chmod (path : string) (mode : N) : M unit := fun s =>
  match fs s !! path with
  | Some _ =>
      let fs' := alter (set_mode mode) path (fs s) in
      (Ret tt, mkState fs' (wbuf s) (agent s) (nspawn s), [(EChmod path mode, fs')])
  | None => (Raise FileNotFoundError, s, [])
  end.

(** [os.remove] and [os.unlink] are the same function; [ev] tells which
    name the script used. *)
Definition os_remove (ev : string -> event) (path : string) : M unit := fun s =>
  match fs s !! path with
  | Some _ =>
      let fs' := delete path (fs s) in
      (Ret tt, mkState fs' (wbuf s) (agent s) (nspawn s), [(ev path, fs')])
  | None => (Raise FileNotFoundError, s, [])
  end.

(** What a command that ran to its end did to the world outside the file
    system: [ssh-add file] with status 0 has put the key of the file into
    the agent. *)
Definition command_effect (argv : list string) (c : completed) (s : state) : list string :=
  match argv with
  | [cmd; path] =>
      if String.eqb cmd "ssh-add" && (returncode c =? 0) then
        match fs s !! path with
        | Some f => f_data f :: agent s
        | None => agent s
        end
      else agent s
  | _ => agent s
  end.

Definition subprocess_run (w : world) (argv : list string) : M completed := fun s =>
  match subprocess w (nspawn s) argv with
  | Completed c =>
      (Ret c, mkState (fs s) (wbuf s) (command_effect argv c s) (S (nspawn s)),
       [(ERun argv, fs s)])
  | NotStarted =>
      (Raise FileNotFoundError, mkState (fs s) (wbuf s) (agent s) (S (nspawn s)),
       [(ERun argv, fs s)])
  end.

(** ** Operations on Python values *)

Fixpoint assoc (k : string) (kv : list (string * json)) : option json :=
  match kv with
  | [] => None
  | (k', v) :: rest => if String.eqb k k' then Some v else assoc k rest
  end.

(** [v[k]] for a string [k]. *)
Definition subscript (v : json) (k : string) : M json :=
  match v with
  | JObj kv =>
      match assoc k kv with
      | Some x => mret x
      | None => raise KeyError
      end
  | _ => raise TypeError
  end.

(** [v.get(k, default)]. *)
Definition dict_get (v : json) (k : string) (default : json) : M json :=
  match v with
  | JObj kv =>
      match assoc k kv with
      | Some x => mret x
      | None => mret default
      end
  | _ => raise AttributeError
  end.

Fixpoint chars (s : string) : list json :=
  match s with
  | EmptyString => []
  | String c s' => JStr (String c EmptyString) :: chars s'
  end.

(** What [for key in v] goes through. *)
Definition py_iter (v : json) : M (list json) :=
  match v with
  | JArr items => mret items
  | JObj kv => mret (map (fun p => JStr p.1) kv)
  | JStr s => mret (chars s)
  | _ => raise TypeError
  end.

(** [v[0:30]]: a [str] and a [list] can be sliced, nothing else ([dict]
    raises [TypeError] up to Python 3.11 and [KeyError] from 3.12 on). *)
Definition slice30 (v : json) : M json :=
  match v with
  | JStr s => mret (JStr (substring 0 30 s))
  | JArr items => mret (JArr (take 30 items))
  | _ => raise TypeError
  end.

(** [s.strip(c)] for a single character [c]. *)
Fixpoint lstrip (c : ascii) (s : string) : string :=
  match s with
  | String a s' => if Ascii.eqb a c then lstrip c s' else s
  | EmptyString => EmptyString
  end.

Fixpoint rstrip (c : ascii) (s : string) : string :=
  match s with
  | EmptyString => EmptyString
  | String a s' =>
      match rstrip c s' with
      | EmptyString => if Ascii.eqb a c then EmptyString else String a EmptyString
      | r => String a r
      end
  end.

Definition strip (c : ascii) (s : string) : string := rstrip c (lstrip c s).

Definition quote : ascii := "034"%char.

(** ** The script *)

Record fetcher : Type := mkFetcher {
  BASEURL : string;
  token : option string;
  username : string;
  password : string }.

Section Script.
Context `{!PyLib}.

Definition bytes_decode (b : string) : M string :=
  match decode_utf8 b with
  | Some text => mret text
  | None => raise UnicodeDecodeError
  end.

Definition loads (b : string) : M json :=
  match json_loads b with
  | Some v => mret v
  | None => raise ValueError
  end.

(** [v.lower()]: only a [str] has the method. *)
Definition lower (v : json) : M string :=
  match v with
  | JStr s => mret (str_lower s)
  | _ => raise AttributeError
  end.

(** [datetime.fromtimestamp(v).isoformat()]: a number is needed, and one
    the platform can turn into a date. *)
Definition isoformat (v : json) : M string :=
  match v with
  | JInt _ | JFloat _ | JBool _ =>
      match fromtimestamp_isoformat v with
      | Some text => mret text
      | None => raise OverflowError
      end
  | _ => raise TypeError
  end.

Definition glob_glob (pattern : string) : M (list string) := fun s =>
  let found := filter (fun p => glob_match pattern p = true) (map_to_list (fs s)).*1 in
  (Ret found, s, [(EGlob pattern found, fs s)]).

(** *** [CyberarkSSHKeyFetcher.auth] *)

Definition logon_request (self : fetcher) : request :=
  mkRequest (BASEURL self +:+ "/PasswordVault/API/auth/RADIUS/Logon/")
    [("Content-Type", Some "application/json"); ("Accept", Some "application/json")]
    (JsonDumps (JObj [("username", JStr (username self));
                      ("password", JStr (password self));
                      ("type", JStr "radius");
                      ("secureMode", JStr "true")])).

Definition auth (w : world) (self : fetcher) : M fetcher :=
  resp ← requests_post w (logon_request self);
  if status_code resp =? 200 then
    text ← bytes_decode (content resp);
    let tok := strip quote text in
    logging DEBUG (MAuthOk (substring 0 10 tok));;
    mret (mkFetcher (BASEURL self) (Some tok) (username self) (password self))
  else
    logging ERROR (MAuthFailed (status_code resp) (content resp));;
    py_exit 1.

(** *** [CyberarkSSHKeyFetcher.__init__] *)

Definition init (w : world) (baseurl user pass : string) : M fetcher :=
  auth w (mkFetcher baseurl None user pass).

(** *** [CyberarkSSHKeyFetcher.get_ssh_keyfile_path] *)

Definition homepath (w : world) : option string :=
  py_or (getenv w "HOME") (getenv w "USERPROFILE").

Definition get_ssh_keyfile_path (w : world) (keyname : string) : M string :=
  match homepath w with
  | None => logging ERROR MNoHome;; py_exit 1
  | Some home => mret (os_path_join home [".ssh"; keyname])
  end.

(** *** [CyberarkSSHKeyFetcher.delete_old_keys] *)

(** Lines 63 and 64: the body of the loop over the files found. *)
Definition remove_one (file : string) : M unit :=
  logging DEBUG (MDeleting file);;
  os_remove ERemove file.

Definition delete_old_keys (filepathprefix : string) : M unit :=
  if String.eqb filepathprefix "" then raise ValueError
  else
    let file_pattern := filepathprefix +:+ "_*" in
    files ← glob_glob file_pattern;
    for_each files remove_one.

(** *** [CyberarkSSHKeyFetcher.get_key] *)

Definition fetch_request (self : fetcher) : request :=
  mkRequest (BASEURL self +:+ "/PasswordVault/API/Users/Secret/SSHKeys/Cache/")
    [("Content-Type", Some "application/json"); ("Accept", Some "application/json");
     ("Authorization", token self)]
    (Body "{}").

(** Lines 68 to 80: the request and the decoding of its answer. *)
Definition fetch_data (w : world) (self : fetcher) : M json :=
  resp ← requests_post w (fetch_request self);
  (if negb (status_code resp =? 200) then
     logging ERROR (MFetchFailed (status_code resp) (content resp));;
     py_exit 1
   else mret tt);;
  data ← loads (content resp);
  logging DEBUG (MGotData data);;
  mret data.

Definition key_filename (filepath fmt alg : string) : string :=
  filepath +:+ "_" +:+ str_lower fmt +:+ "_" +:+ str_lower alg.

(** Lines 86 to 88: the [with] block. *)
Definition write_key_file (w : world) (filename : string) (key : json) : M unit :=
  with_open w filename (
    pk ← subscript key "privateKey";
    f_write w filename pk;;
    os_chmod filename 384).

(** Lines 93 to 101: the listing, and the registration with the agent. *)
Definition register_key (w : world) (filename : string) : M unit :=
  subprocess_run w ["ls"; "-l"; filename];;
  result ← subprocess_run w ["ssh-add"; filename];
  if returncode result =? 0 then
    logging INFO (MAdded (stdout result));;
    os_remove EUnlink filename;;
    logging INFO (MDeleted filename)
  else
    logging ERROR (MAddFailed (stderr result));;
    logging INFO (MLeft filename).

(** Lines 84 to 101: the body of the loop. *)
Definition install_key (w : world) (filepath : string) (data key : json) : M unit :=
  ts ← subscript data "expirationTime";
  expiration_time ← isoformat ts;
  fmt ← subscript key "format";
  fmt_l ← lower fmt;
  alg ← subscript key "keyAlg";
  alg_l ← lower alg;
  let filename := filepath +:+ "_" +:+ fmt_l +:+ "_" +:+ alg_l in
  write_key_file w filename key;;
  alg' ← subscript key "keyAlg";
  pub ← dict_get data "publicKey" (JStr "n/a");
  hint ← slice30 pub;
  logging INFO (MWrote alg' expiration_time hint filename);;
  register_key w filename.

(** Lines 83 to 101: the loop. *)
Definition install_loop (w : world) (filepath : string) (data : json) : M unit :=
  value ← subscript data "value";
  keys ← py_iter value;
  for_each keys (install_key w filepath data).

(** Lines 81 to 101: the path, the purge and the loop. *)
Definition install_all (w : world) (data : json) : M unit :=
  filepath ← get_ssh_keyfile_path w "id_cyberark_session";
  delete_old_keys filepath;;
  install_loop w filepath data.

Definition get_key (w : world) (self : fetcher) : M unit :=
  data ← fetch_data w self;
  install_all w data.

(** *** The main block, from the construction of the fetcher on *)

Definition main (w : world) (baseurl user pass : string) : M unit :=
  app ← init w baseurl user pass;
  get_key w app.

End Script.

(** ** Reading traces and states *)

(** The paths handed to [open], in order. *)
Definition opened (evs : list event) : list string :=
  omap (fun e => match e with EOpen p => Some p | _ => None end) evs.

(** The texts handed to [f.write], each with its path, in order. *)
Definition writes (evs : list event) : list (string * string) :=
  omap (fun e => match e with EWrite p text => Some (p, text) | _ => None end) evs.

(** The commands run, in order. *)
Definition commands_run (evs : list event) : list (list string) :=
  omap (fun e => match e with ERun argv => Some argv | _ => None end) evs.

(** Was the operator told that the key file was left on disk? *)
Definition warned_left (path : string) (evs : list event) : bool :=
  existsb (fun e => match e with
                    | ELog INFO (MLeft p) => String.eqb p path
                    | _ => false
                    end) evs.

(** The messages logged, in order, whatever their level. *)
Definition logged (evs : list event) : list message :=
  omap (fun e => match e with ELog _ m => Some m | _ => None end) evs.

Definition is_glob (e : event) : bool :=
  match e with EGlob _ _ => true | _ => false end.

(** How many times the stale keys were looked up. *)
Definition purge_count (evs : list event) : nat := length (filter (fun e => is_glob e = true) evs).

(** Events of the purge: the lookup and the removals. *)
Definition purge_event (e : event) : bool :=
  match e with EGlob _ _ | ERemove _ => true | _ => false end.

(** Events that create or change a file. *)
Definition write_event (e : event) : bool :=
  match e with EOpen _ | EWrite _ _ | EChmod _ _ | EClose _ => true | _ => false end.

(** Events that touch the file system at all. *)
Definition fs_event (e : event) : bool :=
  match e with
  | EGlob _ _ | ERemove _ | EOpen _ | EWrite _ _ | EChmod _ _ | EClose _ | EUnlink _ => true
  | _ => false
  end.

(** Events the body of the loop can produce. *)
Definition install_event (e : event) : bool :=
  match e with
  | EOpen _ | EWrite _ _ | EChmod _ _ | EClose _ | ELog _ _ | ERun _ | EUnlink _ => true
  | _ => false
  end.

(** The permission bit "read by others" (0o004). *)
Definition world_readable (f : file) : bool := N.testbit (f_mode f) 2.

(** Owner read and write, nothing else (0o600). *)
Definition owner_only (f : file) : Prop := f_mode f = 384%N.

(** The events after which the file at [path] could be read by others. *)
Definition exposed (path : string) (t : list entry) : list event :=
  omap (fun e : entry =>
          match e.2 !! path with
          | Some f => if world_readable f then Some e.1 else None
          | None => None
          end) t.

(** ** The data model of the specification, read off the JSON value *)

(** A KeyRecord: format, algorithm and private key material, all text. *)
Definition key_record (key : json) : option (string * string * string) :=
  match key with
  | JObj kv =>
      match assoc "format" kv, assoc "keyAlg" kv, assoc "privateKey" kv with
      | Some (JStr fmt), Some (JStr alg), Some (JStr pk) => Some (fmt, alg, pk)
      | _, _, _ => None
      end
  | _ => None
  end.

Definition is_number (v : json) : bool :=
  match v with JInt _ | JFloat _ | JBool _ => true | _ => false end.

Section Bundle.
Context `{!PyLib}.

(** The head of a KeyBundle: a numeric expiration time the platform can
    print, and a public key that is absent or text.  The result is the
    printed time and the hint shown in the log. *)
Definition bundle_head (data : json) : option (string * json) :=
  match data with
  | JObj kv =>
      match assoc "expirationTime" kv with
      | Some ts =>
          if is_number ts then
            match fromtimestamp_isoformat ts, assoc "publicKey" kv with
            | Some iso, None => Some (iso, JStr (substring 0 30 "n/a"))
            | Some iso, Some (JStr pub) => Some (iso, JStr (substring 0 30 pub))
            | _, _ => None
            end
          else None
      | None => None
      end
  | _ => None
  end.

(** The stale key files: the existing paths the pattern matches. *)
Definition stale (pattern : string) (m : filesystem) : list string :=
  filter (fun p => glob_match pattern p = true) (map_to_list m).*1.

(** The file system without the stale key files. *)
Definition purged (pattern : string) (m : filesystem) : filesystem :=
  filter (fun kv : string * file => glob_match pattern kv.1 = false) m.

(** The file a record is written to, and the text written. *)
Definition record_file (filepath : string) (key : json) : option (string * string) :=
  match key_record key with
  | Some (fmt, alg, pk) => Some (key_filename filepath fmt alg, pk)
  | None => None
  end.

Definition record_path (filepath : string) (key : json) : option string :=
  fst <$> record_file filepath key.

End Bundle.

(** "The response body with its surrounding quotes removed": [t] is [s]
    without the run of [c] on its left and the run of [c] on its right. *)
Fixpoint all_char (c : ascii) (s : string) : Prop :=
  match s with
  | EmptyString => True
  | String a s' => a = c /\ all_char c s'
  end.

Definition no_lead (c : ascii) (s : string) : Prop :=
  match s with
  | String a _ => a <> c
  | EmptyString => True
  end.

Fixpoint no_trail (c : ascii) (s : string) : Prop :=
  match s with
  | EmptyString => True
  | String a EmptyString => a <> c
  | String _ s' => no_trail c s'
  end.

Definition surrounding_removed (c : ascii) (s t : string) : Prop :=
  exists l r, s = l +:+ t +:+ r /\ all_char c l /\ all_char c r /\
              no_lead c t /\ no_trail c t.

(** ** The pieces of a run, for the statements below *)

(** The mode a file has when [open] returns: its old mode, or the mode of
    creation. *)
Definition mode_at_open (w : world) (s : state) (path : string) : N :=
  match fs s !! path with
  | Some old => f_mode old
  | None => created_mode w
  end.

(** The part of the text that [f.write] has already put into the file. *)
Definition early_data (w : world) (pk : string) : string :=
  if (io_buffer_size w <? String.length pk)%nat then pk else "".

(** The four steps of the [with] block, each with the file system it
    leaves. *)
Definition written (w : world) (s : state) (path pk : string) : list entry :=
  [(EOpen path, <[path := mkFile (mode_at_open w s path) ""]> (fs s));
   (EWrite path pk, <[path := mkFile (mode_at_open w s path) (early_data w pk)]> (fs s));
   (EChmod path 384%N, <[path := mkFile 384 (early_data w pk)]> (fs s));
   (EClose path, <[path := mkFile 384 pk]> (fs s))].

(** The removals of the purge, in the order of the files found. *)
Definition removals (found : list string) : list event :=
  flat_map (fun p => [ELog DEBUG (MDeleting p); ERemove p]) found.

(** The two outcomes of the installation of one key. *)
Definition in_agent (r : outcome unit * state * list entry) (path pk : string) : Prop :=
  fs (state_of r) !! path = None /\ pk ∈ agent (state_of r).

Definition left_on_disk (r : outcome unit * state * list entry) (path pk : string) : Prop :=
  fs (state_of r) !! path = Some (mkFile 384 pk) /\
  warned_left path (events_of r) = true.

(** Every command handed to [subprocess.run] can be started. *)
Definition commands_start (w : world) : Prop :=
  forall n cmd args, exists c, subprocess w n (cmd :: args) = Completed c.

(** All entries of the trace of a computation satisfy [P], whatever the
    state it starts in. *)
Definition emits (P : event -> bool) {A} (m : M A) : Prop :=
  forall s, Forall (fun e : entry => P e.1 = true) (trace_of (m s)).

Definition not_purge (e : event) : bool := negb (purge_event e).

(** ** More readers of traces, and more pieces of statements *)

(** The requests sent, in order. *)
Definition posts (evs : list event) : list request :=
  omap (fun e => match e with EPost r => Some r | _ => None end) evs.

Definition is_post (e : event) : bool :=
  match e with EPost _ => true | _ => false end.

(** The file at [q], or its absence, is the same after every step of [m]
    and at its end, whatever the state [m] starts in. *)
Definition keeps (q : string) {A} (m : M A) : Prop :=
  forall s, fs (state_of (m s)) !! q = fs s !! q /\
            Forall (fun e : entry => e.2 !! q = fs s !! q) (trace_of (m s)).

Definition is_run (e : event) : bool :=
  match e with ERun _ => true | _ => false end.

(** A step that runs a command runs [ls -l] or [ssh-add] on one path, and
    at that moment the file at the path has mode 0o600. *)
Definition run_on_protected (e : entry) : Prop :=
  match e.1 with
  | ERun argv =>
      exists p f, (argv = ["ls"; "-l"; p] \/ argv = ["ssh-add"; p]) /\
                  e.2 !! p = Some f /\ owner_only f
  | _ => True
  end.

(** The same for the record [key] installed under the prefix [filepath]:
    the path is the file of the record, and the file holds the whole key. *)
Definition run_on_key_file (filepath : string) `{!PyLib} (key : json) (e : entry) : Prop :=
  match e.1 with
  | ERun argv =>
      exists fmt alg pk,
        key_record key = Some (fmt, alg, pk) /\
        (argv = ["ls"; "-l"; key_filename filepath fmt alg] \/
         argv = ["ssh-add"; key_filename filepath fmt alg]) /\
        e.2 !! key_filename filepath fmt alg = Some (mkFile 384 pk)
  | _ => True
  end.

(** Every entry of the trace of [m] satisfies [P], whatever the state. *)
Definition always (P : entry -> Prop) {A} (m : M A) : Prop :=
  forall s, Forall P (trace_of (m s)).

(** A computation that neither changes the state nor leaves a step. *)
Definition pure {A} (m : M A) : Prop :=
  forall s, state_of (m s) = s /\ trace_of (m s) = [].

(** The file system with the key [kf.2] in the file [kf.1], mode 0o600. *)
Definition put_key (m : filesystem) (kf : string * string) : filesystem :=
  <[kf.1 := mkFile 384 kf.2]> m.

(** [ssh-add] ends with a status other than 0 whenever it runs: no agent. *)
Definition agent_refuses (w : world) : Prop :=
  forall n path c, subprocess w n ["ssh-add"; path] = Completed c -> returncode c <> 0.

(** [ssh-add] ends with status 0 whenever it runs. *)
Definition agent_accepts (w : world) : Prop :=
  forall n path c, subprocess w n ["ssh-add"; path] = Completed c -> returncode c = 0.

Definition is_unlink (e : event) : bool :=
  match e with EUnlink _ => true | _ => false end.

(** [null], a truth value or a number: neither iterable nor sliceable. *)
Definition is_scalar (v : json) : bool :=
  match v with JNull | JBool _ | JInt _ | JFloat _ => true | _ => false end.

Definition is_text (v : json) : bool :=
  match v with JStr _ => true | _ => false end.

Definition is_object (v : json) : bool :=
  match v with JObj _ => true | _ => false end.

(** When [m] ends in [exit(code)], the code is 1. *)
Definition exits_with_one {A} (m : M A) : Prop :=
  forall s code, outcome_of (m s) = Exit code -> code = 1.

(** ** The main block

    The lines that run the fetcher: the level of the log, the [.env] file,
    the command line, the two prompts, and the handler of
    [KeyboardInterrupt].  What [argparse] reads off the command line, the
    values of the [.env] file, the login name and what is typed at the
    prompts are inputs, the fields of a [terminal].  Ctrl-C is an answer to
    a prompt: an interrupt at another moment (before the [try] statement,
    while the fetcher runs, inside the handler) is not part of the model,
    and neither is a [.env] file that cannot be read. *)

(** What [parser.parse_args()] gives: the two options, each [None] when it
    is not on the command line, or the end of the process ([argparse] exits
    with status 2 on a command line it cannot read, with status 0 after
    [--help]). *)
Inductive parsed : Type :=
| Namespace (server username : option string)
| ParserExit (code : Z).

(** What a prompt comes back with: a line, Ctrl-C ([KeyboardInterrupt]) or
    the end of the input ([EOFError]). *)
Inductive answer : Type :=
| Line (text : string)
| Interrupt
| EndOfFile.

(** What the main block observes besides the [world]. *)
Record terminal : Type := mkTerminal {
  parse_args : parsed;
  (* the values load_dotenv reads from the .env file beside the script;
     empty when there is no such file *)
  dotenv_values : gmap string (option string);
  (* os.getlogin(); None: it raises OSError *)
  getlogin : option string;
  (* what is typed at input(..) and at getpass.getpass(..) *)
  input : answer;
  getpass : answer }.

Inductive uncaught : Type :=
| FromFetcher (e : exn)
| KeyboardInterrupt
| EOFError
| OSError.

(** How the process ends: at the end of the script, in [exit(code)], or in
    a traceback. *)
Inductive ending : Type :=
| Finished
| SystemExit (code : Z)
| Traceback (e : uncaught).

(** What the main block does, in order; [Step] is a step of the fetcher. *)
Inductive output : Type :=
| SetLevel (threshold : nat)
| Printed (text : string)
| Prompt (text : string)
| PasswordPrompt (text : string)
| Step (e : entry).

(** The numeric levels of [logging]. *)
Definition level_no (l : level) : nat :=
  match l with DEBUG => 10 | INFO => 20 | ERROR => 40 end.

(** A [str] or [None] taken as a condition. *)
Definition truthy (v : option string) : bool :=
  match v with
  | Some (String _ _) => true
  | _ => false
  end.

(** [load_dotenv(path)]: a variable of the file is set unless the
    environment has it already; a name without a value sets nothing. *)
Definition load_dotenv (t : terminal) (w : world) : world :=
  mkWorld (fun name => match getenv w name with
                       | Some v => Some v
                       | None => match dotenv_values t !! name with
                                 | Some (Some v) => Some v
                                 | _ => None
                                 end
                       end)
    (umask w) (io_buffer_size w) (http_post w) (subprocess w).

Definition newline : ascii := "010"%char.

(** Lines 120 to 125. *)
Definition ask_username (t : terminal) (w : world) (arg : option string) :
    (ending + string) * list output :=
  match py_or arg (getenv w "CYBERARK_USERNAME") with
  | Some (String c u) => (inr (String c u), [])
  | _ =>
      match getlogin t with
      | None => (inl (Traceback OSError), [])
      | Some default_username =>
          let prompt := "Enter your Cyberark username [" +:+ default_username +:+ "]: " in
          match input t with
          | Line EmptyString => (inr default_username, [Prompt prompt])
          | Line username => (inr username, [Prompt prompt])
          | Interrupt => (inl (Traceback KeyboardInterrupt), [Prompt prompt])
          | EndOfFile => (inl (Traceback EOFError), [Prompt prompt])
          end
      end
  end.

(** Lines 126 to 129. *)
Definition ask_password (t : terminal) (username : string) :
    (ending + string) * list output :=
  let prompt := "Enter Cyberark password for " +:+ username +:+ ": " in
  match getpass t with
  | Line EmptyString =>
      (inl (SystemExit 1), [PasswordPrompt prompt; Printed "No password set. Exiting."])
  | Line password => (inr password, [PasswordPrompt prompt])
  | Interrupt => (inl (Traceback KeyboardInterrupt), [PasswordPrompt prompt])
  | EndOfFile => (inl (Traceback EOFError), [PasswordPrompt prompt])
  end.

Definition ending_of (o : outcome unit) : ending :=
  match o with
  | Ret _ => Finished
  | Exit code => SystemExit code
  | Raise e => Traceback (FromFetcher e)
  end.

(** The fetcher's steps among the outputs. *)
Definition steps (out : list output) : list entry :=
  omap (fun o => match o with Step e => Some e | _ => None end) out.

(** The prompts shown, in order. *)
Definition prompts (out : list output) : list string :=
  omap (fun o => match o with Prompt p | PasswordPrompt p => Some p | _ => None end) out.

(** The messages that appear in the log: those at or above the level set
    last. *)
Fixpoint displayed (threshold : nat) (out : list output) : list message :=
  match out with
  | [] => []
  | SetLevel n :: rest => displayed n rest
  | Step (ELog lvl m, _) :: rest =>
      if (threshold <=? level_no lvl)%nat then m :: displayed threshold rest
      else displayed threshold rest
  | _ :: rest => displayed threshold rest
  end.

(** The root logger starts at [WARNING]. *)
Definition shown (out : list output) : list message := displayed 30 out.

(** The messages logged at level [INFO] or [ERROR]. *)
Definition logged_above_debug (evs : list event) : list message :=
  omap (fun e => match e with
                 | ELog DEBUG _ => None
                 | ELog _ m => Some m
                 | _ => None
                 end) evs.

(** The messages of the three calls of [logging.debug]: the head of the
    token (line 41), the name of a file about to be deleted (line 63) and
    the dump of the fetched data (line 80). *)
Definition debug_line (m : message) : bool :=
  match m with MAuthOk _ | MDeleting _ | MGotData _ => true | _ => false end.

Section MainBlock.
Context `{!PyLib}.

(** Lines 111 to 132: the body of [try]. *)
Definition try_body (t : terminal) (w : world) (s : state) :
    ending * state * list output :=
  match parse_args t with
  | ParserExit code => (SystemExit code, s, [])
  | Namespace server username =>
      match py_or server (getenv w "CYBERARK_BASEURL") with
      | Some (String c u) =>
          let baseurl := String c u in
          let out1 := [Printed ("Authenticating to " +:+ baseurl)] in
          match ask_username t w username with
          | (inl e, out2) => (e, s, out1 ++ out2)
          | (inr user, out2) =>
              match ask_password t user with
              | (inl e, out3) => (e, s, out1 ++ out2 ++ out3)
              | (inr pass, out3) =>
                  let r := main w baseurl user pass s in
                  (ending_of (outcome_of r), state_of r,
                   out1 ++ out2 ++ out3 ++ (Step <$> trace_of r))
              end
          end
      | _ =>
          (SystemExit 1, s,
           [Printed "Error: Base URL for Cyberark required. Set it either via --server param or CYBERARK_BASEURL env."])
      end
  end.

(** Lines 105 to 135: the level of the log, the [.env] file, the body of
    [try] and the handler of [KeyboardInterrupt]. *)
Definition script (t : terminal) (w : world) (s : state) : ending * state * list output :=
  let levels := SetLevel 20 :: (if truthy (getenv w "DEBUG") then [SetLevel 10] else []) in
  let '(e, s', out) := try_body t (load_dotenv t w) s in
  match e with
  | Traceback KeyboardInterrupt =>
      (SystemExit 1, s', levels ++ out ++ [Printed (String newline "Interrupted.")])
  | _ => (e, s', levels ++ out)
  end.

End MainBlock.

(** Each message has its level. *)
Definition at_its_level (e : event) : bool :=
  match e with
  | ELog lvl m =>
      match m, lvl with
      | (MAuthOk _ | MGotData _ | MDeleting _), DEBUG => true
      | (MAuthFailed _ _ | MNoHome | MFetchFailed _ _ | MAddFailed _), ERROR => true
      | (MWrote _ _ _ _ | MAdded _ | MDeleted _ | MLeft _), INFO => true
      | _, _ => false
      end
  | _ => true
  end.

Definition is_set_level (o : output) : bool :=
  match o with SetLevel _ => true | _ => false end.

(** What [displayed] selects from one event. *)
Definition select (threshold : nat) (e : event) : option message :=
  match e with
  | ELog lvl m => if (threshold <=? level_no lvl)%nat then Some m else None
  | _ => None
  end.

(** ** A concrete library and concrete worlds

    The library instance covers ASCII text, the timestamps (printed for
    UTC) and the response bodies used below, and glob patterns made of a
    literal text followed by one star.  On these it agrees with Python. *)

Module Sample.

(** Text with [']: every ['] stands for a double quote. *)
Fixpoint dq (s : string) : string :=
  match s with
  | EmptyString => EmptyString
  | String c s' => String (if Ascii.eqb c "'" then quote else c) (dq s')
  end.

Definition lower_ascii (c : ascii) : ascii :=
  let n := nat_of_ascii c in
  if ((65 <=? n) && (n <=? 90))%nat then ascii_of_nat (n + 32) else c.

Fixpoint lower_text (s : string) : string :=
  match s with
  | EmptyString => EmptyString
  | String c s' => String (lower_ascii c) (lower_text s')
  end.

Fixpoint is_ascii_text (s : string) : bool :=
  match s with
  | EmptyString => true
  | String c s' => (nat_of_ascii c <? 128)%nat && is_ascii_text s'
  end.

Fixpoint has_sep (s : string) : bool :=
  match s with
  | EmptyString => false
  | String c s' => Ascii.eqb c "/" || has_sep s'
  end.

(** A literal text, then a star that stands for any text without [/]. *)
Fixpoint star_match (pattern path : string) : bool :=
  match pattern with
  | EmptyString => String.eqb path ""
  | String c EmptyString =>
      if Ascii.eqb c "*" then negb (has_sep path) else String.eqb path pattern
  | String c p' =>
      match path with
      | String d s' => Ascii.eqb c d && star_match p' s'
      | EmptyString => false
      end
  end.

Definition rsa_key : json :=
  JObj [("format", JStr "OpenSSH"); ("keyAlg", JStr "RSA");
        ("privateKey", JStr "KEY-MATERIAL-RSA")].

Definition ed_key : json :=
  JObj [("format", JStr "OpenSSH"); ("keyAlg", JStr "ED25519");
        ("privateKey", JStr "KEY-MATERIAL-ED25519")].

(** The same format and algorithm as [rsa_key], in another case. *)
Definition rsa_key_upper : json :=
  JObj [("format", JStr "OPENSSH"); ("keyAlg", JStr "rsa");
        ("privateKey", JStr "KEY-MATERIAL-RSA-2")].

Definition no_private_key : json :=
  JObj [("format", JStr "OpenSSH"); ("keyAlg", JStr "RSA")].

Definition bundle (keys : list json) : json :=
  JObj [("expirationTime", JInt 1700000000); ("publicKey", JStr "ssh-rsa AAAAB3Nza");
        ("value", JArr keys)].

Definition body_empty : string :=
  dq "{'expirationTime': 1700000000, 'publicKey': 'ssh-rsa AAAAB3Nza', 'value': []}".

Definition body_one : string :=
  dq "{'expirationTime': 1700000000, 'publicKey': 'ssh-rsa AAAAB3Nza', 'value': [{'format': 'OpenSSH', 'keyAlg': 'RSA', 'privateKey': 'KEY-MATERIAL-RSA'}]}".

Definition body_two : string :=
  dq "{'expirationTime': 1700000000, 'publicKey': 'ssh-rsa AAAAB3Nza', 'value': [{'format': 'OpenSSH', 'keyAlg': 'RSA', 'privateKey': 'KEY-MATERIAL-RSA'}, {'format': 'OpenSSH', 'keyAlg': 'ED25519', 'privateKey': 'KEY-MATERIAL-ED25519'}]}".

Definition body_same_pair : string :=
  dq "{'expirationTime': 1700000000, 'publicKey': 'ssh-rsa AAAAB3Nza', 'value': [{'format': 'OpenSSH', 'keyAlg': 'RSA', 'privateKey': 'KEY-MATERIAL-RSA'}, {'format': 'OPENSSH', 'keyAlg': 'rsa', 'privateKey': 'KEY-MATERIAL-RSA-2'}]}".

Definition body_no_value : string := dq "{'expirationTime': 1700000000}".

Definition body_no_expiration : string :=
  dq "{'value': [{'format': 'OpenSSH', 'keyAlg': 'RSA', 'privateKey': 'KEY-MATERIAL-RSA'}]}".

Definition body_no_private_key : string :=
  dq "{'expirationTime': 1700000000, 'publicKey': 'ssh-rsa AAAAB3Nza', 'value': [{'format': 'OpenSSH', 'keyAlg': 'RSA'}]}".

Definition body_html : string := "<html>Service Unavailable</html>".

Definition bodies : list (string * json) :=
  [(body_empty, bundle []);
   (body_one, bundle [rsa_key]);
   (body_two, bundle [rsa_key; ed_key]);
   (body_same_pair, bundle [rsa_key; rsa_key_upper]);
   (body_no_value, JObj [("expirationTime", JInt 1700000000)]);
   (body_no_expiration, JObj [("value", JArr [rsa_key])]);
   (body_no_private_key, bundle [no_private_key])].

#[export] Instance lib : PyLib := {|
  json_loads b := assoc b bodies;
  str_lower := lower_text;
  decode_utf8 b := if is_ascii_text b then Some b else None;
  fromtimestamp_isoformat v :=
    match v with
    | JInt 1700000000 => Some "2023-11-14T22:13:20"
    | _ => None
    end;
  glob_match := star_match |}.

Definition base : string := "https://pam.example".

Definition environ (home : option string) (name : string) : option string :=
  if String.eqb name "HOME" then home else None.

(** The server answers the logon and the fetch with the given responses. *)
Definition server (logon fetch : response) (r : request) : http_result :=
  if String.eqb (req_url r) (base +:+ "/PasswordVault/API/auth/RADIUS/Logon/")
  then Responded logon else Responded fetch.

Definition token_body : string := dq "'6a1f0c9e-session-token'".

Definition logon_ok : response := mkResponse 200 token_body.

Definition logon_denied : response := mkResponse 401 "Authentication failure".

(** The fetcher after a logon answered with [logon_ok]. *)
Definition session : fetcher :=
  mkFetcher base (Some "6a1f0c9e-session-token") "alice" "pw".

(** [ls] works; [ssh-add] ends with the given status. *)
Definition commands (ssh_add_status : Z) (n : nat) (argv : list string) : proc_result :=
  match argv with
  | cmd :: _ =>
      if String.eqb cmd "ssh-add"
      then Completed (mkCompleted ssh_add_status ""
                        (if ssh_add_status =? 0 then "" else "Could not open a connection to your authentication agent."))
      else Completed (mkCompleted 0 "" "")
  | [] => NotStarted
  end.

(** [ls] works; there is no [ssh-add] to start. *)
Definition no_ssh_add (n : nat) (argv : list string) : proc_result :=
  match argv with
  | cmd :: _ =>
      if String.eqb cmd "ssh-add" then NotStarted else Completed (mkCompleted 0 "" "")
  | [] => NotStarted
  end.

(** [ssh-add] works; there is no [ls] to start. *)
Definition no_ls (n : nat) (argv : list string) : proc_result :=
  match argv with
  | cmd :: _ =>
      if String.eqb cmd "ls" then NotStarted else Completed (mkCompleted 0 "" "")
  | [] => NotStarted
  end.

Definition world_of (home : option string) (logon fetch : response)
    (procs : nat -> list string -> proc_result) : world :=
  mkWorld (environ home) 18 8192 (server logon fetch) procs.

Definition alice : option string := Some "/home/alice".

(** A stale key of an earlier run and a file that is not ours. *)
Definition disk : filesystem :=
  <["/home/alice/.ssh/id_cyberark_session_openssh_dsa" := mkFile 384 "OLD-KEY"]>
  (<["/home/alice/.ssh/id_rsa" := mkFile 384 "MY-KEY"]> ∅).

Definition start : state := mkState disk "" [] 0.

(** The worlds of the runs below: Alice at home or without a home, the
    logon granted or denied, one body for the fetch, and the behaviour of
    [ssh-add]: status 0 (agent running), status 2 (no agent), or missing. *)
Definition w_empty : world := world_of alice logon_ok (mkResponse 200 body_empty) (commands 0).
Definition w_one : world := world_of alice logon_ok (mkResponse 200 body_one) (commands 0).
Definition w_one_no_agent : world :=
  world_of alice logon_ok (mkResponse 200 body_one) (commands 2).
Definition w_one_no_ssh_add : world :=
  world_of alice logon_ok (mkResponse 200 body_one) no_ssh_add.
Definition w_two : world := world_of alice logon_ok (mkResponse 200 body_two) (commands 0).
Definition w_two_no_ssh_add : world :=
  world_of alice logon_ok (mkResponse 200 body_two) no_ssh_add.
Definition w_two_no_ls : world :=
  world_of alice logon_ok (mkResponse 200 body_two) no_ls.
Definition w_same_pair : world :=
  world_of alice logon_ok (mkResponse 200 body_same_pair) (commands 2).
Definition w_no_home : world := world_of None logon_ok (mkResponse 200 body_one) (commands 0).
Definition w_denied : world :=
  world_of alice logon_denied (mkResponse 200 body_one) (commands 0).
Definition w_html : world := world_of alice logon_ok (mkResponse 200 body_html) (commands 0).
Definition w_no_value : world :=
  world_of alice logon_ok (mkResponse 200 body_no_value) (commands 0).
Definition w_no_expiration : world :=
  world_of alice logon_ok (mkResponse 200 body_no_expiration) (commands 0).
Definition w_no_private_key : world :=
  world_of alice logon_ok (mkResponse 200 body_no_private_key) (commands 0).

Definition no_agent_result : completed :=
  mkCompleted 2 "" "Could not open a connection to your authentication agent.".

Definition prefix : string := "/home/alice/.ssh/id_cyberark_session".
Definition rsa_path : string := "/home/alice/.ssh/id_cyberark_session_openssh_rsa".
Definition ed_path : string := "/home/alice/.ssh/id_cyberark_session_openssh_ed25519".

(** The fetch refused, and two records with no agent running. *)
Definition w_fetch_denied : world :=
  world_of alice logon_ok (mkResponse 503 "Service Unavailable") (commands 0).
Definition w_two_no_agent : world :=
  world_of alice logon_ok (mkResponse 200 body_two) (commands 2).



(** [HOME] not set and [USERPROFILE] set to the empty text. *)
Definition w_empty_profile : world :=
  mkWorld (fun name => if String.eqb name "USERPROFILE" then Some "" else None)
    18 8192 (server logon_ok (mkResponse 200 body_one)) (commands 0).

(** A bundle whose [publicKey] is [null]. *)
Definition null_public_key : list (string * json) :=
  [("expirationTime", JInt 1700000000); ("publicKey", JNull); ("value", JArr [rsa_key])].

(** A record whose [keyAlg] is a number. *)
Definition numeric_alg : list (string * json) :=
  [("format", JStr "OpenSSH"); ("keyAlg", JInt 2048); ("privateKey", JStr "KEY-MATERIAL-RSA")].

(** A [.env] file that names the server and asks for the debug log. *)
Definition env_file : gmap string (option string) :=
  <["CYBERARK_BASEURL" := Some base]> (<["DEBUG" := Some "1"]> ∅).

(** No option on the command line; the login name is taken at the first
    prompt, the password typed at the second. *)
Definition at_the_prompts : terminal :=
  mkTerminal (Namespace None None) env_file (Some "alice") (Line "") (Line "pw").

(** Ctrl-C at the prompt for the password. *)
Definition interrupted_terminal : terminal :=
  mkTerminal (Namespace (Some base) (Some "alice")) ∅ (Some "alice") (Line "") Interrupt.

End Sample.

(** * Facts about the monad and about text *)

Lemma result_eta {A} (r : outcome A * state * list entry) :
  r = (outcome_of r, state_of r, trace_of r).
Proof. by destruct r as [[o s] t]. Qed.

Lemma bind_Ret {A B} (m : M A) (f : A -> M B) s a s1 t1 :
  m s = (Ret a, s1, t1) ->
  (m ≫= f) s = prepend t1 (f a s1).
Proof.
  intros Hm. unfold mbind, M_bind. rewrite Hm.
  by destruct (f a s1) as [[o s2] t2].
Qed.

Lemma prepend_nil {A} (r : outcome A * state * list entry) : prepend [] r = r.
Proof. by destruct r as [[o s] t]. Qed.

Lemma prepend_prepend {A} t1 t2 (r : outcome A * state * list entry) :
  prepend t1 (prepend t2 r) = prepend (t1 ++ t2) r.
Proof. destruct r as [[o s] t]. unfold prepend. simpl. by rewrite app_assoc. Qed.

Lemma outcome_prepend {A} t (r : outcome A * state * list entry) :
  outcome_of (prepend t r) = outcome_of r.
Proof. done. Qed.

Lemma state_prepend {A} t (r : outcome A * state * list entry) :
  state_of (prepend t r) = state_of r.
Proof. done. Qed.

Lemma trace_prepend {A} t (r : outcome A * state * list entry) :
  trace_of (prepend t r) = t ++ trace_of r.
Proof. done. Qed.

Lemma events_prepend {A} t (r : outcome A * state * list entry) :
  events_of (prepend t r) = t.*1 ++ events_of r.
Proof. unfold events_of. by rewrite trace_prepend, fmap_app. Qed.

Lemma ret_bind {A B} (a : A) (f : A -> M B) s : (mret a ≫= f) s = f a s.
Proof. unfold mbind, M_bind, mret, M_ret. by destruct (f a s) as [[o s2] t2]. Qed.

Lemma bind_Exit {A B} (m : M A) (f : A -> M B) s code s1 t1 :
  m s = (Exit code, s1, t1) -> (m ≫= f) s = (Exit code, s1, t1).
Proof. intros Hm. unfold mbind, M_bind. by rewrite Hm. Qed.

Lemma bind_Raise {A B} (m : M A) (f : A -> M B) s e s1 t1 :
  m s = (Raise e, s1, t1) -> (m ≫= f) s = (Raise e, s1, t1).
Proof. intros Hm. unfold mbind, M_bind. by rewrite Hm. Qed.

Lemma for_each_cons {A} (x : A) (l : list A) (body : A -> M unit) s s1 t1 :
  body x s = (Ret tt, s1, t1) ->
  for_each (x :: l) body s = prepend t1 (for_each l body s1).
Proof. intros Hb. simpl. by rewrite (bind_Ret _ _ _ _ _ _ Hb). Qed.

Lemma for_each_stop {A} (x : A) (l : list A) (body : A -> M unit) s r :
  body x s = r -> outcome_of r <> Ret tt -> for_each (x :: l) body s = r.
Proof.
  intros <- Hne. simpl. unfold mbind, M_bind.
  destruct (body x s) as [[[[]| |] s1] t1]; unfold outcome_of in *; simpl in *; congruence.
Qed.

Lemma append_empty_r (s : string) : s +:+ "" = s.
Proof.
  induction s as [|a s IH]; [reflexivity|].
  change (String a (s +:+ "") = String a s). by rewrite IH.
Qed.

Lemma append_cons (a : ascii) (s t : string) : String a s +:+ t = String a (s +:+ t).
Proof. reflexivity. Qed.

Lemma append_assoc (s t u : string) : (s +:+ t) +:+ u = s +:+ t +:+ u.
Proof.
  induction s as [|a s IH]; [reflexivity|].
  rewrite !append_cons. by rewrite IH.
Qed.

(** * The [with] block *)

Lemma key_record_inv key fmt alg pk :
  key_record key = Some (fmt, alg, pk) ->
  exists kv, key = JObj kv /\ assoc "format" kv = Some (JStr fmt) /\
             assoc "keyAlg" kv = Some (JStr alg) /\
             assoc "privateKey" kv = Some (JStr pk).
Proof.
  intros Hk. destruct key as [| | | | |? |kv]; try discriminate.
  exists kv. simpl in Hk.
  destruct (assoc "format" kv) as [[]|]; try discriminate.
  destruct (assoc "keyAlg" kv) as [[]|]; try discriminate.
  destruct (assoc "privateKey" kv) as [[]|]; try discriminate.
  by injection Hk as -> -> ->.
Qed.

Lemma write_key_file_ok w path key fmt alg pk s :
  key_record key = Some (fmt, alg, pk) ->
  write_key_file w path key s =
    (Ret tt, mkState (<[path := mkFile 384 pk]> (fs s)) "" (agent s) (nspawn s),
     written w s path pk).
Proof.
  intros (kv & -> & _ & _ & Hp)%key_record_inv.
  unfold write_key_file, with_open, finally, py_open, f_write, os_chmod, py_close, subscript.
  unfold mbind, M_bind, mret, M_ret, written, mode_at_open, early_data. simpl.
  rewrite Hp. simpl. change ("" +:+ pk) with pk.
  destruct (io_buffer_size w <? String.length pk)%nat; simpl;
    rewrite ?lookup_alter_eq, ?lookup_insert_eq; simpl;
    rewrite ?alter_insert_eq; simpl;
    unfold append_data, set_mode; simpl; rewrite ?append_empty_r;
    by destruct (fs s !! path).
Qed.

(** A record without [privateKey]: the file is created and closed, and the
    mode is never set. *)
Lemma write_key_file_no_private_key w path kv s :
  assoc "privateKey" kv = None ->
  let fs1 := <[path := mkFile (mode_at_open w s path) ""]> (fs s) in
  write_key_file w path (JObj kv) s =
    (Raise KeyError, mkState fs1 "" (agent s) (nspawn s),
     [(EOpen path, fs1); (EClose path, fs1)]).
Proof.
  intros Hp fs1.
  unfold write_key_file, with_open, finally, py_open, f_write, os_chmod, py_close, subscript.
  unfold mbind, M_bind, mret, M_ret, raise, written, mode_at_open. simpl.
  rewrite Hp. simpl. rewrite alter_insert_eq. subst fs1. unfold mode_at_open, append_data.
  by destruct (fs s !! path); simpl.
Qed.

(** * The body of the loop *)

Section Install.
Context `{!PyLib}.

Lemma bundle_head_inv data iso hint :
  bundle_head data = Some (iso, hint) ->
  exists kv ts pub,
    data = JObj kv /\ assoc "expirationTime" kv = Some ts /\
    isoformat ts = mret iso /\
    dict_get data "publicKey" (JStr "n/a") = mret pub /\ slice30 pub = mret hint.
Proof.
  intros Hd. destruct data as [| | | | |? |kv]; try discriminate.
  simpl in Hd. destruct (assoc "expirationTime" kv) as [ts|] eqn:Hts; [|discriminate].
  destruct (is_number ts) eqn:Hn; [|discriminate].
  destruct (fromtimestamp_isoformat ts) as [iso'|] eqn:Hiso; [|discriminate].
  assert (isoformat ts = mret iso') as Hi.
  { unfold isoformat. destruct ts; try discriminate; by rewrite Hiso. }
  unfold dict_get.
  destruct (assoc "publicKey" kv) as [[| | | |pub| |]|]; try discriminate;
    injection Hd as <- <-.
  - by exists kv, ts, (JStr pub).
  - by exists kv, ts, (JStr "n/a").
Qed.

(** Up to the log line, the body of the loop does not depend on the
    commands: the file is written, and the rest is [register_key]. *)
Lemma install_key_head w filepath data key iso hint fmt alg pk s :
  bundle_head data = Some (iso, hint) ->
  key_record key = Some (fmt, alg, pk) ->
  let path := key_filename filepath fmt alg in
  let fs1 := <[path := mkFile 384 pk]> (fs s) in
  let s1 := mkState fs1 "" (agent s) (nspawn s) in
  install_key w filepath data key s =
    prepend (written w s path pk ++ [(ELog INFO (MWrote (JStr alg) iso hint path), fs1)])
      (register_key w path s1).
Proof.
  intros (dkv & ts & pub & -> & Hts & Hiso & Hpub & Hhint)%bundle_head_inv Hk path fs1 s1.
  pose proof (write_key_file_ok w path key fmt alg pk s Hk) as Hw.
  apply key_record_inv in Hk as (kv & -> & Hf & Ha & Hp).
  unfold install_key, subscript.
  rewrite Hts, ret_bind, Hiso, ret_bind, Hf, ret_bind. cbn [lower]. rewrite ret_bind.
  rewrite Ha, ret_bind. cbn [lower]. rewrite ret_bind.
  fold (key_filename filepath fmt alg). fold path.
  rewrite (bind_Ret _ _ _ _ _ _ Hw).
  rewrite ret_bind, Hpub, ret_bind, Hhint, ret_bind.
  rewrite (bind_Ret _ _ _ tt s1 [(ELog INFO (MWrote (JStr alg) iso hint path), fs1)]); [|done].
  by rewrite prepend_prepend.
Qed.

Lemma register_key_ok w path s c1 c f :
  subprocess w (nspawn s) ["ls"; "-l"; path] = Completed c1 ->
  subprocess w (S (nspawn s)) ["ssh-add"; path] = Completed c ->
  fs s !! path = Some f ->
  register_key w path s =
    if returncode c =? 0 then
      (Ret tt, mkState (delete path (fs s)) (wbuf s) (f_data f :: agent s) (S (S (nspawn s))),
       [(ERun ["ls"; "-l"; path], fs s); (ERun ["ssh-add"; path], fs s);
        (ELog INFO (MAdded (stdout c)), fs s);
        (EUnlink path, delete path (fs s));
        (ELog INFO (MDeleted path), delete path (fs s))])
    else
      (Ret tt, mkState (fs s) (wbuf s) (agent s) (S (S (nspawn s))),
       [(ERun ["ls"; "-l"; path], fs s); (ERun ["ssh-add"; path], fs s);
        (ELog ERROR (MAddFailed (stderr c)), fs s);
        (ELog INFO (MLeft path), fs s)]).
Proof.
  intros Hls Hadd Hf. unfold register_key.
  rewrite (bind_Ret _ _ s c1 (mkState (fs s) (wbuf s) (agent s) (S (nspawn s)))
             [(ERun ["ls"; "-l"; path], fs s)]);
    [|by unfold subprocess_run; rewrite Hls].
  rewrite (bind_Ret _ _ _ c
             (mkState (fs s) (wbuf s)
                (if returncode c =? 0 then f_data f :: agent s else agent s)
                (S (S (nspawn s))))
             [(ERun ["ssh-add"; path], fs s)]).
  2:{ unfold subprocess_run. simpl. rewrite Hadd. unfold command_effect. simpl.
      rewrite Hf. by destruct (returncode c =? 0). }
  destruct (returncode c =? 0); unfold prepend, mbind, M_bind, logging, emit, os_remove; simpl.
  - by rewrite Hf.
  - done.
Qed.

Lemma register_key_no_ls w path s :
  subprocess w (nspawn s) ["ls"; "-l"; path] = NotStarted ->
  register_key w path s =
    (Raise FileNotFoundError, mkState (fs s) (wbuf s) (agent s) (S (nspawn s)),
     [(ERun ["ls"; "-l"; path], fs s)]).
Proof.
  intros Hls. unfold register_key, mbind, M_bind, subprocess_run. by rewrite Hls.
Qed.

Lemma register_key_no_ssh_add w path s c1 :
  subprocess w (nspawn s) ["ls"; "-l"; path] = Completed c1 ->
  subprocess w (S (nspawn s)) ["ssh-add"; path] = NotStarted ->
  register_key w path s =
    (Raise FileNotFoundError, mkState (fs s) (wbuf s) (agent s) (S (S (nspawn s))),
     [(ERun ["ls"; "-l"; path], fs s); (ERun ["ssh-add"; path], fs s)]).
Proof.
  intros Hls Hadd. unfold register_key, mbind, M_bind, subprocess_run. simpl.
  rewrite Hls. simpl. by rewrite Hadd.
Qed.
End Install.

(** * The purge *)

Lemma delete_all_lookup (found : list string) (m : filesystem) (q : string) :
  foldr delete m found !! q = if decide (q ∈ found) then None else m !! q.
Proof.
  induction found as [|p l IH]; cbn [foldr].
  - rewrite decide_False; [done|]. by intros ?%elem_of_nil.
  - destruct (decide (p = q)) as [->|Hne].
    + rewrite lookup_delete_eq. rewrite decide_True; [done|]. by apply elem_of_cons; left.
    + rewrite lookup_delete_ne by done. rewrite IH.
      destruct (decide (q ∈ l)) as [Hq|Hq].
      * rewrite decide_True; [done|]. by apply elem_of_cons; right.
      * rewrite decide_False; [done|]. intros [?|?]%elem_of_cons; congruence.
Qed.

Lemma delete_all_delete (found : list string) (m : filesystem) (p : string) :
  foldr delete (delete p m) found = delete p (foldr delete m found).
Proof.
  apply map_eq. intros q. rewrite delete_all_lookup.
  destruct (decide (p = q)) as [->|Hne].
  - rewrite !lookup_delete_eq. by destruct (decide (q ∈ found)).
  - rewrite !lookup_delete_ne by done. by rewrite delete_all_lookup.
Qed.

Lemma remove_all_ok (found : list string) (s : state) :
  NoDup found ->
  (forall p, p ∈ found -> is_Some (fs s !! p)) ->
  exists tr,
    for_each found remove_one s =
      (Ret tt, mkState (foldr delete (fs s) found) (wbuf s) (agent s) (nspawn s), tr) /\
    tr.*1 = removals found.
Proof.
  revert s. induction found as [|p l IH]; intros s Hnd Hin.
  - exists []. by destruct s.
  - apply NoDup_cons in Hnd as [Hp Hnd].
    destruct (Hin p) as [f Hf]; [set_solver|].
    set (s1 := mkState (delete p (fs s)) (wbuf s) (agent s) (nspawn s)).
    destruct (IH s1 Hnd) as (tr & Hrun & Htr).
    { intros q Hq. simpl. rewrite lookup_delete_ne; [apply Hin; set_solver|].
      intros ->. done. }
    exists ([(ELog DEBUG (MDeleting p), fs s); (ERemove p, delete p (fs s))] ++ tr).
    split.
    + rewrite (for_each_cons _ _ _ s s1 [(ELog DEBUG (MDeleting p), fs s); (ERemove p, delete p (fs s))]).
      * rewrite Hrun. unfold prepend. simpl. by rewrite delete_all_delete.
      * unfold remove_one, mbind, M_bind, logging, emit, os_remove. simpl. by rewrite Hf.
    + rewrite fmap_app, Htr. done.
Qed.

Section Purge.
Context `{!PyLib}.

Lemma stale_purged (pattern : string) (m : filesystem) :
  foldr delete m (stale pattern m) = purged pattern m.
Proof.
  apply map_eq. intros q. rewrite delete_all_lookup. unfold purged, stale.
  destruct (m !! q) as [f|] eqn:Hq.
  - destruct (glob_match pattern q) eqn:Hg.
    + rewrite decide_True.
      * symmetry. apply map_lookup_filter_None. right. intros f' _. simpl. congruence.
      * apply list_elem_of_filter. split; [done|].
        apply list_elem_of_fmap. exists (q, f). split; [done|].
        by apply elem_of_map_to_list.
    + rewrite decide_False.
      * symmetry. by apply map_lookup_filter_Some.
      * intros [Hg' _]%list_elem_of_filter. congruence.
  - destruct (decide _); symmetry; apply map_lookup_filter_None; by left.
Qed.

Lemma delete_old_keys_ok (prefix : string) (s : state) :
  prefix <> "" ->
  let pattern := prefix +:+ "_*" in
  exists tr,
    delete_old_keys prefix s =
      (Ret tt, mkState (purged pattern (fs s)) (wbuf s) (agent s) (nspawn s), tr) /\
    tr.*1 = EGlob pattern (stale pattern (fs s)) :: removals (stale pattern (fs s)).
Proof.
  intros Hne pattern. unfold delete_old_keys.
  destruct (String.eqb_spec prefix "") as [|_]; [done|].
  fold pattern.
  destruct (remove_all_ok (stale pattern (fs s)) s) as (tr & Hrun & Htr).
  { unfold stale. apply NoDup_filter, NoDup_fst_map_to_list. }
  { intros p [_ Hp]%list_elem_of_filter.
    apply list_elem_of_fmap in Hp as ([q f] & -> & Hp). simpl.
    apply elem_of_map_to_list in Hp. by exists f. }
  exists ((EGlob pattern (stale pattern (fs s)), fs s) :: tr). split.
  - rewrite (bind_Ret _ _ s (stale pattern (fs s)) s [(EGlob pattern (stale pattern (fs s)), fs s)]);
      [|done].
    rewrite Hrun.
    unfold prepend. simpl. by rewrite stale_purged.
  - by rewrite fmap_cons, Htr.
Qed.

End Purge.

(** * What each part of the run may put into the trace *)

Lemma emits_ret P {A} (a : A) : emits P (mret a).
Proof. intros s. constructor. Qed.

Lemma emits_raise P {A} e : emits P (@raise A e).
Proof. intros s. constructor. Qed.

Lemma emits_exit P {A} code : emits P (@py_exit A code).
Proof. intros s. constructor. Qed.

Lemma emits_bind P {A B} (m : M A) (f : A -> M B) :
  emits P m -> (forall a, emits P (f a)) -> emits P (m ≫= f).
Proof.
  intros Hm Hf s. specialize (Hm s). unfold mbind, M_bind.
  destruct (m s) as [[[a| |] s1] t1]; try done.
  specialize (Hf a s1). destruct (f a s1) as [[o s2] t2].
  apply Forall_app. by split.
Qed.

Lemma emits_finally P {A} (m : M A) (fin : M unit) :
  emits P m -> emits P fin -> emits P (finally m fin).
Proof.
  intros Hm Hf s. specialize (Hm s). unfold finally.
  destruct (m s) as [[o s1] t1]. specialize (Hf s1).
  destruct (fin s1) as [[o2 s2] t2]. apply Forall_app. by split.
Qed.

Lemma emits_for_each P {A} (l : list A) (body : A -> M unit) :
  (forall x, emits P (body x)) -> emits P (for_each l body).
Proof.
  intros Hb. induction l as [|x l IH]; simpl.
  - apply emits_ret.
  - by apply emits_bind.
Qed.

Lemma emits_emit (P : event -> bool) e : P e = true -> emits P (emit e).
Proof. intros He s. by repeat constructor. Qed.

Lemma emits_subscript P v k : emits P (subscript v k).
Proof.
  destruct v; try apply emits_raise. simpl.
  destruct (assoc k members); [apply emits_ret | apply emits_raise].
Qed.

Lemma emits_dict_get P v k d : emits P (dict_get v k d).
Proof.
  destruct v; try apply emits_raise. simpl.
  destruct (assoc k members); apply emits_ret.
Qed.

Lemma emits_slice30 P v : emits P (slice30 v).
Proof. destruct v; first [apply emits_raise | apply emits_ret]. Qed.

Lemma emits_py_iter P v : emits P (py_iter v).
Proof. destruct v; first [apply emits_raise | apply emits_ret]. Qed.

Lemma emits_py_open (P : event -> bool) w path :
  P (EOpen path) = true -> emits P (py_open w path).
Proof. intros He s. by repeat constructor. Qed.

Lemma emits_py_close (P : event -> bool) path :
  P (EClose path) = true -> emits P (py_close path).
Proof. intros He s. by repeat constructor. Qed.

Lemma emits_f_write (P : event -> bool) w path v :
  (forall text, P (EWrite path text) = true) -> emits P (f_write w path v).
Proof.
  intros He s. unfold f_write.
  destruct v; try (by constructor).
  destruct (_ <? _)%nat; simpl; repeat constructor; apply He.
Qed.

Lemma emits_os_chmod (P : event -> bool) path mode :
  P (EChmod path mode) = true -> emits P (os_chmod path mode).
Proof.
  intros He s. unfold os_chmod. destruct (fs s !! path); by repeat constructor.
Qed.

Lemma emits_os_remove (P : event -> bool) ev path :
  P (ev path) = true -> emits P (os_remove ev path).
Proof.
  intros He s. unfold os_remove. destruct (fs s !! path); by repeat constructor.
Qed.

Lemma emits_subprocess_run (P : event -> bool) w argv :
  P (ERun argv) = true -> emits P (subprocess_run w argv).
Proof.
  intros He s. unfold subprocess_run.
  destruct (subprocess w (nspawn s) argv); by repeat constructor.
Qed.

Section Emits.
Context `{!PyLib}.

Lemma emits_lower P v : emits P (lower v).
Proof. destruct v; first [apply emits_raise | apply emits_ret]. Qed.

Lemma emits_isoformat P v : emits P (isoformat v).
Proof.
  destruct v; try apply emits_raise; simpl;
    destruct (fromtimestamp_isoformat _); first [apply emits_raise | apply emits_ret].
Qed.

Lemma emits_install_key (P : event -> bool) w filepath data key :
  (forall e, install_event e = true -> P e = true) ->
  emits P (install_key w filepath data key).
Proof.
  intros HP. unfold install_key, write_key_file, with_open, register_key, logging.
  repeat first
    [ apply emits_bind; [|intros ?]
    | apply emits_finally
    | apply emits_subscript | apply emits_dict_get | apply emits_slice30
    | apply emits_lower | apply emits_isoformat | apply emits_ret
    | apply emits_py_open | apply emits_py_close | apply emits_f_write; intros ?
    | apply emits_os_chmod | apply emits_os_remove | apply emits_subprocess_run
    | apply emits_emit
    | match goal with |- emits _ (if ?b then _ else _) => destruct b end
    | by apply HP ].
Qed.

Lemma emits_install_loop (P : event -> bool) w filepath data :
  (forall e, install_event e = true -> P e = true) ->
  emits P (install_loop w filepath data).
Proof.
  intros HP. unfold install_loop.
  apply emits_bind; [apply emits_subscript|intros value].
  apply emits_bind; [apply emits_py_iter|intros keys].
  apply emits_for_each. intros key. by apply emits_install_key.
Qed.

End Emits.

(** * Reading a trace in pieces *)

Lemma opened_app l1 l2 : opened (l1 ++ l2) = opened l1 ++ opened l2.
Proof. apply omap_app. Qed.

Lemma writes_app l1 l2 : writes (l1 ++ l2) = writes l1 ++ writes l2.
Proof. apply omap_app. Qed.

Lemma commands_run_app l1 l2 : commands_run (l1 ++ l2) = commands_run l1 ++ commands_run l2.
Proof. apply omap_app. Qed.

Lemma purge_count_app l1 l2 : purge_count (l1 ++ l2) = (purge_count l1 + purge_count l2)%nat.
Proof. unfold purge_count. by rewrite filter_app, length_app. Qed.

Lemma purge_count_none (l : list event) :
  Forall (fun e => purge_event e = false) l -> purge_count l = 0%nat.
Proof.
  induction 1 as [|e l He _ IH]; [done|].
  unfold purge_count in *. rewrite filter_cons.
  destruct e; simpl in *; try done; by rewrite decide_False.
Qed.

Lemma purge_count_removals found : purge_count (removals found) = 0%nat.
Proof. induction found as [|p l IH]; [done|]. exact IH. Qed.

Lemma writes_none (l : list event) :
  Forall (fun e => write_event e = false) l -> writes l = [].
Proof.
  induction 1 as [|e l He _ IH]; [done|].
  destruct e; simpl in *; try done.
Qed.

Lemma events_emitted (P : event -> bool) {A} (m : M A) s :
  emits P m -> Forall (fun e => P e = true) (events_of (m s)).
Proof. intros Hm. unfold events_of. apply Forall_fmap. apply Hm. Qed.

(** * The run of [get_key] *)

Lemma ends_with_sep_app (s t : string) :
  t <> "" -> ends_with_sep (s +:+ t) = ends_with_sep t.
Proof.
  intros Ht. induction s as [|a s IH]; [done|].
  rewrite append_cons. simpl. rewrite IH.
  destruct (s +:+ t) eqn:Hst; [|done].
  destruct s; [|discriminate]. simpl in Hst. done.
Qed.

Lemma app_not_empty (s t : string) : t <> "" -> s +:+ t <> "".
Proof. intros Ht. destruct s; [done|discriminate]. Qed.

(** The closed form of [os.path.join(home, '.ssh', keyname)] for a name
    that does not start with a separator. *)
Lemma os_path_join_ssh (home keyname : string) :
  starts_with_sep keyname = false -> keyname <> "" ->
  os_path_join home [".ssh"; keyname] =
    home +:+ (if String.eqb home "" || ends_with_sep home then "" else "/")
         +:+ ".ssh/" +:+ keyname.
Proof.
  intros Hk Hne. unfold os_path_join. simpl. unfold join_step at 2. simpl.
  unfold join_step. rewrite Hk.
  destruct (String.eqb home "" || ends_with_sep home).
  - rewrite ends_with_sep_app by done. simpl.
    destruct (String.eqb_spec (home +:+ ".ssh") "") as [He|_].
    + by apply app_not_empty in He.
    + by rewrite !append_assoc.
  - rewrite ends_with_sep_app by done. simpl.
    destruct (String.eqb_spec (home +:+ "/" +:+ ".ssh") "") as [He|_].
    + by apply app_not_empty in He.
    + by rewrite !append_assoc.
Qed.

Lemma session_prefix_not_empty (home : string) :
  os_path_join home [".ssh"; "id_cyberark_session"] <> "".
Proof.
  rewrite os_path_join_ssh by done.
  rewrite <- !append_assoc. by apply app_not_empty.
Qed.

Section Run.
Context `{!PyLib}.

Lemma fetch_data_ok w self s body data :
  http_post w (fetch_request self) = Responded (mkResponse 200 body) ->
  json_loads body = Some data ->
  fetch_data w self s =
    (Ret data, s,
     [(EPost (fetch_request self), fs s); (ELog DEBUG (MGotData data), fs s)]).
Proof.
  intros Hpost Hload. unfold fetch_data.
  rewrite (bind_Ret _ _ s (mkResponse 200 body) s [(EPost (fetch_request self), fs s)]);
    [|by unfold requests_post; rewrite Hpost].
  simpl. rewrite ret_bind. unfold loads. rewrite Hload, ret_bind.
  done.
Qed.

Lemma keyfile_path_ok w home keyname :
  homepath w = Some home ->
  get_ssh_keyfile_path w keyname = mret (os_path_join home [".ssh"; keyname]).
Proof. intros Hh. unfold get_ssh_keyfile_path. by rewrite Hh. Qed.

Lemma keyfile_path_no_home w keyname s :
  homepath w = None ->
  get_ssh_keyfile_path w keyname s = (Exit 1, s, [(ELog ERROR MNoHome, fs s)]).
Proof. intros Hh. unfold get_ssh_keyfile_path. by rewrite Hh. Qed.

Lemma install_all_ok w data home s :
  homepath w = Some home ->
  let prefix := os_path_join home [".ssh"; "id_cyberark_session"] in
  let pattern := prefix +:+ "_*" in
  exists tr,
    install_all w data s =
      prepend tr (install_loop w prefix data
                    (mkState (purged pattern (fs s)) (wbuf s) (agent s) (nspawn s))) /\
    tr.*1 = EGlob pattern (stale pattern (fs s)) :: removals (stale pattern (fs s)).
Proof.
  intros Hh prefix pattern. unfold install_all.
  rewrite (keyfile_path_ok _ _ _ Hh), ret_bind. fold prefix.
  destruct (delete_old_keys_ok prefix s (session_prefix_not_empty home)) as (tr & Hrun & Htr).
  exists tr. split; [|done]. by rewrite (bind_Ret _ _ _ _ _ _ Hrun).
Qed.

Lemma get_key_ok w self s body data home :
  http_post w (fetch_request self) = Responded (mkResponse 200 body) ->
  json_loads body = Some data ->
  homepath w = Some home ->
  let prefix := os_path_join home [".ssh"; "id_cyberark_session"] in
  let pattern := prefix +:+ "_*" in
  exists tr,
    get_key w self s =
      prepend tr (install_loop w prefix data
                    (mkState (purged pattern (fs s)) (wbuf s) (agent s) (nspawn s))) /\
    tr.*1 = [EPost (fetch_request self); ELog DEBUG (MGotData data)] ++
            EGlob pattern (stale pattern (fs s)) :: removals (stale pattern (fs s)).
Proof.
  intros Hpost Hload Hh prefix pattern. unfold get_key.
  rewrite (bind_Ret _ _ _ _ _ _ (fetch_data_ok _ _ _ _ _ Hpost Hload)).
  destruct (install_all_ok w data home s Hh) as (tr & -> & Htr).
  eexists. rewrite prepend_prepend. split; [done|].
  by rewrite fmap_app, Htr.
Qed.

Lemma purged_lookup pattern (m : filesystem) p :
  purged pattern m !! p = if glob_match pattern p then None else m !! p.
Proof.
  unfold purged. destruct (glob_match pattern p) eqn:Hg.
  - apply map_lookup_filter_None. right. intros f _. simpl. congruence.
  - destruct (m !! p) as [f|] eqn:Hp.
    + by apply map_lookup_filter_Some.
    + apply map_lookup_filter_None. by left.
Qed.

Lemma purged_nothing_stale pattern (m : filesystem) :
  stale pattern m = [] -> purged pattern m = m.
Proof.
  intros Hs. apply map_eq. intros p. rewrite purged_lookup.
  destruct (glob_match pattern p) eqn:Hg; [|done].
  destruct (m !! p) as [f|] eqn:Hp; [|done].
  assert (p ∈ stale pattern m) as Hin.
  { apply list_elem_of_filter. split; [done|].
    apply list_elem_of_fmap. exists (p, f). split; [done|].
    by apply elem_of_map_to_list. }
  rewrite Hs in Hin. by apply elem_of_nil in Hin.
Qed.

End Run.

(** * The loop over the records *)

Section Loop.
Context `{!PyLib}.

Lemma emits_register_key (P : event -> bool) w path :
  (forall e, install_event e = true -> write_event e = false -> P e = true) ->
  emits P (register_key w path).
Proof.
  intros HP. unfold register_key, logging.
  repeat first
    [ apply emits_bind; [|intros ?]
    | apply emits_os_remove | apply emits_subprocess_run | apply emits_emit
    | match goal with |- emits _ (if ?b then _ else _) => destruct b end
    | by apply HP ].
Qed.

Lemma register_key_writes w path s :
  writes (events_of (register_key w path s)) = [] /\
  opened (events_of (register_key w path s)) = [].
Proof.
  pose proof (events_emitted (fun e => negb (write_event e)) (register_key w path) s) as Hev.
  assert (Forall (fun e => write_event e = false) (events_of (register_key w path s))) as Hw.
  { eapply Forall_impl.
    - apply Hev. apply emits_register_key. by intros e _ ->.
    - intros e. simpl. by destruct (write_event e). }
  split; [by apply writes_none|].
  clear Hev. induction Hw as [|e l He _ IH]; [done|]. by destruct e.
Qed.

Lemma install_key_writes w filepath data key iso hint fmt alg pk s :
  bundle_head data = Some (iso, hint) ->
  key_record key = Some (fmt, alg, pk) ->
  let r := install_key w filepath data key s in
  writes (events_of r) = [(key_filename filepath fmt alg, pk)] /\
  opened (events_of r) = [key_filename filepath fmt alg].
Proof.
  intros Hd Hk r. subst r.
  rewrite (install_key_head _ _ _ _ _ _ _ _ _ _ Hd Hk).
  rewrite events_prepend, writes_app, opened_app.
  destruct (register_key_writes w (key_filename filepath fmt alg)
              (mkState (<[key_filename filepath fmt alg := mkFile 384 pk]> (fs s)) ""
                 (agent s) (nspawn s))) as [-> ->].
  done.
Qed.

Lemma install_key_returns w filepath data key iso hint fmt alg pk s :
  bundle_head data = Some (iso, hint) ->
  key_record key = Some (fmt, alg, pk) ->
  commands_start w ->
  outcome_of (install_key w filepath data key s) = Ret tt.
Proof.
  intros Hd Hk Hc.
  rewrite (install_key_head _ _ _ _ _ _ _ _ _ _ Hd Hk), outcome_prepend.
  set (path := key_filename filepath fmt alg).
  destruct (Hc (nspawn s) "ls" ["-l"; path]) as [c1 Hls].
  destruct (Hc (S (nspawn s)) "ssh-add" [path]) as [c Hadd].
  erewrite register_key_ok; [|exact Hls|exact Hadd|simpl; apply lookup_insert_eq].
  by destruct (returncode c =? 0).
Qed.

Lemma loop_writes w filepath data iso hint keys s :
  bundle_head data = Some (iso, hint) ->
  Forall (fun k => is_Some (key_record k)) keys ->
  let r := for_each keys (install_key w filepath data) s in
  exists n : nat,
    (n <= length keys)%nat /\
    writes (events_of r) = take n (omap (record_file filepath) keys) /\
    (outcome_of r = Ret tt -> n = length keys) /\
    (commands_start w -> outcome_of r = Ret tt).
Proof.
  intros Hd Hks. revert s. induction Hks as [|k rest [[[fmt alg] pk] Hk] _ IH]; intros s r.
  - exists 0%nat. by repeat split.
  - subst r.
    pose proof (install_key_writes w filepath data k iso hint fmt alg pk s Hd Hk) as [Hw _].
    pose proof (install_key_returns w filepath data k iso hint fmt alg pk s Hd Hk) as Hret.
    assert (omap (record_file filepath) (k :: rest) =
            (key_filename filepath fmt alg, pk) :: omap (record_file filepath) rest) as Hom.
    { simpl. unfold record_file at 1. by rewrite Hk. }
    rewrite Hom. clear Hom.
    destruct (install_key w filepath data k s) as [[o s1] t1] eqn:Hrun.
    destruct o as [[]| |].
    + rewrite (for_each_cons _ _ _ _ _ _ Hrun).
      destruct (IH s1) as (n & Hn & Hwr & Hall & Hstart).
      exists (S n). rewrite events_prepend, writes_app, outcome_prepend.
      unfold events_of in Hw. simpl in Hw. rewrite Hw, Hwr.
      split; [simpl; lia|]. split; [done|]. split; [|done].
      intros ->%Hall. done.
    + exists 1%nat. rewrite (for_each_stop _ _ _ _ _ Hrun) by done.
      split; [simpl; lia|]. split; [by rewrite Hw|]. split; [done|exact Hret].
    + exists 1%nat. rewrite (for_each_stop _ _ _ _ _ Hrun) by done.
      split; [simpl; lia|]. split; [by rewrite Hw|]. split; [done|exact Hret].
Qed.

(** The body of the loop has no [exit]: for a record of the data model it
    returns or ends in an exception. *)
Lemma install_key_ends w filepath data key iso hint fmt alg pk s :
  bundle_head data = Some (iso, hint) ->
  key_record key = Some (fmt, alg, pk) ->
  outcome_of (install_key w filepath data key s) = Ret tt \/
  exists e, outcome_of (install_key w filepath data key s) = Raise e.
Proof.
  intros Hd Hk.
  rewrite (install_key_head _ _ _ _ _ _ _ _ _ _ Hd Hk), outcome_prepend.
  set (path := key_filename filepath fmt alg).
  set (s1 := mkState _ _ _ _).
  destruct (subprocess w (nspawn s1) ["ls"; "-l"; path]) as [c1|] eqn:Hls.
  - destruct (subprocess w (S (nspawn s1)) ["ssh-add"; path]) as [c|] eqn:Hadd.
    + rewrite (register_key_ok w path s1 c1 c (mkFile 384 pk) Hls Hadd)
        by (simpl; apply lookup_insert_eq).
      left. by destruct (returncode c =? 0).
    + rewrite (register_key_no_ssh_add w path s1 c1 Hls Hadd). right. by eexists.
  - rewrite (register_key_no_ls w path s1 Hls). right. by eexists.
Qed.

Lemma loop_ends w filepath data iso hint keys s :
  bundle_head data = Some (iso, hint) ->
  Forall (fun k => is_Some (key_record k)) keys ->
  let r := for_each keys (install_key w filepath data) s in
  outcome_of r = Ret tt \/ exists e, outcome_of r = Raise e.
Proof.
  intros Hd Hks. revert s. induction Hks as [|k rest [[[fmt alg] pk] Hk] _ IH]; intros s r.
  - by left.
  - subst r.
    pose proof (install_key_ends w filepath data k iso hint fmt alg pk s Hd Hk) as Hend.
    destruct (install_key w filepath data k s) as [[o s1] t1] eqn:Hrun.
    destruct o as [[]|code|e].
    + rewrite (for_each_cons _ _ _ _ _ _ Hrun), outcome_prepend. apply IH.
    + destruct Hend as [Hend|[e Hend]]; discriminate Hend.
    + rewrite (for_each_stop _ _ _ _ _ Hrun) by done. right. by exists e.
Qed.

End Loop.

(** * The purge, once and before the keys *)

Lemma removals_quiet found :
  writes (removals found) = [] /\ opened (removals found) = [] /\
  commands_run (removals found) = [].
Proof. induction found as [|p l IH]; [done|]. exact IH. Qed.

Lemma before_loop_quiet rq data pattern found :
  let pre := [EPost rq; ELog DEBUG (MGotData data)] ++
             EGlob pattern found :: removals found in
  writes pre = [] /\ opened pre = [] /\ commands_run pre = [].
Proof. exact (removals_quiet found). Qed.

Section Claims.
Context `{!PyLib}.

(** C2 (amended): in every run of [get_key] whose fetch is answered with
    status 200 and a body that is JSON, and whose home directory resolves,
    the stale keys are looked up exactly once; nothing is written before
    that; every existing file the pattern [<prefix>_*] matches is removed
    and no other file is; the loop over the records starts in the purged
    file system and never purges again, whatever the bundle holds (also no
    record at all); and with no stale file the purge removes nothing and
    the run goes on. *)
Theorem purge_once_before_writes w self s body data home :
  http_post w (fetch_request self) = Responded (mkResponse 200 body) ->
  json_loads body = Some data ->
  homepath w = Some home ->
  let prefix := os_path_join home [".ssh"; "id_cyberark_session"] in
  let pattern := prefix +:+ "_*" in
  let found := stale pattern (fs s) in
  let loop := install_loop w prefix data
                (mkState (purged pattern (fs s)) (wbuf s) (agent s) (nspawn s)) in
  let r := get_key w self s in
  events_of r =
    [EPost (fetch_request self); ELog DEBUG (MGotData data)] ++
    EGlob pattern found :: removals found ++ events_of loop /\
  purge_count (events_of r) = 1%nat /\
  Forall (fun e => purge_event e = false) (events_of loop) /\
  outcome_of r = outcome_of loop /\
  state_of r = state_of loop /\
  (forall p, purged pattern (fs s) !! p = if glob_match pattern p then None else fs s !! p) /\
  (found = [] -> removals found = [] /\ purged pattern (fs s) = fs s).
Proof.
  intros Hpost Hload Hhome prefix pattern found loop r.
  destruct (get_key_ok w self s body data home Hpost Hload Hhome) as (tr & Hrun & Htr).
  fold prefix pattern in Hrun, Htr. fold loop in Hrun. fold found in Htr.
  assert (Forall (fun e => purge_event e = false) (events_of loop)) as Hloop.
  { eapply Forall_impl.
    - apply (events_emitted not_purge). apply emits_install_loop.
      intros e. by destruct e.
    - intros e. unfold not_purge. by destruct (purge_event e). }
  assert (events_of r =
    [EPost (fetch_request self); ELog DEBUG (MGotData data)] ++
    EGlob pattern found :: removals found ++ events_of loop) as Hev.
  { subst r. rewrite Hrun, events_prepend, Htr. by rewrite <- app_assoc. }
  split; [exact Hev|]. split.
  { rewrite Hev. rewrite purge_count_app.
    change (EGlob pattern found :: removals found ++ events_of loop)
      with ([EGlob pattern found] ++ (removals found ++ events_of loop)).
    rewrite !purge_count_app, purge_count_removals, (purge_count_none _ Hloop).
    done. }
  split; [exact Hloop|].
  subst r. rewrite Hrun.
  split; [done|]. split; [done|]. split.
  - intros p. apply purged_lookup.
  - intros Hf. split; [by rewrite Hf|]. by apply purged_nothing_stale.
Qed.

(** C5 (amended): a fetch answered with status 200 and a JSON object
    whose [value] is an array of N elements gives that object as the data.
    With N = 0 nothing is written, no command is run, the agent is
    unchanged and no exception is raised; the run returns when the home
    directory resolves.  With N records of the data model in a bundle
    whose head is of the data model, and the home directory resolved, the
    key texts handed to [f.write], each with its file, are those of the
    first n records in the order of the array, for some n <= N; n = N in
    every run that returns, and a run with n < N has ended in an
    exception. *)
Theorem records_in_array_order w self s body kv keys :
  http_post w (fetch_request self) = Responded (mkResponse 200 body) ->
  json_loads body = Some (JObj kv) ->
  assoc "value" kv = Some (JArr keys) ->
  let data := JObj kv in
  let r := get_key w self s in
  outcome_of (fetch_data w self s) = Ret data /\
  (keys = [] ->
     writes (events_of r) = [] /\ opened (events_of r) = [] /\
     commands_run (events_of r) = [] /\ agent (state_of r) = agent s /\
     (forall e, outcome_of r <> Raise e) /\
     (forall home, homepath w = Some home -> outcome_of r = Ret tt)) /\
  (forall home iso hint,
     homepath w = Some home ->
     bundle_head data = Some (iso, hint) ->
     Forall (fun k => is_Some (key_record k)) keys ->
     let prefix := os_path_join home [".ssh"; "id_cyberark_session"] in
     exists n : nat,
       (n <= length keys)%nat /\
       writes (events_of r) = take n (omap (record_file prefix) keys) /\
       (outcome_of r = Ret tt -> n = length keys) /\
       ((n < length keys)%nat -> exists e, outcome_of r = Raise e)).
Proof.
  intros Hpost Hload Hvalue data r.
  assert (forall filepath s',
            install_loop w filepath data s' =
            for_each keys (install_key w filepath data) s') as Hloop.
  { intros filepath s'. unfold install_loop, data, subscript.
    rewrite Hvalue, ret_bind. cbn [py_iter]. by rewrite ret_bind. }
  split; [by rewrite (fetch_data_ok _ _ _ _ _ Hpost Hload)|].
  split.
  - intros ->. destruct (homepath w) as [home|] eqn:Hhome.
    + destruct (get_key_ok w self s body data home Hpost Hload Hhome) as (tr & Hrun & Htr).
      subst r. rewrite Hrun, Hloop.
      destruct (before_loop_quiet (fetch_request self) data
                  (os_path_join home [".ssh"; "id_cyberark_session"] +:+ "_*")
                  (stale (os_path_join home [".ssh"; "id_cyberark_session"] +:+ "_*") (fs s)))
        as (Hw & Ho & Hc).
      rewrite events_prepend, Htr, writes_app, opened_app, commands_run_app.
      rewrite Hw, Ho, Hc. by repeat split.
    + subst r. unfold get_key.
      rewrite (bind_Ret _ _ _ _ _ _ (fetch_data_ok _ _ _ _ _ Hpost Hload)).
      unfold install_all.
      rewrite (bind_Exit _ _ _ _ _ _ (keyfile_path_no_home w _ s Hhome)).
      by repeat split.
  - intros home iso hint Hhome Hhead Hkeys prefix.
    destruct (get_key_ok w self s body data home Hpost Hload Hhome) as (tr & Hrun & Htr).
    fold prefix in Hrun, Htr.
    set (s1 := mkState (purged (prefix +:+ "_*") (fs s)) (wbuf s) (agent s) (nspawn s)) in *.
    destruct (loop_writes w prefix data iso hint keys s1 Hhead Hkeys)
      as (n & Hn & Hw & Hall & _).
    pose proof (loop_ends w prefix data iso hint keys s1 Hhead Hkeys) as Hend.
    exists n. subst r. rewrite Hrun, Hloop, events_prepend, writes_app, outcome_prepend, Htr.
    destruct (before_loop_quiet (fetch_request self) data (prefix +:+ "_*")
                (stale (prefix +:+ "_*") (fs s))) as (Hrw & _ & _).
    split; [done|]. split; [by rewrite Hrw|]. split; [exact Hall|].
    intros Hlt. destruct Hend as [Hret|Hraise]; [|exact Hraise].
    apply Hall in Hret. lia.
Qed.

End Claims.

(** * One key: the agent, or the file and a warning *)

Lemma warned_left_app path l1 l2 :
  warned_left path (l1 ++ l2) = warned_left path l1 || warned_left path l2.
Proof. apply existsb_app. Qed.

Lemma warned_after {A} (o : outcome A) st (t : list entry) path fs1 fs2 err :
  warned_left path
    (events_of (o, st, t ++ [(ELog ERROR (MAddFailed err), fs1);
                            (ELog INFO (MLeft path), fs2)])) = true.
Proof.
  unfold events_of, trace_of. cbn [snd]. rewrite fmap_app, warned_left_app. simpl.
  rewrite String.eqb_refl. apply orb_true_r.
Qed.

Section Outcomes.
Context `{!PyLib}.

(** The result of the body of the loop when both commands ran. *)
Lemma install_key_completed w filepath data key iso hint fmt alg pk s c1 c :
  bundle_head data = Some (iso, hint) ->
  key_record key = Some (fmt, alg, pk) ->
  let path := key_filename filepath fmt alg in
  let fs1 := <[path := mkFile 384 pk]> (fs s) in
  let head := written w s path pk ++
              [(ELog INFO (MWrote (JStr alg) iso hint path), fs1);
               (ERun ["ls"; "-l"; path], fs1); (ERun ["ssh-add"; path], fs1)] in
  subprocess w (nspawn s) ["ls"; "-l"; path] = Completed c1 ->
  subprocess w (S (nspawn s)) ["ssh-add"; path] = Completed c ->
  install_key w filepath data key s =
    if returncode c =? 0 then
      (Ret tt, mkState (delete path (fs s)) "" (pk :: agent s) (S (S (nspawn s))),
       head ++ [(ELog INFO (MAdded (stdout c)), fs1);
                (EUnlink path, delete path (fs s));
                (ELog INFO (MDeleted path), delete path (fs s))])
    else
      (Ret tt, mkState fs1 "" (agent s) (S (S (nspawn s))),
       head ++ [(ELog ERROR (MAddFailed (stderr c)), fs1);
                (ELog INFO (MLeft path), fs1)]).
Proof.
  intros Hd Hk path fs1 head Hls Hadd.
  rewrite (install_key_head _ _ _ _ _ _ _ _ _ _ Hd Hk). fold path fs1.
  rewrite (register_key_ok w path _ c1 c (mkFile 384 pk));
    [|exact Hls|exact Hadd|simpl; apply lookup_insert_eq].
  simpl. subst head fs1.
  destruct (returncode c =? 0); unfold prepend; simpl;
    rewrite ?delete_insert_eq; rewrite <- ?app_assoc; done.
Qed.

(** The result of the body of the loop when [ssh-add] could not be
    started. *)
Lemma install_key_not_started w filepath data key iso hint fmt alg pk s c1 :
  bundle_head data = Some (iso, hint) ->
  key_record key = Some (fmt, alg, pk) ->
  let path := key_filename filepath fmt alg in
  let fs1 := <[path := mkFile 384 pk]> (fs s) in
  subprocess w (nspawn s) ["ls"; "-l"; path] = Completed c1 ->
  subprocess w (S (nspawn s)) ["ssh-add"; path] = NotStarted ->
  install_key w filepath data key s =
    (Raise FileNotFoundError, mkState fs1 "" (agent s) (S (S (nspawn s))),
     written w s path pk ++
     [(ELog INFO (MWrote (JStr alg) iso hint path), fs1);
      (ERun ["ls"; "-l"; path], fs1); (ERun ["ssh-add"; path], fs1)]).
Proof.
  intros Hd Hk path fs1 Hls Hadd.
  rewrite (install_key_head _ _ _ _ _ _ _ _ _ _ Hd Hk). fold path fs1.
  rewrite (register_key_no_ssh_add w path _ c1); [|exact Hls|exact Hadd].
  unfold prepend. simpl. by rewrite <- ?app_assoc.
Qed.

Lemma written_not_warned w s path pk iso hint alg fs1 :
  warned_left path
    (written w s path pk ++
     [(ELog INFO (MWrote (JStr alg) iso hint path), fs1);
      (ERun ["ls"; "-l"; path], fs1); (ERun ["ssh-add"; path], fs1)]).*1 = false.
Proof. done. Qed.

(** C3 (amended): for every KeyRecord whose installation runs to its end,
    that is when [ls] and [ssh-add] could both be started, the body of the
    loop returns and exactly one of two outcomes holds: [ssh-add] ended
    with status 0, the file is gone and the key is in the agent; or
    [ssh-add] ended with another status, the file is at its path with mode
    0o600 and the key as its text, the agent is unchanged, and the operator
    was told that the file was left on disk. *)
Theorem install_key_two_outcomes w filepath data key iso hint fmt alg pk s c1 c :
  bundle_head data = Some (iso, hint) ->
  key_record key = Some (fmt, alg, pk) ->
  let path := key_filename filepath fmt alg in
  subprocess w (nspawn s) ["ls"; "-l"; path] = Completed c1 ->
  subprocess w (S (nspawn s)) ["ssh-add"; path] = Completed c ->
  let r := install_key w filepath data key s in
  outcome_of r = Ret tt /\
  ((returncode c = 0 /\ in_agent r path pk /\ ~ left_on_disk r path pk) \/
   (returncode c <> 0 /\ left_on_disk r path pk /\ ~ in_agent r path pk /\
    agent (state_of r) = agent s)).
Proof.
  intros Hd Hk path Hls Hadd r. subst r.
  rewrite (install_key_completed _ _ _ _ _ _ _ _ _ _ _ _ Hd Hk Hls Hadd). fold path.
  destruct (Z.eqb_spec (returncode c) 0) as [Hrc|Hrc].
  - split; [done|]. left. split; [done|]. unfold in_agent, left_on_disk. simpl.
    rewrite lookup_delete_eq. split; [|by intros [? _]].
    split; [done|]. apply elem_of_cons. by left.
  - split; [done|]. right. split; [done|]. unfold in_agent, left_on_disk.
    split; [split; [simpl; apply lookup_insert_eq|apply warned_after]|].
    simpl. rewrite lookup_insert_eq. split; [by intros [? _]|done].
Qed.

(** C6 (amended): when [ssh-add] ends with a status other than 0 for a
    record, the body of the loop returns, the file stays, the operator is
    warned, and the loop goes on with the next record.  When [ssh-add]
    cannot be started, the file written stays on disk with mode 0o600 and
    is not deleted, but the exception ends the loop: the later records are
    not processed and no warning is logged. *)
Theorem agent_failure_per_key w filepath data key rest iso hint fmt alg pk s c1 :
  bundle_head data = Some (iso, hint) ->
  key_record key = Some (fmt, alg, pk) ->
  let path := key_filename filepath fmt alg in
  let kept := mkState (<[path := mkFile 384 pk]> (fs s)) "" (agent s) (S (S (nspawn s))) in
  let body := install_key w filepath data in
  subprocess w (nspawn s) ["ls"; "-l"; path] = Completed c1 ->
  (forall c,
     subprocess w (S (nspawn s)) ["ssh-add"; path] = Completed c ->
     returncode c <> 0 ->
     outcome_of (body key s) = Ret tt /\
     state_of (body key s) = kept /\
     warned_left path (events_of (body key s)) = true /\
     for_each (key :: rest) body s = prepend (trace_of (body key s)) (for_each rest body kept)) /\
  (subprocess w (S (nspawn s)) ["ssh-add"; path] = NotStarted ->
     for_each (key :: rest) body s = body key s /\
     outcome_of (body key s) = Raise FileNotFoundError /\
     exit_status (outcome_of (for_each (key :: rest) body s)) = 1 /\
     state_of (body key s) = kept /\
     fs kept !! path = Some (mkFile 384 pk) /\
     Forall (fun e => match e with EUnlink _ | ERemove _ => False | _ => True end)
       (events_of (body key s)) /\
     warned_left path (events_of (body key s)) = false).
Proof.
  intros Hd Hk path kept body Hls. split.
  - intros c Hadd Hrc. subst body.
    pose proof (install_key_completed _ _ _ _ _ _ _ _ _ _ _ _ Hd Hk Hls Hadd) as Hrun.
    fold path in Hrun. destruct (Z.eqb_spec (returncode c) 0) as [|_]; [done|].
    rewrite (for_each_cons _ _ _ _ _ _ Hrun). rewrite Hrun.
    split; [done|]. split; [done|]. split; [|done].
    apply warned_after.
  - intros Hadd. subst body.
    pose proof (install_key_not_started _ _ _ _ _ _ _ _ _ _ _ Hd Hk Hls Hadd) as Hrun.
    fold path in Hrun.
    rewrite (for_each_stop _ _ _ _ _ Hrun) by done. rewrite Hrun.
    split; [done|]. split; [done|]. split; [done|]. split; [done|].
    split; [apply lookup_insert_eq|]. split.
    + unfold events_of. simpl. by repeat constructor.
    + apply written_not_warned.
Qed.

End Outcomes.

(** * [strip]: the text without the quotes around it *)

Lemma lstrip_split c s :
  exists l, s = l +:+ lstrip c s /\ all_char c l /\ no_lead c (lstrip c s).
Proof.
  induction s as [|a s (l & Hs & Hl & Hn)]; simpl.
  - by exists "".
  - destruct (Ascii.eqb_spec a c) as [->|Hne].
    + exists (String c l). rewrite append_cons, <- Hs. by repeat split.
    + by exists "".
Qed.

Lemma rstrip_split c s :
  exists r, s = rstrip c s +:+ r /\ all_char c r /\ no_trail c (rstrip c s).
Proof.
  induction s as [|a s (r & Hs & Hr & Hn)]; simpl.
  - by exists "".
  - destruct (rstrip c s) as [|b t] eqn:Hst.
    + change ("" +:+ r) with r in Hs. subst s.
      destruct (Ascii.eqb_spec a c) as [->|Hne].
      * exists (String c r). by repeat split.
      * exists r. by repeat split.
    + exists r. rewrite append_cons, <- Hs. by repeat split.
Qed.

Lemma rstrip_no_lead c s : no_lead c s -> no_lead c (rstrip c s).
Proof.
  destruct s as [|a s]; [done|]. simpl. intros Hne.
  destruct (rstrip c s); [|done].
  by destruct (Ascii.eqb_spec a c).
Qed.

Lemma strip_removes c s : surrounding_removed c s (strip c s).
Proof.
  unfold strip.
  destruct (lstrip_split c s) as (l & Hs & Hl & Hn).
  destruct (rstrip_split c (lstrip c s)) as (r & Hs' & Hr & Hn').
  exists l, r. split; [by rewrite <- Hs'|].
  repeat split; try done. by apply rstrip_no_lead.
Qed.

Lemma lstrip_all c l s : all_char c l -> lstrip c (l +:+ s) = lstrip c s.
Proof.
  induction l as [|a l IH]; [done|]. intros [-> Hl].
  rewrite append_cons. simpl. rewrite Ascii.eqb_refl. by apply IH.
Qed.

Lemma lstrip_no_lead c s : no_lead c s -> lstrip c s = s.
Proof.
  destruct s as [|a s]; [done|]. simpl. intros Hne.
  by destruct (Ascii.eqb_spec a c).
Qed.

Lemma lstrip_all_char c r : all_char c r -> lstrip c r = "".
Proof.
  induction r as [|a r IH]; [done|]. intros [-> Hr].
  simpl. rewrite Ascii.eqb_refl. by apply IH.
Qed.

Lemma rstrip_all_char c r : all_char c r -> rstrip c r = "".
Proof.
  induction r as [|a r IH]; [done|]. intros [-> Hr].
  simpl. rewrite (IH Hr). by rewrite Ascii.eqb_refl.
Qed.

Lemma rstrip_app c t r : no_trail c t -> all_char c r -> rstrip c (t +:+ r) = t.
Proof.
  intros Ht Hr. induction t as [|a t IH]; [by apply rstrip_all_char|].
  rewrite append_cons. cbn [rstrip]. destruct t as [|b t].
  - change ("" +:+ r) with r. rewrite (rstrip_all_char c r Hr). simpl in Ht.
    by destruct (Ascii.eqb_spec a c).
  - rewrite IH by done. done.
Qed.

Lemma strip_unique c s t : surrounding_removed c s t -> t = strip c s.
Proof.
  intros (l & r & -> & Hl & Hr & Hlead & Htrail). unfold strip.
  rewrite lstrip_all by done. destruct t as [|a t].
  - simpl. rewrite lstrip_all_char by done. done.
  - rewrite lstrip_no_lead by done. by rewrite rstrip_app.
Qed.

(** * Authentication *)

Section Auth.
Context `{!PyLib}.

Lemma auth_ok w self s body text :
  http_post w (logon_request self) = Responded (mkResponse 200 body) ->
  decode_utf8 body = Some text ->
  auth w self s =
    (Ret (mkFetcher (BASEURL self) (Some (strip quote text)) (username self) (password self)),
     s,
     [(EPost (logon_request self), fs s);
      (ELog DEBUG (MAuthOk (substring 0 10 (strip quote text))), fs s)]).
Proof.
  intros Hpost Hdec. unfold auth.
  rewrite (bind_Ret _ _ s (mkResponse 200 body) s [(EPost (logon_request self), fs s)]);
    [|by unfold requests_post; rewrite Hpost].
  simpl. unfold bytes_decode. rewrite Hdec, ret_bind. done.
Qed.

Lemma auth_failed w self s status body :
  http_post w (logon_request self) = Responded (mkResponse status body) ->
  status <> 200 ->
  auth w self s =
    (Exit 1, s,
     [(EPost (logon_request self), fs s);
      (ELog ERROR (MAuthFailed status body), fs s)]).
Proof.
  intros Hpost Hne. unfold auth.
  rewrite (bind_Ret _ _ s (mkResponse status body) s [(EPost (logon_request self), fs s)]);
    [|by unfold requests_post; rewrite Hpost].
  simpl. by destruct (Z.eqb_spec status 200).
Qed.

(** C4: on a response with status 200 whose body is text, the fetcher
    comes back with, as its token, the body without the quotes around it:
    the body is a run of quotes, the token, and a run of quotes, and the
    token neither starts nor ends with a quote; no other text is the body
    without its surrounding quotes.  On any other status the constructor
    exits with status 1, the error logged carries the status and the body
    as received, and the run ends there with the logon as its only
    request. *)
Theorem auth_token_unquoted w baseurl user pass s :
  let self := mkFetcher baseurl None user pass in
  (forall body text,
     http_post w (logon_request self) = Responded (mkResponse 200 body) ->
     decode_utf8 body = Some text ->
     outcome_of (init w baseurl user pass s) =
       Ret (mkFetcher baseurl (Some (strip quote text)) user pass) /\
     surrounding_removed quote text (strip quote text) /\
     (forall t, surrounding_removed quote text t -> t = strip quote text)) /\
  (forall status body,
     http_post w (logon_request self) = Responded (mkResponse status body) ->
     status <> 200 ->
     init w baseurl user pass s =
       (Exit 1, s, [(EPost (logon_request self), fs s);
                    (ELog ERROR (MAuthFailed status body), fs s)]) /\
     main w baseurl user pass s =
       (Exit 1, s, [(EPost (logon_request self), fs s);
                    (ELog ERROR (MAuthFailed status body), fs s)])).
Proof.
  intros self. split.
  - intros body text Hpost Hdec. unfold init. fold self.
    rewrite (auth_ok _ _ _ _ _ Hpost Hdec). split; [done|].
    split; [apply strip_removes|apply strip_unique].
  - intros status body Hpost Hne.
    pose proof (auth_failed w self s status body Hpost Hne) as Hrun.
    unfold main, init. fold self. split; [exact Hrun|].
    by rewrite (bind_Exit _ _ _ _ _ _ Hrun).
Qed.

(** C7: when the logon is answered with a status other than 200, the
    process ends with status 1 and the state is the one it started in: the
    file system is the same after every step, no step touches a file, the
    stale keys are not looked up, nothing is opened or written, and no
    fetch request is sent. *)
Theorem failed_auth_touches_nothing w baseurl user pass s status body :
  http_post w (logon_request (mkFetcher baseurl None user pass)) =
    Responded (mkResponse status body) ->
  status <> 200 ->
  let r := main w baseurl user pass s in
  exit_status (outcome_of r) = 1 /\
  state_of r = s /\
  Forall (fun e : entry => fs_event e.1 = false /\ e.2 = fs s) (trace_of r) /\
  purge_count (events_of r) = 0%nat /\
  writes (events_of r) = [] /\
  opened (events_of r) = [] /\
  (forall self, EPost (fetch_request self) ∉ events_of r).
Proof.
  intros Hpost Hne r.
  pose proof (auth_failed w _ s status body Hpost Hne) as Hrun.
  assert (r = (Exit 1, s,
               [(EPost (logon_request (mkFetcher baseurl None user pass)), fs s);
                (ELog ERROR (MAuthFailed status body), fs s)])) as ->.
  { subst r. unfold main, init. by rewrite (bind_Exit _ _ _ _ _ _ Hrun). }
  split; [done|]. split; [done|]. split; [by repeat constructor|].
  split; [done|]. split; [done|]. split; [done|].
  intros self Hin. unfold events_of in Hin. simpl in Hin.
  apply elem_of_cons in Hin as [Heq|Hin].
  - unfold fetch_request, logon_request in Heq. congruence.
  - apply elem_of_cons in Hin as [Heq|Hin]; [congruence|].
    by apply elem_of_nil in Hin.
Qed.


End Auth.

(** * Answers that are not a bundle *)

Section Malformed.
Context `{!PyLib}.

Lemma fetch_data_not_json w self s body :
  http_post w (fetch_request self) = Responded (mkResponse 200 body) ->
  json_loads body = None ->
  fetch_data w self s = (Raise ValueError, s, [(EPost (fetch_request self), fs s)]).
Proof.
  intros Hpost Hload. unfold fetch_data.
  rewrite (bind_Ret _ _ s (mkResponse 200 body) s [(EPost (fetch_request self), fs s)]);
    [|by unfold requests_post; rewrite Hpost].
  simpl. rewrite ret_bind. unfold loads. rewrite Hload.
  by rewrite (bind_Raise _ _ s ValueError s []).
Qed.

Lemma install_loop_first w filepath kv key rest s res :
  assoc "value" kv = Some (JArr (key :: rest)) ->
  install_key w filepath (JObj kv) key s = res ->
  outcome_of res <> Ret tt ->
  install_loop w filepath (JObj kv) s = res.
Proof.
  intros Hvalue Hrun Hne. unfold install_loop, subscript.
  rewrite Hvalue, ret_bind. cbn [py_iter]. rewrite ret_bind.
  by apply for_each_stop.
Qed.

Lemma install_key_no_expiration w filepath kv key s :
  assoc "expirationTime" kv = None ->
  install_key w filepath (JObj kv) key s = (Raise KeyError, s, []).
Proof.
  intros He. unfold install_key, subscript. rewrite He.
  by rewrite (bind_Raise _ _ s KeyError s []).
Qed.

Lemma install_key_no_format w filepath data rkv iso hint s :
  bundle_head data = Some (iso, hint) ->
  assoc "format" rkv = None ->
  install_key w filepath data (JObj rkv) s = (Raise KeyError, s, []).
Proof.
  intros (dkv & ts & pub & -> & Hts & Hiso & _)%bundle_head_inv Hf.
  unfold install_key, subscript.
  rewrite Hts, ret_bind, Hiso, ret_bind, Hf.
  by rewrite (bind_Raise _ _ s KeyError s []).
Qed.

Lemma install_key_no_alg w filepath data rkv iso hint fmt s :
  bundle_head data = Some (iso, hint) ->
  assoc "format" rkv = Some (JStr fmt) ->
  assoc "keyAlg" rkv = None ->
  install_key w filepath data (JObj rkv) s = (Raise KeyError, s, []).
Proof.
  intros (dkv & ts & pub & -> & Hts & Hiso & _)%bundle_head_inv Hf Ha.
  unfold install_key, subscript.
  rewrite Hts, ret_bind, Hiso, ret_bind, Hf, ret_bind. cbn [lower].
  rewrite ret_bind, Ha.
  by rewrite (bind_Raise _ _ s KeyError s []).
Qed.

Lemma install_key_no_private_key w filepath data rkv iso hint fmt alg s :
  bundle_head data = Some (iso, hint) ->
  assoc "format" rkv = Some (JStr fmt) ->
  assoc "keyAlg" rkv = Some (JStr alg) ->
  assoc "privateKey" rkv = None ->
  let path := key_filename filepath fmt alg in
  let fs1 := <[path := mkFile (mode_at_open w s path) ""]> (fs s) in
  install_key w filepath data (JObj rkv) s =
    (Raise KeyError, mkState fs1 "" (agent s) (nspawn s),
     [(EOpen path, fs1); (EClose path, fs1)]).
Proof.
  intros (dkv & ts & pub & -> & Hts & Hiso & _)%bundle_head_inv Hf Ha Hp path fs1.
  unfold install_key, subscript.
  rewrite Hts, ret_bind, Hiso, ret_bind, Hf, ret_bind. cbn [lower].
  rewrite ret_bind, Ha, ret_bind. cbn [lower]. rewrite ret_bind.
  fold (key_filename filepath fmt alg). fold path.
  by rewrite (bind_Raise _ _ _ _ _ _ (write_key_file_no_private_key w path rkv s Hp)).
Qed.

Lemma for_each_reaches w filepath data iso hint pre key rest s :
  bundle_head data = Some (iso, hint) ->
  Forall (fun k => is_Some (key_record k)) pre ->
  commands_start w ->
  exists s1 t,
    for_each (pre ++ key :: rest) (install_key w filepath data) s =
      prepend t (for_each (key :: rest) (install_key w filepath data) s1).
Proof.
  intros Hd Hpre Hc. revert s.
  induction Hpre as [|k pre [[[fmt alg] pk] Hk] _ IH]; intros s.
  - exists s, []. by rewrite prepend_nil.
  - pose proof (install_key_returns w filepath data k iso hint fmt alg pk s Hd Hk Hc) as Hret.
    destruct (install_key w filepath data k s) as [[o s1] t1] eqn:Hrun.
    unfold outcome_of in Hret. simpl in Hret. subst o.
    destruct (IH s1) as (s2 & t & Hrest).
    exists s2, (t1 ++ t).
    change ((k :: pre) ++ key :: rest) with (k :: (pre ++ key :: rest)).
    by rewrite (for_each_cons _ _ _ _ _ _ Hrun), Hrest, prepend_prepend.
Qed.

(** A record on which the body of the loop raises, after records that are
    installed, makes the loop raise. *)
Lemma install_loop_raises w filepath kv iso hint pre key rest s e :
  assoc "value" kv = Some (JArr (pre ++ key :: rest)) ->
  bundle_head (JObj kv) = Some (iso, hint) ->
  Forall (fun k => is_Some (key_record k)) pre ->
  commands_start w ->
  (forall s1, outcome_of (install_key w filepath (JObj kv) key s1) = Raise e) ->
  outcome_of (install_loop w filepath (JObj kv) s) = Raise e.
Proof.
  intros Hvalue Hd Hpre Hc Hkey. unfold install_loop, subscript.
  rewrite Hvalue, ret_bind. cbn [py_iter]. rewrite ret_bind.
  destruct (for_each_reaches w filepath (JObj kv) iso hint pre key rest s Hd Hpre Hc)
    as (s1 & t & ->).
  rewrite outcome_prepend.
  rewrite (for_each_stop key rest _ s1 _ eq_refl); [apply Hkey|].
  by rewrite Hkey.
Qed.

(** C9: a fetch answered with status 200 ends in an exception that nothing
    catches, not in a clean exit, when the body is not JSON
    ([JSONDecodeError], a [ValueError]); and, the home directory being
    resolved, in a [KeyError] when the object has no [value], when it has
    records but no [expirationTime], and when a record, reached after
    records that were installed, has no [format], no [keyAlg] or no
    [privateKey]. *)
Theorem malformed_response_raises w self s body :
  http_post w (fetch_request self) = Responded (mkResponse 200 body) ->
  let r := get_key w self s in
  (json_loads body = None -> outcome_of r = Raise ValueError) /\
  (forall home kv,
     homepath w = Some home ->
     json_loads body = Some (JObj kv) ->
     (assoc "value" kv = None -> outcome_of r = Raise KeyError) /\
     (forall key rest,
        assoc "value" kv = Some (JArr (key :: rest)) ->
        assoc "expirationTime" kv = None -> outcome_of r = Raise KeyError) /\
     (forall iso hint pre rkv rest,
        bundle_head (JObj kv) = Some (iso, hint) ->
        assoc "value" kv = Some (JArr (pre ++ JObj rkv :: rest)) ->
        Forall (fun k => is_Some (key_record k)) pre ->
        commands_start w ->
        (assoc "format" rkv = None -> outcome_of r = Raise KeyError) /\
        (forall fmt,
           assoc "format" rkv = Some (JStr fmt) ->
           assoc "keyAlg" rkv = None -> outcome_of r = Raise KeyError) /\
        (forall fmt alg,
           assoc "format" rkv = Some (JStr fmt) ->
           assoc "keyAlg" rkv = Some (JStr alg) ->
           assoc "privateKey" rkv = None -> outcome_of r = Raise KeyError))).
Proof.
  intros Hpost r. split.
  - intros Hload. subst r. unfold get_key.
    by rewrite (bind_Raise _ _ _ _ _ _ (fetch_data_not_json _ _ _ _ Hpost Hload)).
  - intros home kv Hhome Hload.
    destruct (get_key_ok w self s body (JObj kv) home Hpost Hload Hhome) as (tr & Hrun & _).
    subst r. rewrite Hrun, outcome_prepend. clear Hrun.
    set (prefix := os_path_join home [".ssh"; "id_cyberark_session"]).
    set (s1 := mkState _ _ _ _). split; [|split].
    + intros Hvalue. unfold install_loop, subscript. rewrite Hvalue.
      by rewrite (bind_Raise _ _ s1 KeyError s1 []).
    + intros key rest Hvalue He.
      by rewrite (install_loop_first _ _ _ _ _ _ _ Hvalue
                    (install_key_no_expiration w prefix kv key s1 He)).
    + intros iso hint pre rkv rest Hd Hvalue Hpre Hc. split; [|split].
      * intros Hf. apply (install_loop_raises _ _ _ _ _ _ _ _ _ _ Hvalue Hd Hpre Hc).
        intros s2. by rewrite (install_key_no_format w prefix _ rkv iso hint s2 Hd Hf).
      * intros fmt Hf Ha. apply (install_loop_raises _ _ _ _ _ _ _ _ _ _ Hvalue Hd Hpre Hc).
        intros s2. by rewrite (install_key_no_alg w prefix _ rkv iso hint fmt s2 Hd Hf Ha).
      * intros fmt alg Hf Ha Hp.
        apply (install_loop_raises _ _ _ _ _ _ _ _ _ _ Hvalue Hd Hpre Hc).
        intros s2.
        by rewrite (install_key_no_private_key w prefix _ rkv iso hint fmt alg s2 Hd Hf Ha Hp).
Qed.

(** * Two records with one file *)

Lemma register_key_file w path s f :
  fs s !! path = Some f ->
  fs (state_of (register_key w path s)) !! path = None \/
  fs (state_of (register_key w path s)) !! path = Some f.
Proof.
  intros Hf.
  destruct (subprocess w (nspawn s) ["ls"; "-l"; path]) as [c1|] eqn:Hls.
  - destruct (subprocess w (S (nspawn s)) ["ssh-add"; path]) as [c|] eqn:Hadd.
    + rewrite (register_key_ok _ _ _ _ _ _ Hls Hadd Hf).
      destruct (returncode c =? 0); simpl; [left; apply lookup_delete_eq|by right].
    + rewrite (register_key_no_ssh_add _ _ _ _ Hls Hadd). by right.
  - rewrite (register_key_no_ls _ _ _ Hls). by right.
Qed.

(** C10: two records whose formats and whose algorithms are equal once
    lower-cased have the same file.  The later record, whatever state the
    earlier one left, opens that file, which empties it, and writes its
    own key: afterwards the file is gone (the agent took the key) or holds
    the later key with mode 0o600.  In a bundle of the two, with every
    command started, both keys are written to the one path, in order, and
    what is left at the path is nothing or the later key. *)
Theorem same_pair_same_file w filepath data k1 k2 iso hint f1 a1 p1 f2 a2 p2 :
  bundle_head data = Some (iso, hint) ->
  key_record k1 = Some (f1, a1, p1) ->
  key_record k2 = Some (f2, a2, p2) ->
  str_lower f1 = str_lower f2 ->
  str_lower a1 = str_lower a2 ->
  let path := key_filename filepath f2 a2 in
  record_path filepath k1 = Some path /\
  record_path filepath k2 = Some path /\
  (forall s,
     let r := install_key w filepath data k2 s in
     opened (events_of r) = [path] /\
     writes (events_of r) = [(path, p2)] /\
     (exists t, trace_of r =
        (EOpen path, <[path := mkFile (mode_at_open w s path) ""]> (fs s)) :: t) /\
     (fs (state_of r) !! path = None \/
      fs (state_of r) !! path = Some (mkFile 384 p2))) /\
  (forall s,
     commands_start w ->
     let r := for_each [k1; k2] (install_key w filepath data) s in
     outcome_of r = Ret tt /\
     writes (events_of r) = [(path, p1); (path, p2)] /\
     (fs (state_of r) !! path = None \/
      fs (state_of r) !! path = Some (mkFile 384 p2))).
Proof.
  intros Hd Hk1 Hk2 Hf Ha path.
  assert (key_filename filepath f1 a1 = path) as Hpath.
  { unfold path, key_filename. by rewrite Hf, Ha. }
  assert (forall s,
            fs (state_of (install_key w filepath data k2 s)) !! path = None \/
            fs (state_of (install_key w filepath data k2 s)) !! path = Some (mkFile 384 p2))
    as Hafter.
  { intros s. rewrite (install_key_head _ _ _ _ _ _ _ _ _ _ Hd Hk2), state_prepend.
    apply register_key_file. simpl. apply lookup_insert_eq. }
  split; [unfold record_path, record_file; by rewrite Hk1, Hpath|].
  split; [unfold record_path, record_file; by rewrite Hk2|].
  split.
  - intros s r.
    destruct (install_key_writes w filepath data k2 iso hint f2 a2 p2 s Hd Hk2) as [Hw Ho].
    split; [exact Ho|]. split; [exact Hw|]. split; [|apply Hafter].
    subst r. rewrite (install_key_head _ _ _ _ _ _ _ _ _ _ Hd Hk2).
    eexists. rewrite trace_prepend. unfold written. simpl. reflexivity.
  - intros s Hc r.
    destruct (loop_writes w filepath data iso hint [k1; k2] s Hd) as (n & _ & Hw & Hall & Hret).
    { repeat constructor; by eexists. }
    specialize (Hret Hc). specialize (Hall Hret). subst n.
    split; [exact Hret|]. split.
    { subst r. rewrite Hw. simpl. unfold record_file. rewrite Hk1, Hk2, Hpath. done. }
    subst r.
    pose proof (install_key_returns w filepath data k1 iso hint f1 a1 p1 s Hd Hk1 Hc) as Hr1.
    destruct (install_key w filepath data k1 s) as [[o1 s1] t1] eqn:Hrun1.
    unfold outcome_of in Hr1. simpl in Hr1. subst o1.
    rewrite (for_each_cons _ _ _ _ _ _ Hrun1), state_prepend.
    pose proof (install_key_returns w filepath data k2 iso hint f2 a2 p2 s1 Hd Hk2 Hc) as Hr2.
    specialize (Hafter s1).
    destruct (install_key w filepath data k2 s1) as [[o2 s2] t2] eqn:Hrun2.
    unfold outcome_of in Hr2. simpl in Hr2. subst o2.
    rewrite (for_each_cons _ _ _ _ _ _ Hrun2), state_prepend. exact Hafter.
Qed.

End Malformed.

(** * Concrete runs *)

Section Runs.
#[local] Existing Instance Sample.lib.
Import Sample.

Lemma sample_commands_start status home logon fetch :
  commands_start (world_of home logon fetch (commands status)).
Proof.
  intros n cmd args. simpl. destruct (String.eqb cmd "ssh-add"); by eexists.
Qed.

Lemma sample_head keys :
  bundle_head (bundle keys) = Some ("2023-11-14T22:13:20", JStr "ssh-rsa AAAAB3Nza").
Proof. reflexivity. Qed.

(** Under the usual umask 0o022 a new file is created with mode 0o644: as
    long as the mode is not set, others can read it. *)
Lemma new_file_exposed w s path pk :
  fs s !! path = None ->
  N.testbit (umask w) 2 = false ->
  exposed path (written w s path pk) = [EOpen path; EWrite path pk].
Proof.
  intros Hnew Hmask. unfold exposed, written, mode_at_open. rewrite Hnew.
  cbn [omap list_omap]. cbn [fst snd]. rewrite !lookup_insert_eq.
  unfold world_readable, created_mode. cbn [f_mode].
  rewrite N.ldiff_spec, Hmask. reflexivity.
Qed.

(** C1 (the code differs): one record, umask 0o022, agent running.  The
    file is created by [open] with mode 0o644 and gets mode 0o600 only
    after [f.write]: after the steps [open] and [write] others can read
    it.  And when the record has no [privateKey], the exception leaves the
    [with] block before [os.chmod]: the file stays with mode 0o644. *)
Theorem key_file_readable_before_chmod :
  outcome_of (main w_one base "alice" "pw" start) = Ret tt /\
  opened (events_of (main w_one base "alice" "pw" start)) = [rsa_path] /\
  exposed rsa_path (trace_of (main w_one base "alice" "pw" start)) =
    [EOpen rsa_path; EWrite rsa_path "KEY-MATERIAL-RSA"] /\
  outcome_of (main w_no_private_key base "alice" "pw" start) = Raise KeyError /\
  fs (state_of (main w_no_private_key base "alice" "pw" start)) !! rsa_path =
    Some (mkFile 420 "").
Proof. vm_compute. by repeat split. Qed.

(** C2, as stated, fails: with neither [HOME] nor [USERPROFILE] set, the
    fetch succeeds and the run exits with status 1 without any purge. *)
Lemma no_home_no_purge :
  http_post w_no_home (fetch_request session) = Responded (mkResponse 200 body_one) /\
  json_loads body_one = Some (bundle [rsa_key]) /\
  events_of (main w_no_home base "alice" "pw" start) !! 2%nat =
    Some (EPost (fetch_request session)) /\
  outcome_of (main w_no_home base "alice" "pw" start) = Exit 1 /\
  purge_count (events_of (main w_no_home base "alice" "pw" start)) = 0%nat /\
  purge_count (events_of (main w_no_home base "alice" "pw" start)) <> 1%nat.
Proof. vm_compute. by repeat split. Qed.

(** Two records, Alice at home, a stale key on disk: one purge. *)
Lemma purge_once_before_writes_witness :
  http_post w_two (fetch_request session) = Responded (mkResponse 200 body_two) /\
  json_loads body_two = Some (bundle [rsa_key; ed_key]) /\
  homepath w_two = Some "/home/alice" /\
  purge_count (events_of (get_key w_two session start)) = 1%nat.
Proof.
  assert (http_post w_two (fetch_request session) = Responded (mkResponse 200 body_two))
    as H1 by (vm_compute; reflexivity).
  assert (json_loads body_two = Some (bundle [rsa_key; ed_key])) as H2
    by (vm_compute; reflexivity).
  assert (homepath w_two = Some "/home/alice") as H3 by reflexivity.
  split; [exact H1|]. split; [exact H2|]. split; [exact H3|].
  exact (proj1 (proj2 (purge_once_before_writes w_two session start body_two _ _ H1 H2 H3))).
Defined.

(** C3, as stated, fails: when [ssh-add] cannot be started the record ends
    in neither outcome: the file is on disk, the key is not in the agent,
    and no warning was logged. *)
Lemma ssh_add_missing_third_outcome :
  key_record rsa_key = Some ("OpenSSH", "RSA", "KEY-MATERIAL-RSA") /\
  outcome_of (install_key w_one_no_ssh_add prefix (bundle [rsa_key]) rsa_key start) =
    Raise FileNotFoundError /\
  fs (state_of (install_key w_one_no_ssh_add prefix (bundle [rsa_key]) rsa_key start))
    !! rsa_path = Some (mkFile 384 "KEY-MATERIAL-RSA") /\
  agent (state_of (install_key w_one_no_ssh_add prefix (bundle [rsa_key]) rsa_key start)) = [] /\
  warned_left rsa_path
    (events_of (install_key w_one_no_ssh_add prefix (bundle [rsa_key]) rsa_key start)) = false /\
  ~ in_agent (install_key w_one_no_ssh_add prefix (bundle [rsa_key]) rsa_key start)
      rsa_path "KEY-MATERIAL-RSA" /\
  ~ left_on_disk (install_key w_one_no_ssh_add prefix (bundle [rsa_key]) rsa_key start)
      rsa_path "KEY-MATERIAL-RSA".
Proof.
  repeat split; try (vm_compute; reflexivity).
  - intros [Hfile _]. vm_compute in Hfile. discriminate.
  - intros [_ Hwarn]. vm_compute in Hwarn. discriminate.
Qed.

(** No agent running: [ssh-add] ends with status 2, the key file is left
    on disk and the operator is told. *)
Lemma install_key_two_outcomes_witness :
  bundle_head (bundle [rsa_key]) = Some ("2023-11-14T22:13:20", JStr "ssh-rsa AAAAB3Nza") /\
  key_record rsa_key = Some ("OpenSSH", "RSA", "KEY-MATERIAL-RSA") /\
  subprocess w_one_no_agent 0 ["ls"; "-l"; rsa_path] = Completed (mkCompleted 0 "" "") /\
  subprocess w_one_no_agent 1 ["ssh-add"; rsa_path] = Completed no_agent_result /\
  outcome_of (install_key w_one_no_agent prefix (bundle [rsa_key]) rsa_key start) = Ret tt /\
  left_on_disk (install_key w_one_no_agent prefix (bundle [rsa_key]) rsa_key start)
    rsa_path "KEY-MATERIAL-RSA".
Proof.
  assert (key_record rsa_key = Some ("OpenSSH", "RSA", "KEY-MATERIAL-RSA")) as H2
    by reflexivity.
  assert (subprocess w_one_no_agent 0 ["ls"; "-l"; rsa_path] =
          Completed (mkCompleted 0 "" "")) as H3 by reflexivity.
  assert (subprocess w_one_no_agent 1 ["ssh-add"; rsa_path] = Completed no_agent_result)
    as H4 by reflexivity.
  split; [apply sample_head|]. split; [exact H2|]. split; [exact H3|]. split; [exact H4|].
  destruct (install_key_two_outcomes w_one_no_agent prefix (bundle [rsa_key]) rsa_key
              _ _ _ _ _ start _ _ (sample_head [rsa_key]) H2 H3 H4)
    as (Hret & [(Hrc & _)|(_ & Hleft & _)]).
  - discriminate Hrc.
  - split; [exact Hret|exact Hleft].
Defined.

(** The logon answered with the quoted token: the fetcher holds the token
    without the quotes. *)
Lemma auth_token_unquoted_witness :
  http_post w_one (logon_request (mkFetcher base None "alice" "pw")) =
    Responded (mkResponse 200 token_body) /\
  decode_utf8 token_body = Some token_body /\
  outcome_of (init w_one base "alice" "pw" start) = Ret session.
Proof.
  assert (http_post w_one (logon_request (mkFetcher base None "alice" "pw")) =
          Responded (mkResponse 200 token_body)) as H1 by reflexivity.
  assert (decode_utf8 token_body = Some token_body) as H2 by reflexivity.
  split; [exact H1|]. split; [exact H2|].
  exact (proj1 (proj1 (auth_token_unquoted w_one base "alice" "pw" start) _ _ H1 H2)).
Defined.

(** C5, as stated, fails: two records in the array, and no [ls] to
    start.  The fetch is answered with status 200 and both records are
    well formed, yet only the first is processed: its key is written, the
    exception raised by the listing ends the run, and the second record
    is never written. *)
Lemma ls_missing_one_record_of_two :
  http_post w_two_no_ls (fetch_request session) = Responded (mkResponse 200 body_two) /\
  json_loads body_two = Some (bundle [rsa_key; ed_key]) /\
  omap (record_file prefix) [rsa_key; ed_key] =
    [(rsa_path, "KEY-MATERIAL-RSA"); (ed_path, "KEY-MATERIAL-ED25519")] /\
  writes (events_of (get_key w_two_no_ls session start)) = [(rsa_path, "KEY-MATERIAL-RSA")] /\
  opened (events_of (get_key w_two_no_ls session start)) = [rsa_path] /\
  outcome_of (get_key w_two_no_ls session start) = Raise FileNotFoundError /\
  fs (state_of (get_key w_two_no_ls session start)) !! ed_path = None.
Proof. vm_compute. by repeat split. Qed.

(** Two records, agent running: the run returns, so both keys are
    written, in the order of the array. *)
Lemma records_in_array_order_witness :
  http_post w_two (fetch_request session) = Responded (mkResponse 200 body_two) /\
  json_loads body_two = Some (bundle [rsa_key; ed_key]) /\
  outcome_of (get_key w_two session start) = Ret tt /\
  writes (events_of (get_key w_two session start)) =
    [(rsa_path, "KEY-MATERIAL-RSA"); (ed_path, "KEY-MATERIAL-ED25519")].
Proof.
  assert (http_post w_two (fetch_request session) = Responded (mkResponse 200 body_two))
    as H1 by (vm_compute; reflexivity).
  assert (json_loads body_two = Some (bundle [rsa_key; ed_key])) as H2
    by (vm_compute; reflexivity).
  assert (outcome_of (get_key w_two session start) = Ret tt) as H3
    by (vm_compute; reflexivity).
  split; [exact H1|]. split; [exact H2|]. split; [exact H3|].
  destruct (records_in_array_order w_two session start body_two _ [rsa_key; ed_key]
              H1 H2 eq_refl) as (_ & _ & Horder).
  destruct (Horder "/home/alice" _ _ eq_refl (sample_head _)) as (n & _ & Hw & Hall & _).
  { repeat constructor; by eexists. }
  rewrite Hw, (Hall H3). reflexivity.
Defined.

(** C6, as stated, fails: two records and no [ssh-add] to start.  The
    exception raised for the first record ends the run with status 1: the
    second record is never written, and no warning is logged. *)
Lemma ssh_add_missing_stops_loop :
  json_loads body_two = Some (bundle [rsa_key; ed_key]) /\
  outcome_of (main w_two_no_ssh_add base "alice" "pw" start) = Raise FileNotFoundError /\
  exit_status (outcome_of (main w_two_no_ssh_add base "alice" "pw" start)) = 1 /\
  writes (events_of (main w_two_no_ssh_add base "alice" "pw" start)) =
    [(rsa_path, "KEY-MATERIAL-RSA")] /\
  fs (state_of (main w_two_no_ssh_add base "alice" "pw" start)) !! ed_path = None /\
  fs (state_of (main w_two_no_ssh_add base "alice" "pw" start)) !! rsa_path =
    Some (mkFile 384 "KEY-MATERIAL-RSA") /\
  warned_left rsa_path (events_of (main w_two_no_ssh_add base "alice" "pw" start)) = false.
Proof. vm_compute. by repeat split. Qed.

(** No agent running: the first record returns with a warning, so the
    loop goes on. *)
Lemma agent_failure_per_key_witness :
  bundle_head (bundle [rsa_key; ed_key]) =
    Some ("2023-11-14T22:13:20", JStr "ssh-rsa AAAAB3Nza") /\
  key_record rsa_key = Some ("OpenSSH", "RSA", "KEY-MATERIAL-RSA") /\
  subprocess w_one_no_agent 0 ["ls"; "-l"; rsa_path] = Completed (mkCompleted 0 "" "") /\
  subprocess w_one_no_agent 1 ["ssh-add"; rsa_path] = Completed no_agent_result /\
  outcome_of (install_key w_one_no_agent prefix (bundle [rsa_key; ed_key]) rsa_key start) =
    Ret tt /\
  warned_left rsa_path
    (events_of (install_key w_one_no_agent prefix (bundle [rsa_key; ed_key]) rsa_key start)) =
    true.
Proof.
  assert (key_record rsa_key = Some ("OpenSSH", "RSA", "KEY-MATERIAL-RSA")) as H2
    by reflexivity.
  assert (subprocess w_one_no_agent 0 ["ls"; "-l"; rsa_path] =
          Completed (mkCompleted 0 "" "")) as H3 by reflexivity.
  assert (subprocess w_one_no_agent 1 ["ssh-add"; rsa_path] = Completed no_agent_result)
    as H4 by reflexivity.
  split; [apply sample_head|]. split; [exact H2|]. split; [exact H3|]. split; [exact H4|].
  destruct (proj1 (agent_failure_per_key w_one_no_agent prefix (bundle [rsa_key; ed_key])
                     rsa_key [ed_key] _ _ _ _ _ start _ (sample_head _) H2 H3)
              no_agent_result H4) as (Hret & _ & Hwarn & _).
  - discriminate.
  - split; [exact Hret|exact Hwarn].
Defined.

(** The logon answered with status 401: exit status 1, state untouched. *)
Lemma failed_auth_touches_nothing_witness :
  http_post w_denied (logon_request (mkFetcher base None "alice" "pw")) =
    Responded (mkResponse 401 "Authentication failure") /\
  401 <> 200 /\
  exit_status (outcome_of (main w_denied base "alice" "pw" start)) = 1 /\
  state_of (main w_denied base "alice" "pw" start) = start.
Proof.
  assert (http_post w_denied (logon_request (mkFetcher base None "alice" "pw")) =
          Responded (mkResponse 401 "Authentication failure")) as H1 by reflexivity.
  assert (401 <> 200) as H2 by discriminate.
  split; [exact H1|]. split; [exact H2|].
  destruct (failed_auth_touches_nothing w_denied base "alice" "pw" start _ _ H1 H2)
    as (Hexit & Hstate & _).
  split; [exact Hexit|exact Hstate].
Defined.


(** An HTML page, a bundle without [expirationTime], and a record
    without [privateKey], each answered with status 200. *)
Lemma malformed_response_raises_witness :
  http_post w_html (fetch_request session) = Responded (mkResponse 200 body_html) /\
  json_loads body_html = None /\
  outcome_of (get_key w_html session start) = Raise ValueError /\
  http_post w_no_expiration (fetch_request session) =
    Responded (mkResponse 200 body_no_expiration) /\
  json_loads body_no_expiration = Some (JObj [("value", JArr [rsa_key])]) /\
  outcome_of (get_key w_no_expiration session start) = Raise KeyError /\
  http_post w_no_private_key (fetch_request session) =
    Responded (mkResponse 200 body_no_private_key) /\
  json_loads body_no_private_key = Some (bundle [no_private_key]) /\
  outcome_of (get_key w_no_private_key session start) = Raise KeyError.
Proof.
  assert (http_post w_no_private_key (fetch_request session) =
          Responded (mkResponse 200 body_no_private_key)) as H5 by (vm_compute; reflexivity).
  assert (json_loads body_no_private_key = Some (bundle [no_private_key])) as H6
    by (vm_compute; reflexivity).
  assert (http_post w_html (fetch_request session) = Responded (mkResponse 200 body_html))
    as H1 by (vm_compute; reflexivity).
  assert (json_loads body_html = None) as H2 by (vm_compute; reflexivity).
  assert (http_post w_no_expiration (fetch_request session) =
          Responded (mkResponse 200 body_no_expiration)) as H3 by (vm_compute; reflexivity).
  assert (json_loads body_no_expiration = Some (JObj [("value", JArr [rsa_key])])) as H4
    by (vm_compute; reflexivity).
  split; [exact H1|]. split; [exact H2|].
  split; [exact (proj1 (malformed_response_raises w_html session start _ H1) H2)|].
  split; [exact H3|]. split; [exact H4|].
  split.
  { exact (proj1 (proj2 (proj2 (malformed_response_raises w_no_expiration session start _ H3)
                           "/home/alice" _ eq_refl H4)) rsa_key [] eq_refl eq_refl). }
  split; [exact H5|]. split; [exact H6|].
  exact (proj2 (proj2 (proj2 (proj2 (proj2
           (malformed_response_raises w_no_private_key session start _ H5)
           "/home/alice" _ eq_refl H6)) _ _ [] _ [] (sample_head _) eq_refl
           (List.Forall_nil _) (sample_commands_start _ _ _ _))) "OpenSSH" "RSA"
           eq_refl eq_refl eq_refl).
Defined.

(** [OpenSSH]/[RSA] and [OPENSSH]/[rsa]: one file, written twice. *)
Lemma same_pair_same_file_witness :
  key_record rsa_key = Some ("OpenSSH", "RSA", "KEY-MATERIAL-RSA") /\
  key_record rsa_key_upper = Some ("OPENSSH", "rsa", "KEY-MATERIAL-RSA-2") /\
  str_lower "OpenSSH" = str_lower "OPENSSH" /\
  str_lower "RSA" = str_lower "rsa" /\
  record_path prefix rsa_key = Some rsa_path /\
  record_path prefix rsa_key_upper = Some rsa_path /\
  writes (events_of (for_each [rsa_key; rsa_key_upper]
                       (install_key w_same_pair prefix (bundle [rsa_key; rsa_key_upper]))
                       start)) =
    [(rsa_path, "KEY-MATERIAL-RSA"); (rsa_path, "KEY-MATERIAL-RSA-2")].
Proof.
  assert (key_record rsa_key = Some ("OpenSSH", "RSA", "KEY-MATERIAL-RSA")) as H1
    by reflexivity.
  assert (key_record rsa_key_upper = Some ("OPENSSH", "rsa", "KEY-MATERIAL-RSA-2")) as H2
    by reflexivity.
  assert (str_lower "OpenSSH" = str_lower "OPENSSH") as H3 by reflexivity.
  assert (str_lower "RSA" = str_lower "rsa") as H4 by reflexivity.
  split; [exact H1|]. split; [exact H2|]. split; [exact H3|]. split; [exact H4|].
  destruct (same_pair_same_file w_same_pair prefix (bundle [rsa_key; rsa_key_upper])
              rsa_key rsa_key_upper _ _ _ _ _ _ _ _ (sample_head _) H1 H2 H3 H4)
    as (Hp1 & Hp2 & _ & Hboth).
  split; [exact Hp1|]. split; [exact Hp2|].
  exact (proj1 (proj2 (Hboth start (sample_commands_start _ _ _ _)))).
Defined.

End Runs.

(** * The requests of a run *)

Lemma posts_app l1 l2 : posts (l1 ++ l2) = posts l1 ++ posts l2.
Proof. apply omap_app. Qed.

Lemma posts_none (l : list event) :
  Forall (fun e => is_post e = false) l -> posts l = [].
Proof.
  induction 1 as [|e l He _ IH]; [done|].
  destruct e; simpl in *; try done.
Qed.

Lemma emits_requests_post (P : event -> bool) w r :
  P (EPost r) = true -> emits P (requests_post w r).
Proof.
  intros He s. unfold requests_post. destruct (http_post w r); by repeat constructor.
Qed.

Section Requests.
Context `{!PyLib}.

Lemma emits_glob_glob (P : event -> bool) pattern :
  (forall found, P (EGlob pattern found) = true) -> emits P (glob_glob pattern).
Proof. intros He s. unfold glob_glob. simpl. repeat constructor. apply He. Qed.

Lemma emits_loads P b : emits P (loads b).
Proof. unfold loads. destruct (json_loads b); [apply emits_ret|apply emits_raise]. Qed.

Lemma emits_bytes_decode P b : emits P (bytes_decode b).
Proof. unfold bytes_decode. destruct (decode_utf8 b); [apply emits_ret|apply emits_raise]. Qed.

Lemma emits_keyfile_path (P : event -> bool) w keyname :
  (forall lvl m, P (ELog lvl m) = true) -> emits P (get_ssh_keyfile_path w keyname).
Proof.
  intros HP. unfold get_ssh_keyfile_path. destruct (homepath w).
  - apply emits_ret.
  - apply emits_bind; [by apply emits_emit|intros _; apply emits_exit].
Qed.

Lemma emits_delete_old_keys (P : event -> bool) prefix :
  (forall e, purge_event e = true -> P e = true) ->
  (forall lvl m, P (ELog lvl m) = true) ->
  emits P (delete_old_keys prefix).
Proof.
  intros HP HL. unfold delete_old_keys. destruct (String.eqb prefix ""); [apply emits_raise|].
  apply emits_bind; [apply emits_glob_glob; intros; by apply HP|intros files].
  apply emits_for_each. intros f. unfold remove_one.
  apply emits_bind; [by apply emits_emit|intros _].
  apply emits_os_remove. by apply HP.
Qed.

Lemma emits_install_all (P : event -> bool) w data :
  (forall e, is_post e = false -> P e = true) ->
  emits P (install_all w data).
Proof.
  intros HP. unfold install_all.
  apply emits_bind; [apply emits_keyfile_path; intros; by apply HP|intros filepath].
  apply emits_bind; [apply emits_delete_old_keys|intros _].
  - intros e He. apply HP. by destruct e.
  - intros lvl m. by apply HP.
  - apply emits_install_loop. intros e He. apply HP. by destruct e.
Qed.

Lemma emits_fetch_rest (P : event -> bool) resp :
  (forall lvl m, P (ELog lvl m) = true) ->
  emits P ((if negb (status_code resp =? 200)
            then logging ERROR (MFetchFailed (status_code resp) (content resp));; py_exit 1
            else mret tt);;
           data ← loads (content resp); logging DEBUG (MGotData data);; mret data).
Proof.
  intros HP. apply emits_bind.
  - destruct (negb _); [|apply emits_ret].
    apply emits_bind; [by apply emits_emit|intros _; apply emits_exit].
  - intros _. apply emits_bind; [apply emits_loads|intros data].
    apply emits_bind; [by apply emits_emit|intros _; apply emits_ret].
Qed.

(** The first step of [fetch_data] is the request; the other steps are
    lines of the log. *)
Lemma fetch_data_trace w self s :
  exists t, trace_of (fetch_data w self s) = (EPost (fetch_request self), fs s) :: t /\
            Forall (fun e : entry => is_post e.1 = false) t /\
            state_of (fetch_data w self s) = s.
Proof.
  unfold fetch_data.
  destruct (http_post w (fetch_request self)) as [resp|] eqn:Hp.
  - rewrite (bind_Ret _ _ s resp s [(EPost (fetch_request self), fs s)])
      by (unfold requests_post; by rewrite Hp).
    rewrite trace_prepend, state_prepend.
    pose proof (emits_fetch_rest (fun e => negb (is_post e)) resp (fun _ _ => eq_refl) s) as Hrest.
    eexists. split; [reflexivity|]. split.
    + eapply Forall_impl; [exact Hrest|]. intros e. simpl. by destruct (is_post e.1).
    + destruct (negb (status_code resp =? 200)); [done|].
      rewrite ret_bind. unfold loads. destruct (json_loads (content resp)); [|done].
      by rewrite ret_bind.
  - rewrite (bind_Raise _ _ s RequestException s [(EPost (fetch_request self), fs s)])
      by (unfold requests_post; by rewrite Hp).
    by exists [].
Qed.

Lemma get_key_posts w self s :
  posts (events_of (get_key w self s)) = [fetch_request self].
Proof.
  destruct (fetch_data_trace w self s) as (t & Ht & Hnp & Hst).
  assert (posts t.*1 = []) as Hpt.
  { apply posts_none. by apply Forall_fmap. }
  unfold get_key. unfold mbind at 1. unfold M_bind at 1.
  destruct (fetch_data w self s) as [[o s1] t1]. unfold trace_of in Ht. simpl in Ht. subst t1.
  assert (forall l, posts (((EPost (fetch_request self), fs s) :: t) ++ l).*1 =
                    fetch_request self :: posts l.*1) as Hcons.
  { intros l. rewrite fmap_app, posts_app, fmap_cons. cbn [fst].
    change (posts (EPost (fetch_request self) :: t.*1)) with (fetch_request self :: posts t.*1).
    by rewrite Hpt. }
  destruct o as [data| |]; unfold events_of, trace_of.
  - assert (emits (fun e => negb (is_post e)) (install_all w data)) as Hrest
      by (apply emits_install_all; by intros e ->).
    specialize (Hrest s1).
    destruct (install_all w data s1) as [[o2 s2] t2]. cbn [snd].
    rewrite Hcons. f_equal.
    apply posts_none. apply Forall_fmap. eapply Forall_impl; [exact Hrest|].
    intros e. simpl. by destruct (is_post e.1).
  - cbn [snd]. rewrite <- (app_nil_r (_ :: t)). by rewrite Hcons.
  - cbn [snd]. rewrite <- (app_nil_r (_ :: t)). by rewrite Hcons.
Qed.

End Requests.

Lemma substring_prefix (n : nat) (s : string) :
  exists rest, s = substring 0 n s +:+ rest /\
               String.length (substring 0 n s) = Nat.min n (String.length s).
Proof.
  revert n. induction s as [|a s IH]; intros [|n]; simpl.
  - by exists "".
  - by exists "".
  - by exists (String a s).
  - destruct (IH n) as (rest & Hs & Hl). exists rest.
    rewrite append_cons, <- Hs, Hl. done.
Qed.

Section FetchAndAuth.
Context `{!PyLib}.

(** X1: when the fetch is answered with a status other than 200,
    [get_key] logs the status and the body as an error and exits with
    status 1.  The state is the one it started in and no step touches the
    file system: the stale keys of an earlier run are not looked up, let
    alone removed. *)
Theorem failed_fetch_touches_nothing w self s status body :
  http_post w (fetch_request self) = Responded (mkResponse status body) ->
  status <> 200 ->
  let r := get_key w self s in
  r = (Exit 1, s, [(EPost (fetch_request self), fs s);
                   (ELog ERROR (MFetchFailed status body), fs s)]) /\
  exit_status (outcome_of r) = 1 /\
  purge_count (events_of r) = 0%nat /\
  Forall (fun e => fs_event e = false) (events_of r).
Proof.
  intros Hpost Hne r.
  assert (r = (Exit 1, s, [(EPost (fetch_request self), fs s);
                           (ELog ERROR (MFetchFailed status body), fs s)])) as ->.
  { subst r. unfold get_key. apply bind_Exit. unfold fetch_data.
    rewrite (bind_Ret _ _ s (mkResponse status body) s [(EPost (fetch_request self), fs s)])
      by (unfold requests_post; by rewrite Hpost).
    simpl. destruct (Z.eqb_spec status 200) as [|_]; [done|]. reflexivity. }
  split; [done|]. split; [done|]. split; [done|]. by repeat constructor.
Qed.

(** X2: a run of the fetcher sends the logon request first, and at most
    one request more.  Either the logon is the only request and the run
    does not return, or the logon was answered with status 200 and a body
    that is text, and the second request is the fetch built from the
    fetcher that holds the body without its quotes as the token: the
    token is the [Authorization] header and the body is [{}].  Nothing
    else is sent. *)
Theorem requests_of_a_run w baseurl user pass s :
  let self := mkFetcher baseurl None user pass in
  let r := main w baseurl user pass s in
  (posts (events_of r) = [logon_request self] /\ outcome_of r <> Ret tt) \/
  (exists body text,
     http_post w (logon_request self) = Responded (mkResponse 200 body) /\
     decode_utf8 body = Some text /\
     posts (events_of r) =
       [logon_request self;
        fetch_request (mkFetcher baseurl (Some (strip quote text)) user pass)]).
Proof.
  intros self r. subst r. unfold main, init. fold self.
  destruct (http_post w (logon_request self)) as [[status body]|] eqn:Hpost.
  - destruct (Z.eqb_spec status 200) as [->|Hne].
    + destruct (decode_utf8 body) as [text|] eqn:Hdec.
      * right. exists body, text. split; [done|]. split; [done|].
        rewrite (bind_Ret _ _ _ _ _ _ (auth_ok _ _ _ _ _ Hpost Hdec)).
        rewrite events_prepend, posts_app, get_key_posts. done.
      * left.
        rewrite (bind_Raise _ _ s UnicodeDecodeError s [(EPost (logon_request self), fs s)]);
          [done|].
        unfold auth.
        rewrite (bind_Ret _ _ s (mkResponse 200 body) s [(EPost (logon_request self), fs s)])
          by (unfold requests_post; by rewrite Hpost).
        simpl. unfold bytes_decode. rewrite Hdec.
        by rewrite (bind_Raise _ _ s UnicodeDecodeError s []).
    + left. rewrite (bind_Exit _ _ _ _ _ _ (auth_failed _ _ _ _ _ Hpost Hne)). done.
  - left.
    rewrite (bind_Raise _ _ s RequestException s [(EPost (logon_request self), fs s)]);
      [done|].
    unfold auth. apply bind_Raise. unfold requests_post. by rewrite Hpost.
Qed.

(** X3: after a logon answered with status 200, [auth] logs one message,
    at level [DEBUG], and the message carries the start of the token only:
    a prefix of the token of ten characters, or all of a shorter token. *)
Theorem token_head_logged w self s body text :
  http_post w (logon_request self) = Responded (mkResponse 200 body) ->
  decode_utf8 body = Some text ->
  let tok := strip quote text in
  exists head rest,
    events_of (auth w self s) = [EPost (logon_request self); ELog DEBUG (MAuthOk head)] /\
    tok = head +:+ rest /\
    String.length head = Nat.min 10 (String.length tok).
Proof.
  intros Hpost Hdec tok.
  destruct (substring_prefix 10 tok) as (rest & Hs & Hl).
  exists (substring 0 10 tok), rest.
  rewrite (auth_ok _ _ _ _ _ Hpost Hdec). done.
Qed.

(** [get_key] reads the fetcher only through the request it builds. *)
Lemma get_key_ext w (a b : fetcher) :
  fetch_request a = fetch_request b -> get_key w a = get_key w b.
Proof. intros Heq. unfold get_key, fetch_data. by rewrite Heq. Qed.

(** X17: the password goes into the logon request and nowhere else.  Two
    runs that differ in the password only, against a server that answers
    both logon requests alike, end alike, in the same state, and take the
    same steps after the first, which is the logon request itself: no
    message of the log, no file, no command and no later request depends
    on the password. *)
Theorem password_only_in_logon_request w baseurl user p1 p2 s :
  http_post w (logon_request (mkFetcher baseurl None user p1)) =
  http_post w (logon_request (mkFetcher baseurl None user p2)) ->
  let r1 := main w baseurl user p1 s in
  let r2 := main w baseurl user p2 s in
  outcome_of r1 = outcome_of r2 /\
  state_of r1 = state_of r2 /\
  tail (trace_of r1) = tail (trace_of r2) /\
  head (trace_of r1) = Some (EPost (logon_request (mkFetcher baseurl None user p1)), fs s) /\
  head (trace_of r2) = Some (EPost (logon_request (mkFetcher baseurl None user p2)), fs s).
Proof.
  intros Hsame r1 r2. subst r1 r2. unfold main, init.
  set (self1 := mkFetcher baseurl None user p1) in *.
  set (self2 := mkFetcher baseurl None user p2) in *.
  destruct (http_post w (logon_request self1)) as [[status body]|] eqn:Hp1;
    symmetry in Hsame.
  - destruct (Z.eqb_spec status 200) as [->|Hne].
    + destruct (decode_utf8 body) as [text|] eqn:Hdec.
      * rewrite (bind_Ret _ _ _ _ _ _ (auth_ok _ _ _ _ _ Hp1 Hdec)).
        rewrite (bind_Ret _ _ _ _ _ _ (auth_ok _ _ _ _ _ Hsame Hdec)).
        rewrite (get_key_ext w _ (mkFetcher (BASEURL self2) (Some (strip quote text))
                                    (username self2) (password self2))) by done.
        by repeat split.
      * assert (forall self, http_post w (logon_request self) = Responded (mkResponse 200 body) ->
                  auth w self s = (Raise UnicodeDecodeError, s, [(EPost (logon_request self), fs s)]))
          as Hraise.
        { intros self Hp. unfold auth.
          rewrite (bind_Ret _ _ s (mkResponse 200 body) s [(EPost (logon_request self), fs s)])
            by (unfold requests_post; by rewrite Hp).
          simpl. unfold bytes_decode. rewrite Hdec.
          by rewrite (bind_Raise _ _ s UnicodeDecodeError s []). }
        rewrite (bind_Raise _ _ _ _ _ _ (Hraise self1 Hp1)).
        rewrite (bind_Raise _ _ _ _ _ _ (Hraise self2 Hsame)).
        by repeat split.
    + rewrite (bind_Exit _ _ _ _ _ _ (auth_failed _ _ _ _ _ Hp1 Hne)).
      rewrite (bind_Exit _ _ _ _ _ _ (auth_failed _ _ _ _ _ Hsame Hne)).
      by repeat split.
  - assert (forall self, http_post w (logon_request self) = ConnectionFailed ->
              auth w self s = (Raise RequestException, s, [(EPost (logon_request self), fs s)]))
      as Hraise.
    { intros self Hp. unfold auth. apply bind_Raise. unfold requests_post. by rewrite Hp. }
    rewrite (bind_Raise _ _ _ _ _ _ (Hraise self1 Hp1)).
    rewrite (bind_Raise _ _ _ _ _ _ (Hraise self2 Hsame)).
    by repeat split.
Qed.

End FetchAndAuth.

(** * The files the run leaves alone *)

Lemma keeps_ret q {A} (a : A) : keeps q (mret a).
Proof. intros s. split; [done|constructor]. Qed.

Lemma keeps_raise q {A} e : keeps q (@raise A e).
Proof. intros s. split; [done|constructor]. Qed.

Lemma keeps_exit q {A} code : keeps q (@py_exit A code).
Proof. intros s. split; [done|constructor]. Qed.

Lemma keeps_bind q {A B} (m : M A) (f : A -> M B) :
  keeps q m -> (forall a, keeps q (f a)) -> keeps q (m ≫= f).
Proof.
  intros Hm Hf s. destruct (Hm s) as [Hs Ht]. unfold mbind, M_bind.
  destruct (m s) as [[[a| |] s1] t1]; try done.
  unfold state_of, trace_of in Hs, Ht. simpl in Hs, Ht.
  destruct (Hf a s1) as [Hs2 Ht2]. destruct (f a s1) as [[o s2] t2].
  unfold state_of, trace_of in *. simpl in *. split; [congruence|].
  apply Forall_app. split; [done|].
  eapply Forall_impl; [exact Ht2|]. intros e He. simpl in He. congruence.
Qed.

Lemma keeps_finally q {A} (m : M A) (fin : M unit) :
  keeps q m -> keeps q fin -> keeps q (finally m fin).
Proof.
  intros Hm Hf s. destruct (Hm s) as [Hs Ht]. unfold finally.
  destruct (m s) as [[o s1] t1].
  unfold state_of, trace_of in Hs, Ht. simpl in Hs, Ht.
  destruct (Hf s1) as [Hs2 Ht2]. destruct (fin s1) as [[o2 s2] t2].
  unfold state_of, trace_of in *. simpl in *. split; [congruence|].
  apply Forall_app. split; [done|].
  eapply Forall_impl; [exact Ht2|]. intros e He. simpl in He. congruence.
Qed.

Lemma keeps_for_each q {A} (l : list A) (body : A -> M unit) :
  (forall x, x ∈ l -> keeps q (body x)) -> keeps q (for_each l body).
Proof.
  induction l as [|x l IH]; intros Hb; simpl.
  - apply keeps_ret.
  - apply keeps_bind; [apply Hb; by left|intros _].
    apply IH. intros y Hy. apply Hb. by right.
Qed.

Lemma keeps_emit q e : keeps q (emit e).
Proof. intros s. split; [done|by repeat constructor]. Qed.

Lemma keeps_requests_post q w r : keeps q (requests_post w r).
Proof.
  intros s. unfold requests_post. destruct (http_post w r); split; try done; by repeat constructor.
Qed.

Lemma keeps_subprocess_run q w argv : keeps q (subprocess_run w argv).
Proof.
  intros s. unfold subprocess_run.
  destruct (subprocess w (nspawn s) argv); split; try done; by repeat constructor.
Qed.

Lemma keeps_subscript q v k : keeps q (subscript v k).
Proof.
  destruct v; try apply keeps_raise. simpl.
  destruct (assoc k members); [apply keeps_ret | apply keeps_raise].
Qed.

Lemma keeps_dict_get q v k d : keeps q (dict_get v k d).
Proof.
  destruct v; try apply keeps_raise. simpl.
  destruct (assoc k members); apply keeps_ret.
Qed.

Lemma keeps_slice30 q v : keeps q (slice30 v).
Proof. destruct v; first [apply keeps_raise | apply keeps_ret]. Qed.

Lemma keeps_py_iter q v : keeps q (py_iter v).
Proof. destruct v; first [apply keeps_raise | apply keeps_ret]. Qed.

Lemma keeps_py_open q w path : q <> path -> keeps q (py_open w path).
Proof.
  intros Hne s. unfold py_open, state_of, trace_of. simpl.
  rewrite lookup_insert_ne by done. split; [done|]. repeat constructor. simpl.
  by rewrite lookup_insert_ne.
Qed.

Lemma keeps_f_write q w path v : q <> path -> keeps q (f_write w path v).
Proof.
  intros Hne s. unfold f_write, state_of, trace_of.
  destruct v; try (split; [done|constructor]).
  destruct (_ <? _)%nat; simpl; rewrite ?lookup_alter_ne by done;
    (split; [done|]); repeat constructor; simpl; by rewrite ?lookup_alter_ne.
Qed.

Lemma keeps_py_close q path : q <> path -> keeps q (py_close path).
Proof.
  intros Hne s. unfold py_close, state_of, trace_of. simpl.
  rewrite lookup_alter_ne by done. split; [done|]. repeat constructor. simpl.
  by rewrite lookup_alter_ne.
Qed.

Lemma keeps_os_chmod q path mode : q <> path -> keeps q (os_chmod path mode).
Proof.
  intros Hne s. unfold os_chmod, state_of, trace_of.
  destruct (fs s !! path); simpl; [|split; [done|constructor]].
  rewrite lookup_alter_ne by done. split; [done|]. repeat constructor. simpl.
  by rewrite lookup_alter_ne.
Qed.

Lemma keeps_os_remove q ev path : q <> path -> keeps q (os_remove ev path).
Proof.
  intros Hne s. unfold os_remove, state_of, trace_of.
  destruct (fs s !! path); simpl; [|split; [done|constructor]].
  rewrite lookup_delete_ne by done. split; [done|]. repeat constructor. simpl.
  by rewrite lookup_delete_ne.
Qed.

Lemma prefix_append (a b : string) : String.prefix a (a +:+ b) = true.
Proof.
  induction a as [|c a IH]; [by destruct b|].
  rewrite append_cons. simpl. by destruct (Ascii.ascii_dec c c).
Qed.

Section Frame.
Context `{!PyLib}.

Lemma keeps_lower q v : keeps q (lower v).
Proof. destruct v; first [apply keeps_raise | apply keeps_ret]. Qed.

Lemma keeps_isoformat q v : keeps q (isoformat v).
Proof.
  destruct v; try apply keeps_raise; simpl;
    destruct (fromtimestamp_isoformat _); first [apply keeps_raise | apply keeps_ret].
Qed.

Lemma keeps_loads q b : keeps q (loads b).
Proof. unfold loads. destruct (json_loads b); [apply keeps_ret|apply keeps_raise]. Qed.

Lemma keeps_bytes_decode q b : keeps q (bytes_decode b).
Proof. unfold bytes_decode. destruct (decode_utf8 b); [apply keeps_ret|apply keeps_raise]. Qed.

Lemma keeps_glob_glob q pattern : keeps q (glob_glob pattern).
Proof. intros s. split; [done|by repeat constructor]. Qed.

Lemma keeps_register_key q w path : q <> path -> keeps q (register_key w path).
Proof.
  intros Hne. unfold register_key, logging.
  repeat first
    [ apply keeps_bind; [|intros ?]
    | apply keeps_subprocess_run | apply keeps_emit
    | by apply keeps_os_remove
    | match goal with |- keeps _ (if ?b then _ else _) => destruct b end ].
Qed.

Lemma keeps_write_key_file q w path key : q <> path -> keeps q (write_key_file w path key).
Proof.
  intros Hne. unfold write_key_file, with_open.
  apply keeps_bind; [by apply keeps_py_open|intros _].
  apply keeps_finally; [|by apply keeps_py_close].
  apply keeps_bind; [apply keeps_subscript|intros pk].
  apply keeps_bind; [by apply keeps_f_write|intros _].
  by apply keeps_os_chmod.
Qed.

(** The body of the loop touches no file but the one whose name starts
    with the prefix and [_]. *)
Lemma keeps_install_key q w filepath data key :
  String.prefix (filepath +:+ "_") q = false ->
  keeps q (install_key w filepath data key).
Proof.
  intros Hq.
  assert (forall a b, q <> filepath +:+ "_" +:+ a +:+ "_" +:+ b) as Hne.
  { intros a b ->. rewrite <- append_assoc, prefix_append in Hq. done. }
  unfold install_key, logging.
  repeat first
    [ by apply keeps_write_key_file
    | by apply keeps_register_key
    | apply keeps_subscript | apply keeps_dict_get | apply keeps_slice30
    | apply keeps_lower | apply keeps_isoformat | apply keeps_emit
    | apply keeps_bind; [|intros ?] ].
Qed.

Lemma keeps_install_loop q w filepath data :
  String.prefix (filepath +:+ "_") q = false ->
  keeps q (install_loop w filepath data).
Proof.
  intros Hq. unfold install_loop.
  apply keeps_bind; [apply keeps_subscript|intros value].
  apply keeps_bind; [apply keeps_py_iter|intros keys].
  apply keeps_for_each. intros key _. by apply keeps_install_key.
Qed.

(** The purge touches no file the pattern does not match. *)
Lemma keeps_delete_old_keys q prefix :
  glob_match (prefix +:+ "_*") q = false ->
  keeps q (delete_old_keys prefix).
Proof.
  intros Hq. unfold delete_old_keys. destruct (String.eqb prefix ""); [apply keeps_raise|].
  intros s.
  set (found := filter (fun p => glob_match (prefix +:+ "_*") p = true) (map_to_list (fs s)).*1).
  rewrite (bind_Ret _ _ s found s [(EGlob (prefix +:+ "_*") found, fs s)]) by done.
  rewrite state_prepend, trace_prepend.
  assert (keeps q (for_each found remove_one)) as Hk.
  { apply keeps_for_each. intros p Hp. unfold remove_one.
    apply keeps_bind; [apply keeps_emit|intros _].
    apply keeps_os_remove. intros <-.
    apply list_elem_of_filter in Hp as [Hp _]. congruence. }
  destruct (Hk s) as [Hs Ht]. split; [done|]. by constructor.
Qed.

Lemma keeps_install_all q w data :
  (forall home, homepath w = Some home ->
     let prefix := os_path_join home [".ssh"; "id_cyberark_session"] in
     glob_match (prefix +:+ "_*") q = false /\
     String.prefix (prefix +:+ "_") q = false) ->
  keeps q (install_all w data).
Proof.
  intros Hq. unfold install_all, get_ssh_keyfile_path.
  destruct (homepath w) as [home|].
  - destruct (Hq home eq_refl) as [Hg Hp].
    intros s. rewrite ret_bind. revert s.
    apply keeps_bind; [by apply keeps_delete_old_keys|intros _].
    by apply keeps_install_loop.
  - intros s. rewrite (bind_Exit _ _ s 1 s [(ELog ERROR MNoHome, fs s)]) by done.
    split; [done|by repeat constructor].
Qed.

Lemma keeps_fetch_data q w self : keeps q (fetch_data w self).
Proof.
  unfold fetch_data, logging.
  apply keeps_bind; [apply keeps_requests_post|intros resp].
  apply keeps_bind.
  - destruct (negb _); [|apply keeps_ret].
    apply keeps_bind; [apply keeps_emit|intros _; apply keeps_exit].
  - intros _. apply keeps_bind; [apply keeps_loads|intros data].
    apply keeps_bind; [apply keeps_emit|intros _; apply keeps_ret].
Qed.

Lemma keeps_auth q w self : keeps q (auth w self).
Proof.
  unfold auth, logging.
  apply keeps_bind; [apply keeps_requests_post|intros resp].
  destruct (status_code resp =? 200).
  - apply keeps_bind; [apply keeps_bytes_decode|intros text].
    apply keeps_bind; [apply keeps_emit|intros _; apply keeps_ret].
  - apply keeps_bind; [apply keeps_emit|intros _; apply keeps_exit].
Qed.

(** X4: the run leaves every other file alone.  A path that the pattern
    [<prefix>_*] does not match and that does not start with [<prefix>_]
    holds the same file, or no file, after every step of the run and at
    its end, however the run ends. *)
Theorem other_files_untouched w baseurl user pass s q :
  (forall home, homepath w = Some home ->
     let prefix := os_path_join home [".ssh"; "id_cyberark_session"] in
     glob_match (prefix +:+ "_*") q = false /\
     String.prefix (prefix +:+ "_") q = false) ->
  let r := main w baseurl user pass s in
  fs (state_of r) !! q = fs s !! q /\
  Forall (fun e : entry => e.2 !! q = fs s !! q) (trace_of r).
Proof.
  intros Hq r. subst r. revert s.
  change (keeps q (main w baseurl user pass)).
  unfold main, init, get_key.
  apply keeps_bind; [apply keeps_auth|intros app].
  apply keeps_bind; [apply keeps_fetch_data|intros data].
  by apply keeps_install_all.
Qed.

End Frame.

(** * The commands, and the file they are given *)

Lemma always_bind P {A B} (m : M A) (f : A -> M B) :
  always P m -> (forall a, always P (f a)) -> always P (m ≫= f).
Proof.
  intros Hm Hf s. specialize (Hm s). unfold mbind, M_bind.
  destruct (m s) as [[[a| |] s1] t1]; try done.
  specialize (Hf a s1). destruct (f a s1) as [[o s2] t2].
  apply Forall_app. by split.
Qed.

Lemma always_for_each P {A} (l : list A) (body : A -> M unit) :
  (forall x, always P (body x)) -> always P (for_each l body).
Proof.
  intros Hb. induction l as [|x l IH]; simpl.
  - intros s. constructor.
  - by apply always_bind.
Qed.

Lemma emits_always (Pb : event -> bool) (P : entry -> Prop) {A} (m : M A) :
  emits Pb m -> (forall e : entry, Pb e.1 = true -> P e) -> always P m.
Proof. intros Hm HP s. eapply Forall_impl; [apply Hm|]. intros e. apply HP. Qed.

Lemma bind_pure {A B} (m : M A) (f : A -> M B) s (Q : list entry -> Prop) :
  pure m -> Q [] ->
  (forall a, m s = (Ret a, s, []) -> Q (trace_of (f a s))) ->
  Q (trace_of ((m ≫= f) s)).
Proof.
  intros Hm Hnil Hf. destruct (Hm s) as [Hs Ht]. unfold mbind, M_bind.
  destruct (m s) as [[[a| |] s1] t1]; unfold state_of, trace_of in *; simpl in *; subst;
    try done.
  specialize (Hf a eq_refl). by destruct (f a s) as [[o s2] t2].
Qed.

Lemma subscript_ret v k a s s' t :
  subscript v k s = (Ret a, s', t) -> exists kv, v = JObj kv /\ assoc k kv = Some a.
Proof.
  destruct v as [| | | | | |kv]; try discriminate. simpl.
  destruct (assoc k kv) as [x|] eqn:Hx; [|discriminate].
  unfold mret, M_ret. intros Heq. exists kv. split; [done|]. congruence.
Qed.

Lemma pure_subscript v k : pure (subscript v k).
Proof.
  destruct v; try done. simpl. by destruct (assoc k members).
Qed.

Lemma pure_dict_get v k d : pure (dict_get v k d).
Proof. destruct v; try done. simpl. by destruct (assoc k members). Qed.

Lemma pure_slice30 v : pure (slice30 v).
Proof. by destruct v. Qed.

Section Commands.
Context `{!PyLib}.

Lemma pure_lower v : pure (lower v).
Proof. by destruct v. Qed.

Lemma pure_isoformat v : pure (isoformat v).
Proof. destruct v; try done; simpl; by destruct (fromtimestamp_isoformat _). Qed.

Lemma register_key_runs w path s f :
  fs s !! path = Some f ->
  Forall (fun e : entry => match e.1 with
                           | ERun argv => (argv = ["ls"; "-l"; path] \/ argv = ["ssh-add"; path]) /\
                                          e.2 = fs s
                           | _ => True
                           end) (trace_of (register_key w path s)).
Proof.
  intros Hf.
  destruct (subprocess w (nspawn s) ["ls"; "-l"; path]) as [c1|] eqn:Hls.
  - destruct (subprocess w (S (nspawn s)) ["ssh-add"; path]) as [c|] eqn:Hadd.
    + rewrite (register_key_ok _ _ _ _ _ _ Hls Hadd Hf).
      destruct (returncode c =? 0); unfold trace_of; cbn [snd];
        repeat first [apply List.Forall_nil | apply List.Forall_cons]; simpl; try done;
        (split; [first [by left | by right]|done]).
    + rewrite (register_key_no_ssh_add _ _ _ _ Hls Hadd). unfold trace_of; cbn [snd].
      repeat first [apply List.Forall_nil | apply List.Forall_cons]; simpl; try done;
        (split; [first [by left | by right]|done]).
  - rewrite (register_key_no_ls _ _ _ Hls). unfold trace_of; cbn [snd].
    repeat first [apply List.Forall_nil | apply List.Forall_cons]; simpl; try done;
      (split; [first [by left | by right]|done]).
Qed.

Lemma emits_write_key_file (P : event -> bool) w path key :
  (forall e, write_event e = true -> P e = true) -> emits P (write_key_file w path key).
Proof.
  intros HP. unfold write_key_file, with_open.
  apply emits_bind; [by apply emits_py_open, HP|intros _].
  apply emits_finally; [|by apply emits_py_close, HP].
  apply emits_bind; [apply emits_subscript|intros pk].
  apply emits_bind; [apply emits_f_write; intros; by apply HP|intros _].
  by apply emits_os_chmod, HP.
Qed.

(** The [with] block ends without an exception only for a record with a
    text as its [privateKey]. *)
Lemma write_key_file_returns w path key s :
  outcome_of (write_key_file w path key s) = Ret tt ->
  exists kv pk, key = JObj kv /\ assoc "privateKey" kv = Some (JStr pk).
Proof.
  unfold write_key_file, with_open, finally, py_open, f_write, os_chmod, py_close, subscript.
  unfold mbind, M_bind, mret, M_ret, raise, outcome_of.
  destruct key as [| | | | | |kv]; simpl; try discriminate.
  destruct (assoc "privateKey" kv) as [[| | | |pk| |]|] eqn:Hp; simpl; try discriminate.
  intros _. by exists kv, pk.
Qed.

Lemma lower_ret v a s s' t :
  lower v s = (Ret a, s', t) -> exists x, v = JStr x /\ a = str_lower x.
Proof.
  destruct v as [| | | |x| |]; try discriminate. simpl. unfold mret, M_ret.
  intros Heq. exists x. split; [done|]. congruence.
Qed.

Lemma no_run_key_file filepath key (t : list entry) :
  Forall (fun e : entry => is_run e.1 = false) t -> Forall (run_on_key_file filepath key) t.
Proof.
  intros Ht. eapply Forall_impl; [exact Ht|].
  intros [e m]. unfold run_on_key_file. simpl. by destruct e.
Qed.

Lemma write_key_file_no_run w path key s :
  Forall (fun e : entry => is_run e.1 = false) (trace_of (write_key_file w path key s)).
Proof.
  eapply Forall_impl.
  - apply (emits_write_key_file (fun e => negb (is_run e))). intros e. by destruct e.
  - intros e. simpl. by destruct (is_run e.1).
Qed.

Lemma install_key_runs w filepath data key s :
  Forall (run_on_key_file filepath key) (trace_of (install_key w filepath data key s)).
Proof.
  unfold install_key.
  apply bind_pure; [apply pure_subscript|constructor|intros ts _].
  apply bind_pure; [apply pure_isoformat|constructor|intros iso _].
  apply bind_pure; [apply pure_subscript|constructor|intros fmtv (kv & -> & Hf)%subscript_ret].
  apply bind_pure; [apply pure_lower|constructor|intros fmt_l (fmt & -> & ->)%lower_ret].
  apply bind_pure; [apply pure_subscript|constructor|intros algv (kv' & [= <-] & Ha)%subscript_ret].
  apply bind_pure; [apply pure_lower|constructor|intros alg_l (alg & -> & ->)%lower_ret].
  fold (key_filename filepath fmt alg). set (path := key_filename filepath fmt alg).
  pose proof (write_key_file_no_run w path (JObj kv) s) as Hnr.
  pose proof (write_key_file_returns w path (JObj kv) s) as Hret.
  destruct (write_key_file w path (JObj kv) s) as [[o s1] t1] eqn:Hw.
  destruct o as [[]| |].
  - destruct (Hret eq_refl) as (kv' & pk & [= <-] & Hp).
    assert (key_record (JObj kv) = Some (fmt, alg, pk)) as Hk
      by (simpl; by rewrite Hf, Ha, Hp).
    rewrite (write_key_file_ok w path _ fmt alg pk s Hk) in Hw.
    injection Hw as <- <-.
    rewrite (bind_Ret _ _ _ _ _ _ (write_key_file_ok w path _ fmt alg pk s Hk)).
    rewrite trace_prepend. apply Forall_app. split; [by apply no_run_key_file|].
    apply bind_pure; [apply pure_subscript|constructor|intros alg' _].
    apply bind_pure; [apply pure_dict_get|constructor|intros pub _].
    apply bind_pure; [apply pure_slice30|constructor|intros hint _].
    set (s1 := mkState _ _ _ _).
    rewrite (bind_Ret _ _ s1 tt s1 [(ELog INFO (MWrote alg' iso hint path), fs s1)]) by done.
    rewrite trace_prepend. apply Forall_cons. split; [done|].
    eapply Forall_impl;
      [apply (register_key_runs w path s1 (mkFile 384 pk)); simpl; apply lookup_insert_eq|].
    intros [e m]. unfold run_on_key_file. simpl. destruct e; try done.
    intros [Hargv ->]. exists fmt, alg, pk. split; [done|]. split; [done|].
    simpl. apply lookup_insert_eq.
  - rewrite (bind_Exit _ _ _ _ _ _ Hw). by apply no_run_key_file.
  - rewrite (bind_Raise _ _ _ _ _ _ Hw). by apply no_run_key_file.
Qed.

Lemma emits_auth (P : event -> bool) w self :
  (forall r, P (EPost r) = true) -> (forall lvl m, P (ELog lvl m) = true) ->
  emits P (auth w self).
Proof.
  intros HP HL. unfold auth, logging.
  apply emits_bind; [by apply emits_requests_post|intros resp].
  destruct (status_code resp =? 200).
  - apply emits_bind; [apply emits_bytes_decode|intros text].
    apply emits_bind; [by apply emits_emit|intros _; apply emits_ret].
  - apply emits_bind; [by apply emits_emit|intros _; apply emits_exit].
Qed.

Lemma emits_fetch_data (P : event -> bool) w self :
  (forall r, P (EPost r) = true) -> (forall lvl m, P (ELog lvl m) = true) ->
  emits P (fetch_data w self).
Proof.
  intros HP HL. unfold fetch_data.
  apply emits_bind; [by apply emits_requests_post|intros resp].
  by apply emits_fetch_rest.
Qed.

(** X5: the only commands the run starts are [ls -l <file>] and
    [ssh-add <file>], and at the moment either is started the file exists
    with mode 0o600.  For the record being installed the file is the one
    of the record and holds the whole key: the [with] block has been left,
    so the text is flushed, before the commands run. *)
Theorem commands_on_protected_files w baseurl user pass :
  (forall s, Forall run_on_protected (trace_of (main w baseurl user pass s))) /\
  (forall filepath data key s,
     Forall (run_on_key_file filepath key) (trace_of (install_key w filepath data key s))).
Proof.
  split; [|intros; apply install_key_runs].
  assert (forall e : entry, negb (is_run e.1) = true -> run_on_protected e) as Hq.
  { intros [e m]. unfold run_on_protected. simpl. by destruct e. }
  change (always run_on_protected (main w baseurl user pass)).
  unfold main, init, get_key, install_all, install_loop.
  apply always_bind; [apply (emits_always (fun e => negb (is_run e))); [by apply emits_auth|done]|].
  intros app.
  apply always_bind;
    [apply (emits_always (fun e => negb (is_run e))); [by apply emits_fetch_data|done]|].
  intros data.
  apply always_bind;
    [apply (emits_always (fun e => negb (is_run e))); [by apply emits_keyfile_path|done]|].
  intros filepath.
  apply always_bind.
  { apply (emits_always (fun e => negb (is_run e))); [|done].
    apply emits_delete_old_keys; [intros e; by destruct e|done]. }
  intros _.
  apply always_bind;
    [apply (emits_always (fun e => negb (is_run e))); [apply emits_subscript|done]|].
  intros value.
  apply always_bind;
    [apply (emits_always (fun e => negb (is_run e))); [apply emits_py_iter|done]|].
  intros keys. apply always_for_each. intros key s.
  eapply Forall_impl; [apply install_key_runs|].
  intros [e m]. unfold run_on_key_file, run_on_protected. simpl. destruct e; try done.
  intros (fmt & alg & pk & _ & Hargv & Hfile).
  exists (key_filename filepath fmt alg), (mkFile 384 pk). by repeat split.
Qed.

End Commands.

(** * When the key file can be read by others *)

Lemma exposed_app path (t1 t2 : list entry) :
  exposed path (t1 ++ t2) = exposed path t1 ++ exposed path t2.
Proof. apply omap_app. Qed.

Section Exposure.
Context `{!PyLib}.

(** Once the file has mode 0o600, no step of the registration exposes it. *)
Lemma register_key_not_exposed w path s pk :
  fs s !! path = Some (mkFile 384 pk) ->
  exposed path (trace_of (register_key w path s)) = [].
Proof.
  intros Hf.
  destruct (subprocess w (nspawn s) ["ls"; "-l"; path]) as [c1|] eqn:Hls.
  - destruct (subprocess w (S (nspawn s)) ["ssh-add"; path]) as [c|] eqn:Hadd.
    + rewrite (register_key_ok _ _ _ _ _ _ Hls Hadd Hf).
      destruct (returncode c =? 0); unfold exposed, trace_of; simpl;
        rewrite ?Hf, ?lookup_delete_eq; reflexivity.
    + rewrite (register_key_no_ssh_add _ _ _ _ Hls Hadd).
      unfold exposed, trace_of; simpl. by rewrite Hf.
  - rewrite (register_key_no_ls _ _ _ Hls). unfold exposed, trace_of; simpl. by rewrite Hf.
Qed.

(** X6: for a record of the data model, the steps after which others can
    read the key file are decided by the mode the file has when [open]
    returns.  With the bit for others set, these are the steps [open] and
    [write], and no step from [os.chmod] on; with the bit clear, none.
    For a file that [open] creates the bit is set exactly when the umask
    does not mask it. *)
Theorem exposure_follows_mode_at_open w filepath data key iso hint fmt alg pk s :
  bundle_head data = Some (iso, hint) ->
  key_record key = Some (fmt, alg, pk) ->
  let path := key_filename filepath fmt alg in
  let r := install_key w filepath data key s in
  exposed path (trace_of r) =
    (if N.testbit (mode_at_open w s path) 2 then [EOpen path; EWrite path pk] else []) /\
  (fs s !! path = None ->
   N.testbit (mode_at_open w s path) 2 = negb (N.testbit (umask w) 2)).
Proof.
  intros Hd Hk path r. split.
  - subst r. rewrite (install_key_head _ _ _ _ _ _ _ _ _ _ Hd Hk). fold path.
    rewrite trace_prepend, !exposed_app.
    rewrite (register_key_not_exposed w path _ pk) by (simpl; apply lookup_insert_eq).
    rewrite app_nil_r.
    unfold exposed, written. cbn [omap list_omap app]. cbn [fst snd].
    rewrite !lookup_insert_eq. unfold world_readable. cbn [f_mode].
    change (N.testbit 384 2) with false. cbv beta iota.
    by destruct (N.testbit (mode_at_open w s path) 2).
  - intros Hnew. unfold mode_at_open. rewrite Hnew. unfold created_mode.
    rewrite N.ldiff_spec. reflexivity.
Qed.

End Exposure.

(** * After the loop: every key accepted, or none *)

Section AfterTheLoop.
Context `{!PyLib}.

(** When the body of the loop returns for a record of the data model,
    both commands were started and ran to their end. *)
Lemma install_key_returned w filepath data key iso hint fmt alg pk s :
  bundle_head data = Some (iso, hint) ->
  key_record key = Some (fmt, alg, pk) ->
  outcome_of (install_key w filepath data key s) = Ret tt ->
  let path := key_filename filepath fmt alg in
  exists c1 c,
    subprocess w (nspawn s) ["ls"; "-l"; path] = Completed c1 /\
    subprocess w (S (nspawn s)) ["ssh-add"; path] = Completed c.
Proof.
  intros Hd Hk Hret path. revert Hret.
  rewrite (install_key_head _ _ _ _ _ _ _ _ _ _ Hd Hk), outcome_prepend. fold path.
  set (s1 := mkState _ _ _ _).
  destruct (subprocess w (nspawn s) ["ls"; "-l"; path]) as [c1|] eqn:Hls.
  - destruct (subprocess w (S (nspawn s)) ["ssh-add"; path]) as [c|] eqn:Hadd.
    + intros _. by exists c1, c.
    + by rewrite (register_key_no_ssh_add w path s1 c1 Hls Hadd).
  - by rewrite (register_key_no_ls w path s1 Hls).
Qed.

Lemma loop_agent_refuses w filepath data iso hint keys s :
  bundle_head data = Some (iso, hint) ->
  Forall (fun k => is_Some (key_record k)) keys ->
  agent_refuses w ->
  let r := for_each keys (install_key w filepath data) s in
  let files := omap (record_file filepath) keys in
  outcome_of r = Ret tt ->
  agent (state_of r) = agent s /\
  fs (state_of r) = foldl put_key (fs s) files /\
  Forall (fun kf : string * string => warned_left kf.1 (events_of r) = true) files /\
  Forall (fun e => is_unlink e = false) (events_of r).
Proof.
  intros Hd Hks Hno. revert s.
  induction Hks as [|k rest [[[fmt alg] pk] Hk] _ IH]; intros s r files Hret.
  - by repeat split.
  - subst r files.
    set (path := key_filename filepath fmt alg).
    assert (outcome_of (install_key w filepath data k s) = Ret tt) as Hk_ret.
    { destruct (install_key w filepath data k s) as [[[[]|code|e] s1] t1] eqn:Hrun; [done|..];
        rewrite (for_each_stop _ _ _ _ _ Hrun) in Hret by done; discriminate Hret. }
    destruct (install_key_returned _ _ _ _ _ _ _ _ _ _ Hd Hk Hk_ret) as (c1 & c & Hls & Hadd).
    fold path in Hls, Hadd.
    pose proof (Hno _ _ _ Hadd) as Hrc.
    pose proof (install_key_completed _ _ _ _ _ _ _ _ _ _ _ _ Hd Hk Hls Hadd) as Hrun.
    fold path in Hrun. destruct (Z.eqb_spec (returncode c) 0) as [|_]; [done|].
    revert Hret. rewrite (for_each_cons _ _ _ _ _ _ Hrun).
    rewrite outcome_prepend, state_prepend, events_prepend.
    assert (omap (record_file filepath) (k :: rest) =
            (path, pk) :: omap (record_file filepath) rest) as ->.
    { simpl. unfold record_file at 1. by rewrite Hk. }
    set (s1 := mkState _ _ _ _). intros Hret.
    destruct (IH s1 Hret) as (Ha & Hfs & Hw & Hnr).
    split; [exact Ha|]. split; [exact Hfs|].
    split.
    + apply Forall_cons. split.
      * rewrite warned_left_app. apply orb_true_intro. left.
        rewrite fmap_app, warned_left_app. apply orb_true_intro. right.
        simpl. by rewrite String.eqb_refl.
      * eapply Forall_impl; [exact Hw|]. intros kf Hkf. simpl in Hkf.
        rewrite warned_left_app, Hkf. apply orb_true_r.
    + apply Forall_app. split; [|exact Hnr].
      rewrite fmap_app. apply Forall_app. split; by repeat constructor.
Qed.

Lemma loop_agent_accepts w filepath data iso hint keys s :
  bundle_head data = Some (iso, hint) ->
  Forall (fun k => is_Some (key_record k)) keys ->
  agent_accepts w ->
  let r := for_each keys (install_key w filepath data) s in
  let files := omap (record_file filepath) keys in
  outcome_of r = Ret tt ->
  agent (state_of r) = rev files.*2 ++ agent s /\
  (forall q, fs (state_of r) !! q = if decide (q ∈ files.*1) then None else fs s !! q) /\
  fs (state_of r) ⊆ fs s.
Proof.
  intros Hd Hks Hyes.
  enough (forall s, let r := for_each keys (install_key w filepath data) s in
                    let files := omap (record_file filepath) keys in
                    outcome_of r = Ret tt ->
                    agent (state_of r) = rev files.*2 ++ agent s /\
                    fs (state_of r) = foldr delete (fs s) files.*1) as Hall.
  { intros r files Hret. destruct (Hall s Hret) as (Ha & Hfs). fold r files in Ha, Hfs.
    split; [exact Ha|].
    assert (forall q, fs (state_of r) !! q =
                      if decide (q ∈ files.*1) then None else fs s !! q) as Hq
      by (intros q; rewrite Hfs; apply delete_all_lookup).
    split; [exact Hq|].
    apply map_subseteq_spec. intros q f. rewrite Hq. by destruct (decide _). }
  clear s. induction Hks as [|k rest [[[fmt alg] pk] Hk] _ IH]; intros s r files Hret.
  - by repeat split.
  - subst r files.
    set (path := key_filename filepath fmt alg).
    assert (outcome_of (install_key w filepath data k s) = Ret tt) as Hk_ret.
    { destruct (install_key w filepath data k s) as [[[[]|code|e] s1] t1] eqn:Hrun; [done|..];
        rewrite (for_each_stop _ _ _ _ _ Hrun) in Hret by done; discriminate Hret. }
    destruct (install_key_returned _ _ _ _ _ _ _ _ _ _ Hd Hk Hk_ret) as (c1 & c & Hls & Hadd).
    fold path in Hls, Hadd.
    pose proof (Hyes _ _ _ Hadd) as Hrc.
    pose proof (install_key_completed _ _ _ _ _ _ _ _ _ _ _ _ Hd Hk Hls Hadd) as Hrun.
    fold path in Hrun. rewrite Hrc in Hrun. simpl in Hrun.
    revert Hret. rewrite (for_each_cons _ _ _ _ _ _ Hrun).
    rewrite outcome_prepend, state_prepend.
    assert (omap (record_file filepath) (k :: rest) =
            (path, pk) :: omap (record_file filepath) rest) as ->.
    { simpl. unfold record_file at 1. by rewrite Hk. }
    set (s1 := mkState _ _ _ _). intros Hret.
    destruct (IH s1 Hret) as (Ha & Hfs).
    split.
    + rewrite Ha. simpl. by rewrite <- app_assoc.
    + rewrite Hfs. simpl. by rewrite delete_all_delete.
Qed.

Lemma install_loop_array w filepath kv keys s :
  assoc "value" kv = Some (JArr keys) ->
  install_loop w filepath (JObj kv) s = for_each keys (install_key w filepath (JObj kv)) s.
Proof.
  intros Hvalue. unfold install_loop, subscript.
  rewrite Hvalue, ret_bind. cbn [py_iter]. by rewrite ret_bind.
Qed.

Lemma before_loop_no_unlink rq data pattern found :
  Forall (fun e => is_unlink e = false)
    ([EPost rq; ELog DEBUG (MGotData data)] ++ EGlob pattern found :: removals found).
Proof.
  repeat (apply Forall_cons; split; [done|]).
  induction found as [|p l IH]; [constructor|]. simpl. by repeat (apply Forall_cons; split; [done|]).
Qed.

(** X8: a run of [get_key] on a bundle of records of the data model that
    returns, with [ssh-add] ending in a status other than 0 whenever it
    runs (no agent).  The agent is unchanged; the file system is the
    purged one with the key of each record put in its file with mode
    0o600, in the order of the array; the operator is told of every file
    left; and no file is unlinked. *)
Theorem keys_left_when_agent_refuses w self s body kv keys home iso hint :
  http_post w (fetch_request self) = Responded (mkResponse 200 body) ->
  json_loads body = Some (JObj kv) ->
  assoc "value" kv = Some (JArr keys) ->
  homepath w = Some home ->
  bundle_head (JObj kv) = Some (iso, hint) ->
  Forall (fun k => is_Some (key_record k)) keys ->
  agent_refuses w ->
  outcome_of (get_key w self s) = Ret tt ->
  let prefix := os_path_join home [".ssh"; "id_cyberark_session"] in
  let files := omap (record_file prefix) keys in
  let r := get_key w self s in
  agent (state_of r) = agent s /\
  fs (state_of r) = foldl put_key (purged (prefix +:+ "_*") (fs s)) files /\
  Forall (fun kf : string * string => warned_left kf.1 (events_of r) = true) files /\
  Forall (fun e => is_unlink e = false) (events_of r).
Proof.
  intros Hpost Hload Hvalue Hhome Hd Hks Hno Hret prefix files r.
  destruct (get_key_ok w self s body _ home Hpost Hload Hhome) as (tr & Hrun & Htr).
  fold prefix in Hrun, Htr. subst r. revert Hret.
  rewrite Hrun, (install_loop_array _ _ _ _ _ Hvalue).
  set (s1 := mkState _ _ _ _).
  rewrite outcome_prepend, state_prepend, events_prepend, Htr. intros Hret.
  destruct (loop_agent_refuses w prefix (JObj kv) iso hint keys s1 Hd Hks Hno Hret)
    as (Ha & Hfs & Hw & Hnu).
  split; [exact Ha|]. split; [exact Hfs|]. split.
  - eapply Forall_impl; [exact Hw|]. intros kf Hkf. simpl in Hkf.
    rewrite warned_left_app, Hkf. apply orb_true_r.
  - apply Forall_app. split; [apply before_loop_no_unlink|exact Hnu].
Qed.

(** X7: a run of [get_key] on a bundle of records of the data model that
    returns, with [ssh-add] ending in status 0 whenever it runs.  The
    agent holds the keys of all records, the latest first; no file is
    left at the path of any record, every other path is as the purge left
    it, and the file system holds no file that was not there before the
    run. *)
Theorem keys_in_agent_when_accepted w self s body kv keys home iso hint :
  http_post w (fetch_request self) = Responded (mkResponse 200 body) ->
  json_loads body = Some (JObj kv) ->
  assoc "value" kv = Some (JArr keys) ->
  homepath w = Some home ->
  bundle_head (JObj kv) = Some (iso, hint) ->
  Forall (fun k => is_Some (key_record k)) keys ->
  agent_accepts w ->
  outcome_of (get_key w self s) = Ret tt ->
  let prefix := os_path_join home [".ssh"; "id_cyberark_session"] in
  let files := omap (record_file prefix) keys in
  let r := get_key w self s in
  agent (state_of r) = rev files.*2 ++ agent s /\
  (forall q, fs (state_of r) !! q =
             if decide (q ∈ files.*1) then None else purged (prefix +:+ "_*") (fs s) !! q) /\
  fs (state_of r) ⊆ fs s.
Proof.
  intros Hpost Hload Hvalue Hhome Hd Hks Hyes Hret prefix files r.
  destruct (get_key_ok w self s body _ home Hpost Hload Hhome) as (tr & Hrun & Htr).
  fold prefix in Hrun, Htr. subst r. revert Hret.
  rewrite Hrun, (install_loop_array _ _ _ _ _ Hvalue).
  set (s1 := mkState _ _ _ _).
  rewrite outcome_prepend, state_prepend. intros Hret.
  destruct (loop_agent_accepts w prefix (JObj kv) iso hint keys s1 Hd Hks Hyes Hret)
    as (Ha & Hq & Hsub).
  split; [exact Ha|]. split; [exact Hq|].
  etrans; [exact Hsub|]. apply map_filter_subseteq.
Qed.

End AfterTheLoop.

(** * Edges: the purge, the path, and fields of another type *)

Lemma subscript_obj kv k x : assoc k kv = Some x -> subscript (JObj kv) k = mret x.
Proof. intros Hx. simpl. by rewrite Hx. Qed.

Section Edges.
Context `{!PyLib}.

Lemma purged_stale pattern (m : filesystem) : stale pattern (purged pattern m) = [].
Proof.
  destruct (stale pattern (purged pattern m)) as [|p l] eqn:Hs; [done|].
  assert (p ∈ stale pattern (purged pattern m)) as Hin by (rewrite Hs; by left).
  apply list_elem_of_filter in Hin as [Hg Hin].
  apply list_elem_of_fmap in Hin as ([q f] & -> & Hin). simpl in Hg.
  apply elem_of_map_to_list in Hin. rewrite purged_lookup, Hg in Hin. done.
Qed.

Lemma delete_old_keys_nothing prefix s :
  prefix <> "" ->
  stale (prefix +:+ "_*") (fs s) = [] ->
  delete_old_keys prefix s = (Ret tt, s, [(EGlob (prefix +:+ "_*") [], fs s)]).
Proof.
  intros Hne Hs. unfold delete_old_keys.
  destruct (String.eqb_spec prefix "") as [|_]; [done|].
  rewrite (bind_Ret _ _ s [] s [(EGlob (prefix +:+ "_*") [], fs s)]).
  - by destruct s.
  - unfold glob_glob. fold (stale (prefix +:+ "_*") (fs s)). by rewrite Hs.
Qed.

(** X9: [delete_old_keys] with an empty prefix raises [ValueError]
    before it looks anything up.  With any other prefix it returns, no
    existing path matches the pattern afterwards, and running it again
    finds nothing, removes nothing and leaves the state as it is. *)
Theorem purge_edges_and_repeat prefix s :
  (prefix = "" -> delete_old_keys prefix s = (Raise ValueError, s, [])) /\
  (prefix <> "" ->
   let pattern := prefix +:+ "_*" in
   let r := delete_old_keys prefix s in
   outcome_of r = Ret tt /\
   stale pattern (fs (state_of r)) = [] /\
   delete_old_keys prefix (state_of r) =
     (Ret tt, state_of r, [(EGlob pattern [], fs (state_of r))])).
Proof.
  split; [by intros ->|]. intros Hne pattern r.
  destruct (delete_old_keys_ok prefix s Hne) as (tr & Hrun & _). fold pattern in Hrun.
  assert (stale pattern (fs (state_of r)) = []) as Hs.
  { subst r. rewrite Hrun. apply purged_stale. }
  split; [subst r; by rewrite Hrun|]. split; [exact Hs|].
  by apply delete_old_keys_nothing.
Qed.

(** X10: the edges of [get_ssh_keyfile_path].  A key name that starts
    with a separator is returned as it is, the home directory dropped.
    With [USERPROFILE] set to the empty text and [HOME] unset or empty the
    guard does not fire, and the path is relative: [.ssh/<keyname>].  With
    [HOME] set to the empty text and [USERPROFILE] unset the guard fires:
    an error is logged and the process exits with status 1. *)
Theorem keyfile_path_edges w keyname s :
  (forall home, homepath w = Some home -> starts_with_sep keyname = true ->
     get_ssh_keyfile_path w keyname s = (Ret keyname, s, [])) /\
  ((getenv w "HOME" = None \/ getenv w "HOME" = Some "") ->
   getenv w "USERPROFILE" = Some "" ->
   starts_with_sep keyname = false ->
   get_ssh_keyfile_path w keyname s = (Ret (".ssh/" +:+ keyname), s, [])) /\
  (getenv w "HOME" = Some "" -> getenv w "USERPROFILE" = None ->
   get_ssh_keyfile_path w keyname s = (Exit 1, s, [(ELog ERROR MNoHome, fs s)])).
Proof.
  split; [|split].
  - intros home Hh Hk. rewrite (keyfile_path_ok _ _ _ Hh).
    unfold os_path_join. simpl. unfold join_step at 1. by rewrite Hk.
  - intros Hhome Hprofile Hk.
    assert (homepath w = Some "") as Hh.
    { unfold homepath. rewrite Hprofile. by destruct Hhome as [-> | ->]. }
    rewrite (keyfile_path_ok _ _ _ Hh).
    unfold os_path_join. simpl. unfold join_step at 1. rewrite Hk. reflexivity.
  - intros Hhome Hprofile. apply keyfile_path_no_home.
    unfold homepath. by rewrite Hhome, Hprofile.
Qed.

(** X12: a bundle whose [publicKey] is present and is [null], a truth
    value or a number.  The body of the loop raises [TypeError] when it
    builds the line for the log, after the key file was written, given
    mode 0o600 and closed: the file stays on disk with the key in it,
    nothing is logged for the record, and no command is run. *)
Theorem public_key_not_text w filepath kv ts iso pub key fmt alg pk s :
  assoc "expirationTime" kv = Some ts ->
  is_number ts = true ->
  fromtimestamp_isoformat ts = Some iso ->
  assoc "publicKey" kv = Some pub ->
  is_scalar pub = true ->
  key_record key = Some (fmt, alg, pk) ->
  let path := key_filename filepath fmt alg in
  let r := install_key w filepath (JObj kv) key s in
  r = (Raise TypeError,
       mkState (<[path := mkFile 384 pk]> (fs s)) "" (agent s) (nspawn s),
       written w s path pk) /\
  logged (events_of r) = [] /\
  commands_run (events_of r) = [].
Proof.
  intros Hts Hn Hiso Hpub Hs Hk path r.
  assert (isoformat ts = mret iso) as Hi.
  { unfold isoformat. destruct ts; try discriminate; by rewrite Hiso. }
  pose proof (write_key_file_ok w path key fmt alg pk s Hk) as Hw.
  assert (r = (Raise TypeError,
               mkState (<[path := mkFile 384 pk]> (fs s)) "" (agent s) (nspawn s),
               written w s path pk)) as ->.
  { subst r. apply key_record_inv in Hk as (rkv & -> & Hf & Ha & Hp).
    unfold install_key, subscript.
    rewrite Hts, ret_bind, Hi, ret_bind, Hf, ret_bind. cbn [lower]. rewrite ret_bind.
    rewrite Ha, ret_bind. cbn [lower]. rewrite ret_bind.
    fold (key_filename filepath fmt alg). fold path.
    rewrite (bind_Ret _ _ _ _ _ _ Hw).
    rewrite ret_bind. unfold dict_get. rewrite Hpub, ret_bind.
    set (s1 := mkState _ _ _ _).
    rewrite (bind_Raise _ _ s1 TypeError s1 []) by (by destruct pub).
    unfold prepend. simpl. done. }
  by repeat split.
Qed.

(** X11: fields of another type.  A [value] that is [null], a truth
    value or a number cannot be iterated over: [TypeError].  An
    [expirationTime] that is not a number: [TypeError].  In a bundle with
    a proper head: a record that is not an object raises [TypeError], a
    [format] or a [keyAlg] that is not text raises [AttributeError], all
    of these before any file is opened; a [privateKey] that is not text
    raises [TypeError] in [f.write], the file having been created empty,
    and the mode is never set. *)
Theorem ill_typed_fields_raise w filepath kv s :
  (forall v, assoc "value" kv = Some v -> is_scalar v = true ->
     install_loop w filepath (JObj kv) s = (Raise TypeError, s, [])) /\
  (forall key ts, assoc "expirationTime" kv = Some ts -> is_number ts = false ->
     install_key w filepath (JObj kv) key s = (Raise TypeError, s, [])) /\
  (forall iso hint,
     bundle_head (JObj kv) = Some (iso, hint) ->
     (forall key, is_object key = false ->
        install_key w filepath (JObj kv) key s = (Raise TypeError, s, [])) /\
     (forall rkv v, assoc "format" rkv = Some v -> is_text v = false ->
        install_key w filepath (JObj kv) (JObj rkv) s = (Raise AttributeError, s, [])) /\
     (forall rkv fmt v,
        assoc "format" rkv = Some (JStr fmt) ->
        assoc "keyAlg" rkv = Some v -> is_text v = false ->
        install_key w filepath (JObj kv) (JObj rkv) s = (Raise AttributeError, s, [])) /\
     (forall rkv fmt alg v,
        assoc "format" rkv = Some (JStr fmt) ->
        assoc "keyAlg" rkv = Some (JStr alg) ->
        assoc "privateKey" rkv = Some v -> is_text v = false ->
        let path := key_filename filepath fmt alg in
        let fs1 := <[path := mkFile (mode_at_open w s path) ""]> (fs s) in
        install_key w filepath (JObj kv) (JObj rkv) s =
          (Raise TypeError, mkState fs1 "" (agent s) (nspawn s),
           [(EOpen path, fs1); (EClose path, fs1)]))).
Proof.
  split; [|split].
  - intros v Hv Hs. unfold install_loop, subscript. rewrite Hv, ret_bind.
    rewrite (bind_Raise _ _ s TypeError s []); [done|by destruct v].
  - intros key ts Hts Hn. unfold install_key, subscript. rewrite Hts, ret_bind.
    rewrite (bind_Raise _ _ s TypeError s []); [done|by destruct ts].
  - intros iso hint (dkv & ts & pub & [= <-] & Hts & Hiso & _)%bundle_head_inv.
    split; [|split; [|split]].
    + intros key Hk. unfold install_key.
      rewrite (subscript_obj _ _ _ Hts), ret_bind, Hiso, ret_bind.
      rewrite (bind_Raise _ _ s TypeError s []); [done|by destruct key].
    + intros rkv v Hf Hv. unfold install_key, subscript.
      rewrite Hts, ret_bind, Hiso, ret_bind, Hf, ret_bind.
      rewrite (bind_Raise _ _ s AttributeError s []); [done|by destruct v].
    + intros rkv fmt v Hf Ha Hv. unfold install_key, subscript.
      rewrite Hts, ret_bind, Hiso, ret_bind, Hf, ret_bind. cbn [lower]. rewrite ret_bind.
      rewrite Ha, ret_bind.
      rewrite (bind_Raise _ _ s AttributeError s []); [done|by destruct v].
    + intros rkv fmt alg v Hf Ha Hp Hv path fs1. unfold install_key, subscript.
      rewrite Hts, ret_bind, Hiso, ret_bind, Hf, ret_bind. cbn [lower]. rewrite ret_bind.
      rewrite Ha, ret_bind. cbn [lower]. rewrite ret_bind.
      fold (key_filename filepath fmt alg). fold path.
      apply bind_Raise.
      unfold write_key_file, with_open, finally, py_open, f_write, os_chmod, py_close, subscript.
      unfold mbind, M_bind, mret, M_ret, raise, mode_at_open. simpl.
      rewrite Hp. subst fs1. unfold mode_at_open, append_data.
      destruct v; try discriminate; simpl; rewrite alter_insert_eq;
        by destruct (fs s !! path); simpl.
Qed.

End Edges.

(** * The status the fetcher ends with *)

Lemma exits_ret {A} (a : A) : exits_with_one (mret a).
Proof. by intros s code. Qed.

Lemma exits_raise {A} e : exits_with_one (@raise A e).
Proof. by intros s code. Qed.

Lemma exits_exit {A} : exits_with_one (@py_exit A 1).
Proof. intros s code [= <-]. done. Qed.

Lemma exits_bind {A B} (m : M A) (f : A -> M B) :
  exits_with_one m -> (forall a, exits_with_one (f a)) -> exits_with_one (m ≫= f).
Proof.
  intros Hm Hf s code. specialize (Hm s). unfold mbind, M_bind, outcome_of in *.
  destruct (m s) as [[[a| |] s1] t1]; simpl in *.
  - specialize (Hf a s1 code). unfold outcome_of in Hf.
    by destruct (f a s1) as [[o s2] t2].
  - intros [= <-]. by apply Hm.
  - done.
Qed.

Lemma exits_finally {A} (m : M A) (fin : M unit) :
  exits_with_one m -> exits_with_one fin -> exits_with_one (finally m fin).
Proof.
  intros Hm Hf s code. specialize (Hm s). unfold finally, outcome_of in *.
  destruct (m s) as [[o s1] t1]. specialize (Hf s1 code). unfold outcome_of in Hf.
  destruct (fin s1) as [[[[]|code2|e2] s2] t2]; simpl in *.
  - apply Hm.
  - intros [= <-]. by apply Hf.
  - done.
Qed.

Lemma exits_for_each {A} (l : list A) (body : A -> M unit) :
  (forall x, exits_with_one (body x)) -> exits_with_one (for_each l body).
Proof.
  intros Hb. induction l as [|x l IH]; simpl.
  - apply exits_ret.
  - by apply exits_bind.
Qed.

Lemma exits_emit e : exits_with_one (emit e).
Proof. by intros s code. Qed.

Lemma exits_subscript v k : exits_with_one (subscript v k).
Proof.
  destruct v; try apply exits_raise. simpl.
  destruct (assoc k members); [apply exits_ret | apply exits_raise].
Qed.

Lemma exits_dict_get v k d : exits_with_one (dict_get v k d).
Proof.
  destruct v; try apply exits_raise. simpl.
  destruct (assoc k members); apply exits_ret.
Qed.

Lemma exits_slice30 v : exits_with_one (slice30 v).
Proof. destruct v; first [apply exits_raise | apply exits_ret]. Qed.

Lemma exits_py_iter v : exits_with_one (py_iter v).
Proof. destruct v; first [apply exits_raise | apply exits_ret]. Qed.

Lemma exits_requests_post w r : exits_with_one (requests_post w r).
Proof. intros s code. unfold requests_post. by destruct (http_post w r). Qed.

Lemma exits_py_open w path : exits_with_one (py_open w path).
Proof. by intros s code. Qed.

Lemma exits_py_close path : exits_with_one (py_close path).
Proof. by intros s code. Qed.

Lemma exits_f_write w path v : exits_with_one (f_write w path v).
Proof.
  intros s code. unfold f_write. destruct v; try done. by destruct (_ <? _)%nat.
Qed.

Lemma exits_os_chmod path mode : exits_with_one (os_chmod path mode).
Proof. intros s code. unfold os_chmod. by destruct (fs s !! path). Qed.

Lemma exits_os_remove ev path : exits_with_one (os_remove ev path).
Proof. intros s code. unfold os_remove. by destruct (fs s !! path). Qed.

Lemma exits_subprocess_run w argv : exits_with_one (subprocess_run w argv).
Proof.
  intros s code. unfold subprocess_run. by destruct (subprocess w (nspawn s) argv).
Qed.

Ltac exits_step :=
  first
    [ apply exits_ret | apply exits_raise | apply exits_exit | apply exits_emit
    | apply exits_subscript | apply exits_dict_get | apply exits_slice30 | apply exits_py_iter
    | apply exits_requests_post | apply exits_py_open | apply exits_py_close
    | apply exits_f_write | apply exits_os_chmod | apply exits_os_remove
    | apply exits_subprocess_run
    | apply exits_finally
    | apply exits_for_each; intros ?
    | match goal with |- exits_with_one (if ?b then _ else _) => destruct b end
    | match goal with |- exits_with_one (match ?x with _ => _ end) => destruct x end
    | apply exits_bind; [|intros ?] ].

(** A computation that returns after [m] went through [m]'s return. *)
Lemma bind_returns {A B} (m : M A) (f : A -> M B) s b :
  outcome_of ((m ≫= f) s) = Ret b ->
  exists a s1 t1, m s = (Ret a, s1, t1) /\ outcome_of (f a s1) = Ret b.
Proof.
  unfold mbind, M_bind, outcome_of.
  destruct (m s) as [[[a| |] s1] t1]; simpl; try discriminate.
  intros Hf. exists a, s1, t1. split; [done|].
  by destruct (f a s1) as [[o s2] t2].
Qed.

Section Status.
Context `{!PyLib}.

Lemma exits_glob_glob pattern : exits_with_one (glob_glob pattern).
Proof. by intros s code. Qed.

(** The only status the fetcher exits with is 1. *)
Lemma main_exits_with_one w baseurl user pass : exits_with_one (main w baseurl user pass).
Proof.
  unfold main, init, auth, get_key, fetch_data, install_all, get_ssh_keyfile_path,
    delete_old_keys, remove_one, install_loop, install_key, write_key_file, with_open,
    register_key, logging, loads, bytes_decode, lower, isoformat.
  repeat first [apply exits_glob_glob | exits_step].
Qed.

(** X18: the status the fetcher ends with is 0 or 1.  It is 0 only when
    the logon was answered with status 200 and a body that is text, the
    fetch, sent with the token taken from that body, was answered with
    status 200 and a JSON object that has a [value], and the home
    directory was found. *)
Theorem status_zero_means w baseurl user pass s :
  let r := main w baseurl user pass s in
  (exit_status (outcome_of r) = 0 \/ exit_status (outcome_of r) = 1) /\
  (exit_status (outcome_of r) = 0 ->
   exists body text fetched kv value home,
     http_post w (logon_request (mkFetcher baseurl None user pass)) =
       Responded (mkResponse 200 body) /\
     decode_utf8 body = Some text /\
     http_post w (fetch_request (mkFetcher baseurl (Some (strip quote text)) user pass)) =
       Responded (mkResponse 200 fetched) /\
     json_loads fetched = Some (JObj kv) /\
     assoc "value" kv = Some value /\
     homepath w = Some home).
Proof.
  intros r.
  pose proof (main_exits_with_one w baseurl user pass s) as Hexit. fold r in Hexit.
  assert (exit_status (outcome_of r) = 0 -> outcome_of r = Ret tt) as Hzero.
  { destruct (outcome_of r) as [[]|code|e]; simpl; try done.
    intros ->. by specialize (Hexit 0 eq_refl). }
  split.
  { destruct (outcome_of r) as [[]|code|e]; simpl; [by left| |by right].
    right. by apply Hexit. }
  intros Hret%Hzero. subst r. unfold main, init in Hret.
  apply bind_returns in Hret as (app & s1 & t1 & Hauth & Hret).
  set (self := mkFetcher baseurl None user pass) in *.
  (* the logon *)
  destruct (http_post w (logon_request self)) as [[status body]|] eqn:Hpost.
  2:{ unfold auth in Hauth.
      rewrite (bind_Raise _ _ s RequestException s [(EPost (logon_request self), fs s)])
        in Hauth by (unfold requests_post; by rewrite Hpost).
      discriminate. }
  destruct (Z.eqb_spec status 200) as [->|Hne].
  2:{ rewrite (auth_failed _ _ _ _ _ Hpost Hne) in Hauth. discriminate. }
  destruct (decode_utf8 body) as [text|] eqn:Hdec.
  2:{ unfold auth in Hauth.
      rewrite (bind_Ret _ _ s (mkResponse 200 body) s [(EPost (logon_request self), fs s)])
        in Hauth by (unfold requests_post; by rewrite Hpost).
      simpl in Hauth. unfold bytes_decode in Hauth. rewrite Hdec in Hauth.
      rewrite (bind_Raise _ _ s UnicodeDecodeError s []) in Hauth by done.
      discriminate. }
  rewrite (auth_ok _ _ _ _ _ Hpost Hdec) in Hauth. injection Hauth as <- <- _.
  subst self. cbn [BASEURL username password] in *.
  remember (mkFetcher baseurl (Some (strip quote text)) user pass) as app eqn:Happ.
  (* the fetch *)
  unfold get_key in Hret.
  apply bind_returns in Hret as (data & s2 & t2 & Hfetch & Hret).
  destruct (http_post w (fetch_request app)) as [[fstatus fetched]|] eqn:Hfpost.
  2:{ unfold fetch_data in Hfetch.
      rewrite (bind_Raise _ _ s RequestException s [(EPost (fetch_request app), fs s)])
        in Hfetch by (unfold requests_post; by rewrite Hfpost).
      discriminate. }
  destruct (Z.eqb_spec fstatus 200) as [->|Hfne].
  2:{ unfold fetch_data in Hfetch.
      rewrite (bind_Ret _ _ s (mkResponse fstatus fetched) s [(EPost (fetch_request app), fs s)])
        in Hfetch by (unfold requests_post; by rewrite Hfpost).
      simpl in Hfetch. destruct (Z.eqb_spec fstatus 200) as [|_]; [done|].
      simpl in Hfetch. discriminate. }
  destruct (json_loads fetched) as [data'|] eqn:Hload.
  2:{ rewrite (fetch_data_not_json _ _ _ _ Hfpost Hload) in Hfetch. discriminate. }
  rewrite (fetch_data_ok _ _ _ _ _ Hfpost Hload) in Hfetch. injection Hfetch as <- <- _.
  (* the home directory and the loop *)
  unfold install_all in Hret.
  apply bind_returns in Hret as (filepath & s3 & t3 & Hpath & Hret).
  destruct (homepath w) as [home|] eqn:Hhome.
  2:{ rewrite (keyfile_path_no_home _ _ _ Hhome) in Hpath. discriminate. }
  apply bind_returns in Hret as ([] & s4 & t4 & _ & Hret).
  unfold install_loop in Hret.
  apply bind_returns in Hret as (value & s5 & t5 & Hvalue & _).
  destruct data' as [| | | | | |kv]; try discriminate.
  simpl in Hvalue. destruct (assoc "value" kv) as [v|] eqn:Hv; [|discriminate].
  subst app. by exists body, text, fetched, kv, v, home.
Qed.

End Status.

(** * The main block *)

Lemma steps_app l1 l2 : steps (l1 ++ l2) = steps l1 ++ steps l2.
Proof. apply omap_app. Qed.

Lemma prompts_app l1 l2 : prompts (l1 ++ l2) = prompts l1 ++ prompts l2.
Proof. apply omap_app. Qed.

Lemma steps_Step (tr : list entry) : steps (Step <$> tr) = tr.
Proof.
  induction tr as [|e tr IH]; [done|].
  change (e :: steps (Step <$> tr) = e :: tr). by rewrite IH.
Qed.

Lemma prompts_Step (tr : list entry) : prompts (Step <$> tr) = [].
Proof. induction tr as [|e tr IH]; [done|]. exact IH. Qed.

Lemma ask_username_steps t w arg : steps (ask_username t w arg).2 = [].
Proof.
  unfold ask_username.
  destruct (py_or _ _) as [[|c u]|]; try done;
    destruct (getlogin t); try done; by destruct (input t) as [[|]| |].
Qed.

Lemma ask_password_steps t user : steps (ask_password t user).2 = [].
Proof. unfold ask_password. by destruct (getpass t) as [[|]| |]. Qed.

Lemma ask_password_line t user pass out :
  ask_password t user = (inr pass, out) ->
  getpass t = Line pass /\ pass <> "" /\
  out = [PasswordPrompt ("Enter Cyberark password for " +:+ user +:+ ": ")].
Proof.
  unfold ask_password. destruct (getpass t) as [[|c p]| |]; try discriminate.
  intros [= <- <-]. by repeat split.
Qed.

Lemma ask_username_not_finished t w arg out : ask_username t w arg <> (inl Finished, out).
Proof.
  unfold ask_username.
  destruct (py_or _ _) as [[|c u]|]; try done;
    destruct (getlogin t); try done; by destruct (input t) as [[|]| |].
Qed.

Lemma ask_password_not_finished t user out : ask_password t user <> (inl Finished, out).
Proof. unfold ask_password. by destruct (getpass t) as [[|]| |]. Qed.

Section MainBlockFacts.
Context `{!PyLib}.

(** X13: the fetcher runs only with a base URL and a password.  In every
    run of the script either no step of the fetcher is taken, the state is
    untouched and the script does not reach its end; or the command line
    was read, the base URL found (the option, else [CYBERARK_BASEURL]) is
    not empty, the password typed is not empty, and the steps, the final
    state and the end of the process are those of the fetcher run with
    them in the environment that [load_dotenv] completed. *)
Theorem fetcher_needs_url_and_password t w s :
  let w' := load_dotenv t w in
  let '(e, s', out) := script t w s in
  (steps out = [] /\ s' = s /\ e <> Finished) \/
  (exists server username baseurl user pass,
     parse_args t = Namespace server username /\
     py_or server (getenv w' "CYBERARK_BASEURL") = Some baseurl /\ baseurl <> "" /\
     getpass t = Line pass /\ pass <> "" /\
     steps out = trace_of (main w' baseurl user pass s) /\
     s' = state_of (main w' baseurl user pass s) /\
     e = ending_of (outcome_of (main w' baseurl user pass s))).
Proof.
  intros w'. unfold script, try_body. fold w'.
  set (levels := SetLevel 20 :: _).
  assert (steps levels = []) as Hl by (subst levels; by destruct (truthy _)).
  destruct (parse_args t) as [server username|code] eqn:Hargs; [|left; by rewrite app_nil_r].
  destruct (py_or server (getenv w' "CYBERARK_BASEURL")) as [[|c u]|] eqn:Hurl;
    try (left; rewrite steps_app, Hl; by repeat split).
  pose proof (ask_username_steps t w' username) as Hu.
  pose proof (ask_username_not_finished t w' username) as Hun.
  destruct (ask_username t w' username) as [[e|user] out2].
  { simpl in Hu. specialize (Hun out2).
    destruct e as [|code|[]]; left; rewrite ?steps_app, Hl, ?Hu; repeat split; try done. }
  pose proof (ask_password_steps t user) as Hp.
  pose proof (ask_password_not_finished t user) as Hpn.
  pose proof (ask_password_line t user) as Hpl.
  destruct (ask_password t user) as [[e|pass] out3].
  { simpl in Hu, Hp. specialize (Hpn out3).
    destruct e as [|code|[]]; left; rewrite ?steps_app, Hl, ?Hu, ?Hp; repeat split; try done. }
  destruct (Hpl pass out3 eq_refl) as (Hg & Hne & _).
  simpl in Hu, Hp.
  assert (steps (levels ++ [Printed ("Authenticating to " +:+ String c u)] ++ out2 ++ out3 ++
                 (Step <$> trace_of (main w' (String c u) user pass s))) =
          trace_of (main w' (String c u) user pass s)) as Hs.
  { rewrite !steps_app, Hl, Hu, Hp, steps_Step. done. }
  set (r := main w' (String c u) user pass s) in *.
  destruct (outcome_of r) as [[]|code|e] eqn:Ho;
    cbv beta iota; right; exists server, username, (String c u), user, pass;
    fold r; rewrite Ho; by repeat split.
Qed.

Lemma main_first_step w baseurl user pass s :
  exists tr, trace_of (main w baseurl user pass s) =
             (EPost (logon_request (mkFetcher baseurl None user pass)), fs s) :: tr.
Proof.
  unfold main, init. set (self := mkFetcher baseurl None user pass).
  assert (exists tr, trace_of (auth w self s) = (EPost (logon_request self), fs s) :: tr) as [tr Ha].
  { unfold auth. destruct (http_post w (logon_request self)) as [resp|] eqn:Hp.
    - rewrite (bind_Ret _ _ s resp s [(EPost (logon_request self), fs s)])
        by (unfold requests_post; by rewrite Hp).
      rewrite trace_prepend. by eexists.
    - rewrite (bind_Raise _ _ s RequestException s [(EPost (logon_request self), fs s)])
        by (unfold requests_post; by rewrite Hp).
      by eexists. }
  unfold mbind, M_bind. destruct (auth w self s) as [[[app| |] s1] t1];
    unfold trace_of in Ha; simpl in Ha; subst t1; try by eexists.
  destruct (get_key w app s1) as [[o s2] t2]. by eexists.
Qed.

Lemma py_or_falsy a b : truthy a = false -> py_or a b = b.
Proof. by destruct a as [[|]|]. Qed.

Lemma py_or_truthy u b : u <> "" -> py_or (Some u) b = Some u.
Proof. by destruct u. Qed.

(** The run once the name and the password are known. *)
Lemma script_with_user t w s server username baseurl user out2 pass :
  parse_args t = Namespace server username ->
  py_or server (getenv (load_dotenv t w) "CYBERARK_BASEURL") = Some baseurl ->
  baseurl <> "" ->
  ask_username t (load_dotenv t w) username = (inr user, out2) ->
  getpass t = Line pass ->
  pass <> "" ->
  let r := main (load_dotenv t w) baseurl user pass s in
  script t w s =
    (ending_of (outcome_of r), state_of r,
     (SetLevel 20 :: (if truthy (getenv w "DEBUG") then [SetLevel 10] else [])) ++
     [Printed ("Authenticating to " +:+ baseurl)] ++ out2 ++
     [PasswordPrompt ("Enter Cyberark password for " +:+ user +:+ ": ")] ++
     (Step <$> trace_of r)).
Proof.
  intros Hargs Hurl Hne Hu Hg Hp r. unfold script, try_body.
  rewrite Hargs, Hurl. destruct baseurl as [|c u]; [done|]. rewrite Hu.
  unfold ask_password. rewrite Hg. destruct pass as [|c' p]; [done|].
  fold r. by destruct (outcome_of r) as [[]|code|e].
Qed.

(** X14: where the user name that is sent comes from.  With a base URL
    and a password given: the option [--username], when it is not empty,
    is the name, and only the password is asked for; else the variable
    [CYBERARK_USERNAME], when it is not empty, is the name, again with no
    question for it; else the login name is looked up, which ends the
    script in [OSError] when there is none, and the name typed at the
    prompt is the name, the login name standing in for an empty line.  In
    each case the first step of the run is the logon request with that
    name. *)
Theorem username_sources t w s server username baseurl pass :
  parse_args t = Namespace server username ->
  py_or server (getenv (load_dotenv t w) "CYBERARK_BASEURL") = Some baseurl ->
  baseurl <> "" ->
  getpass t = Line pass ->
  pass <> "" ->
  let w' := load_dotenv t w in
  let out := (script t w s).2 in
  let sent user :=
    steps out = trace_of (main w' baseurl user pass s) /\
    head (steps out) =
      Some (EPost (logon_request (mkFetcher baseurl None user pass)), fs s) in
  let password_prompt user := "Enter Cyberark password for " +:+ user +:+ ": " in
  (forall u, username = Some u -> u <> "" -> sent u /\ prompts out = [password_prompt u]) /\
  (truthy username = false ->
   (forall u, getenv w' "CYBERARK_USERNAME" = Some u -> u <> "" ->
      sent u /\ prompts out = [password_prompt u]) /\
   (truthy (getenv w' "CYBERARK_USERNAME") = false ->
    (getlogin t = None ->
       (script t w s).1.1 = Traceback OSError /\ steps out = [] /\ prompts out = []) /\
    (forall login,
       getlogin t = Some login ->
       let name_prompt := "Enter your Cyberark username [" +:+ login +:+ "]: " in
       (forall u, input t = Line u -> u <> "" ->
          sent u /\ prompts out = [name_prompt; password_prompt u]) /\
       (input t = Line "" ->
          sent login /\ prompts out = [name_prompt; password_prompt login])))).
Proof.
  intros Hargs Hurl Hne Hg Hp w' out sent password_prompt. subst w'.
  set (w' := load_dotenv t w) in *.
  assert (forall user out2,
            ask_username t w' username = (inr user, out2) ->
            sent user /\ prompts out = prompts out2 ++ [password_prompt user]) as Hrun.
  { intros user out2 Hu. subst sent out password_prompt. cbv beta.
    rewrite (script_with_user t w s _ _ _ _ _ _ Hargs Hurl Hne Hu Hg Hp). cbn [snd].
    fold w'. destruct (main_first_step w' baseurl user pass s) as [tr Htr].
    pose proof (ask_username_steps t w' username) as Hs. rewrite Hu in Hs. simpl in Hs.
    set (levels := SetLevel 20 :: _).
    assert (steps levels = [] /\ prompts levels = []) as [Hl1 Hl2]
      by (subst levels; by destruct (truthy _)).
    rewrite !steps_app, !prompts_app, Hl1, Hl2, Hs, steps_Step, prompts_Step.
    simpl. rewrite Htr, ?app_nil_r. by repeat split. }
  split.
  - intros u -> Hu. destruct (Hrun u []) as [Hs Hpr]; [|by split].
    unfold ask_username. rewrite py_or_truthy by done. by destruct u.
  - intros Hopt. split.
    + intros u He Hu. destruct (Hrun u []) as [Hs Hpr]; [|by split].
      unfold ask_username. rewrite py_or_falsy, He by done. by destruct u.
    + intros Henv.
      assert (forall (k : option string -> (ending + string) * list output) (b : (ending + string) * list output),
                match py_or username (getenv w' "CYBERARK_USERNAME") with
                | Some (String c u) => k (Some (String c u))
                | _ => b
                end = b) as Hfall.
      { intros k b. rewrite py_or_falsy by done.
        by destruct (getenv w' "CYBERARK_USERNAME") as [[|]|]. }
      split.
      * intros Hlogin. subst out. unfold script, try_body. fold w'.
        rewrite Hargs, Hurl. destruct baseurl as [|c u]; [done|].
        unfold ask_username.
        rewrite (Hfall (fun v => match v with Some x => (inr x, []) | None => (inr "", []) end)).
        rewrite Hlogin. cbn [fst snd].
        by destruct (truthy (getenv w "DEBUG")).
      * intros login Hlogin name_prompt. split.
        -- intros u Hin Hu. apply (Hrun u [Prompt name_prompt]).
           unfold ask_username.
           rewrite (Hfall (fun v => match v with Some x => (inr x, []) | None => (inr "", []) end)).
           rewrite Hlogin, Hin. by destruct u.
        -- intros Hin. apply (Hrun login [Prompt name_prompt]).
           unfold ask_username.
           rewrite (Hfall (fun v => match v with Some x => (inr x, []) | None => (inr "", []) end)).
           by rewrite Hlogin, Hin.
Qed.

End MainBlockFacts.

(** * The level of the log *)

Ltac emits_step :=
  first
    [ apply emits_ret | apply emits_raise | apply emits_exit
    | apply emits_subscript | apply emits_dict_get | apply emits_slice30 | apply emits_py_iter
    | apply emits_lower | apply emits_isoformat | apply emits_loads | apply emits_bytes_decode
    | apply emits_requests_post; reflexivity
    | apply emits_py_open; reflexivity | apply emits_py_close; reflexivity
    | apply emits_f_write; intros ?; reflexivity
    | apply emits_os_chmod; reflexivity | apply emits_os_remove; reflexivity
    | apply emits_subprocess_run; reflexivity
    | apply emits_glob_glob; intros ?; reflexivity
    | apply emits_emit; reflexivity
    | apply emits_finally
    | apply emits_for_each; intros ?
    | match goal with |- emits _ (if ?b then _ else _) => destruct b end
    | match goal with |- emits _ (match ?x with _ => _ end) => destruct x end
    | apply emits_bind; [|intros ?] ].

Lemma displayed_plain threshold (out : list output) :
  Forall (fun o => is_set_level o = false) out ->
  displayed threshold out = omap (select threshold) (steps out).*1.
Proof.
  induction 1 as [|o out Ho _ IH]; [done|].
  destruct o as [n|text|text|text|[e m]]; try done; simpl.
  destruct e; simpl; try exact IH.
  destruct (_ <=? _)%nat; [by rewrite IH|exact IH].
Qed.

Lemma select_info (evs : list event) : omap (select 20) evs = logged_above_debug evs.
Proof.
  induction evs as [|e evs IH]; [done|].
  destruct e as [| [] m | | | | | | | |]; first [exact IH | exact (f_equal (cons m) IH)].
Qed.

Lemma select_debug (evs : list event) : omap (select 10) evs = logged evs.
Proof.
  induction evs as [|e evs IH]; [done|].
  destruct e as [| [] m | | | | | | | |]; first [exact IH | exact (f_equal (cons m) IH)].
Qed.

Lemma above_debug_no_debug_line (evs : list event) :
  Forall (fun e => at_its_level e = true) evs ->
  Forall (fun m => debug_line m = false) (logged_above_debug evs).
Proof.
  induction 1 as [|e evs He _ IH]; [constructor|].
  destruct e as [| [] m | | | | | | | |]; try exact IH;
    (apply List.Forall_cons; [by destruct m|exact IH]).
Qed.

Lemma ask_username_no_level t w arg :
  Forall (fun o => is_set_level o = false) (ask_username t w arg).2.
Proof.
  unfold ask_username.
  destruct (py_or _ _) as [[|c u]|]; try (by constructor);
    destruct (getlogin t); try (by constructor);
    destruct (input t) as [[|]| |]; by repeat constructor.
Qed.

Lemma ask_password_no_level t user :
  Forall (fun o => is_set_level o = false) (ask_password t user).2.
Proof. unfold ask_password. destruct (getpass t) as [[|]| |]; by repeat constructor. Qed.

Lemma Step_no_level (tr : list entry) :
  Forall (fun o => is_set_level o = false) (Step <$> tr).
Proof. induction tr; by constructor. Qed.

Section Levels.
Context `{!PyLib}.

Lemma main_at_its_level w baseurl user pass : emits at_its_level (main w baseurl user pass).
Proof.
  unfold main, init, auth, get_key, fetch_data, install_all, get_ssh_keyfile_path,
    delete_old_keys, remove_one, install_loop, install_key, write_key_file, with_open,
    register_key, logging.
  repeat emits_step.
Qed.

(** The outputs of a run: the levels, then outputs that set no level and
    whose steps are those of the fetcher, if it ran. *)
Lemma script_output t w s :
  exists out',
    (script t w s).2 =
      (SetLevel 20 :: (if truthy (getenv w "DEBUG") then [SetLevel 10] else [])) ++ out' /\
    Forall (fun o => is_set_level o = false) out' /\
    (steps out' = [] \/
     exists baseurl user pass,
       steps out' = trace_of (main (load_dotenv t w) baseurl user pass s)).
Proof.
  unfold script, try_body. set (w' := load_dotenv t w).
  set (levels := SetLevel 20 :: _).
  destruct (parse_args t) as [server username|code].
  2:{ exists []. split; [reflexivity|]. split; [constructor|by left]. }
  destruct (py_or server (getenv w' "CYBERARK_BASEURL")) as [[|c u]|];
    try (eexists; split; [reflexivity|]; split; [by repeat constructor|by left]).
  pose proof (ask_username_steps t w' username) as Hu.
  pose proof (ask_username_no_level t w' username) as Hul.
  destruct (ask_username t w' username) as [[e|user] out2]; simpl in Hu, Hul.
  { destruct e as [|code|[]]; cbv beta iota; cbn [snd];
      rewrite <- ?app_assoc;
      (eexists; split; [reflexivity|]; split;
       [repeat first [apply Forall_app; split | by repeat constructor | done]
       |left; rewrite ?steps_app, Hu; done]). }
  pose proof (ask_password_steps t user) as Hp.
  pose proof (ask_password_no_level t user) as Hpl.
  destruct (ask_password t user) as [[e|pass] out3]; simpl in Hp, Hpl.
  { destruct e as [|code|[]]; cbv beta iota; cbn [snd];
      rewrite <- ?app_assoc;
      (eexists; split; [reflexivity|]; split;
       [repeat first [apply Forall_app; split | by repeat constructor | done]
       |left; rewrite ?steps_app, Hu, Hp; done]). }
  set (r := main w' (String c u) user pass s).
  destruct (outcome_of r) as [[]|code|e]; cbv beta iota; cbn [snd];
    (eexists; split; [reflexivity|]; split;
     [repeat first [apply Forall_app; split | apply Step_no_level | by repeat constructor | done]
     |right; exists (String c u), user, pass; fold r;
      rewrite !steps_app, Hu, Hp, steps_Step; done]).
Qed.

(** X15: the level of the log is decided by the variable [DEBUG] of the
    environment the process starts in; a [DEBUG] in the [.env] file comes
    too late.  Without it the log shows the messages the fetcher logs at
    the levels [INFO] and [ERROR], in order, and none of the three
    messages logged with [logging.debug] (the head of the token, the name
    of a file about to be deleted, the dump of the fetched data); with it
    the log shows every message the fetcher logs, those of level [DEBUG]
    included. *)
Theorem debug_log_needs_process_environment t w s :
  let out := (script t w s).2 in
  let evs := (steps out).*1 in
  (truthy (getenv w "DEBUG") = false ->
   shown out = logged_above_debug evs /\
   Forall (fun m => debug_line m = false) (shown out)) /\
  (truthy (getenv w "DEBUG") = true -> shown out = logged evs).
Proof.
  intros out evs. subst evs out.
  destruct (script_output t w s) as (out' & -> & Hnl & Hsteps).
  assert (Forall (fun e => at_its_level e = true) (steps out').*1) as Hlv.
  { destruct Hsteps as [->|(baseurl & user & pass & ->)]; [constructor|].
    apply (events_emitted at_its_level), main_at_its_level. }
  split; intros Hd; rewrite Hd; unfold shown; simpl; rewrite (displayed_plain _ _ Hnl).
  - rewrite select_info. split; [done|]. by apply above_debug_no_debug_line.
  - by rewrite select_debug.
Qed.

End Levels.

(** * Ctrl-C and the end of the input *)

Ltac elem_inv :=
  repeat match goal with
  | H : _ ∈ _ ++ _ |- _ => apply elem_of_app in H as [H|H]
  | H : _ ∈ _ :: _ |- _ => apply elem_of_cons in H as [H|H]
  | H : _ ∈ [] |- _ => by apply elem_of_nil in H
  | H : _ ∈ _ <$> _ |- _ => apply list_elem_of_fmap in H as (? & H & _)
  | H : _ ∈ (if ?b then _ else _) |- _ => destruct b
  | H : Prompt _ = _ |- _ => discriminate H
  | H : PasswordPrompt _ = _ |- _ => discriminate H
  end.

(** What the question for the name comes back with. *)
Lemma ask_username_cases t w arg :
  let '(r, out2) := ask_username t w arg in
  steps out2 = [] /\
  (forall p, PasswordPrompt p ∉ out2) /\
  match r with
  | inr user => forall p, Prompt p ∈ out2 -> exists text, input t = Line text
  | inl e =>
      (e = Traceback OSError /\ out2 = []) \/
      (e = Traceback KeyboardInterrupt /\ input t = Interrupt /\ exists p, out2 = [Prompt p]) \/
      (e = Traceback EOFError /\ input t = EndOfFile /\ exists p, out2 = [Prompt p])
  end.
Proof.
  unfold ask_username.
  destruct (py_or arg (getenv w "CYBERARK_USERNAME")) as [[|c u]|];
    try (split; [done|]; split; [intros p Hp; elem_inv|intros p Hp; elem_inv]);
    (destruct (getlogin t) as [login|];
     [|split; [done|]; split; [intros p Hp; elem_inv|by left]]);
    destruct (input t) as [[|ci ui]| |] eqn:Hin;
    (split; [done|]; split; [intros p Hp; elem_inv|]);
    first [ intros p Hp; by eexists
          | right; left; split; [done|]; split; [done|]; by eexists
          | right; right; split; [done|]; split; [done|]; by eexists ].
Qed.

Section Interrupts.
Context `{!PyLib}.

(** X16: Ctrl-C at a prompt.  When the prompt for the name or for the
    password was shown and answered with Ctrl-C, the process exits with
    status 1, its last output is the line [Interrupted.], no step of the
    fetcher was taken and the state is untouched.  The end of the input
    at either prompt is not caught: the script ends in [EOFError], again
    without a step of the fetcher. *)
Theorem interrupt_at_a_prompt t w s :
  let '(e, s', out) := script t w s in
  let interrupted :=
    e = SystemExit 1 /\ s' = s /\ steps out = [] /\
    last out = Some (Printed (String newline "Interrupted.")) in
  let end_of_input := e = Traceback EOFError /\ s' = s /\ steps out = [] in
  (forall p, Prompt p ∈ out -> input t = Interrupt -> interrupted) /\
  (forall p, PasswordPrompt p ∈ out -> getpass t = Interrupt -> interrupted) /\
  (forall p, Prompt p ∈ out -> input t = EndOfFile -> end_of_input) /\
  (forall p, PasswordPrompt p ∈ out -> getpass t = EndOfFile -> end_of_input).
Proof.
  unfold script, try_body. set (w' := load_dotenv t w).
  set (levels := SetLevel 20 :: _).
  assert (steps levels = []) as Hl by (subst levels; by destruct (truthy _)).
  assert (forall p, Prompt p ∉ levels) as Hl1
    by (intros p Hp; subst levels; elem_inv).
  assert (forall p, PasswordPrompt p ∉ levels) as Hl2
    by (intros p Hp; subst levels; elem_inv).
  destruct (parse_args t) as [server username|code].
  2:{ cbv beta iota zeta. rewrite app_nil_r.
      split; [|split; [|split]]; intros p Hp; by first [apply Hl1 in Hp | apply Hl2 in Hp]. }
  destruct (py_or server (getenv w' "CYBERARK_BASEURL")) as [[|c u]|];
    try (cbv beta iota zeta;
         split; [|split; [|split]]; intros p Hp; apply elem_of_app in Hp as [Hp|Hp];
         first [by apply Hl1 in Hp | by apply Hl2 in Hp | elem_inv]).
  assert (forall user out2,
            steps out2 = [] ->
            (forall p, PasswordPrompt p ∉ out2) ->
            (forall p, Prompt p ∈ out2 -> exists text, input t = Line text) ->
            let '(e, s', out) :=
              match
                (let (s1, out3) := ask_password t user in
                 match s1 with
                 | inl e =>
                     (e, s, [Printed ("Authenticating to " +:+ String c u)] ++ out2 ++ out3)
                 | inr pass =>
                     (ending_of (outcome_of (main w' (String c u) user pass s)),
                      state_of (main w' (String c u) user pass s),
                      [Printed ("Authenticating to " +:+ String c u)] ++ out2 ++ out3 ++
                      (Step <$> trace_of (main w' (String c u) user pass s)))
                 end)
              with
              | (Traceback KeyboardInterrupt, s', out) =>
                  (SystemExit 1, s', levels ++ out ++ [Printed (String newline "Interrupted.")])
              | (e, s', out) => (e, s', levels ++ out)
              end in
            (forall p, Prompt p ∈ out -> input t = Interrupt ->
               e = SystemExit 1 /\ s' = s /\ steps out = [] /\
               last out = Some (Printed (String newline "Interrupted."))) /\
            (forall p, PasswordPrompt p ∈ out -> getpass t = Interrupt ->
               e = SystemExit 1 /\ s' = s /\ steps out = [] /\
               last out = Some (Printed (String newline "Interrupted."))) /\
            (forall p, Prompt p ∈ out -> input t = EndOfFile ->
               e = Traceback EOFError /\ s' = s /\ steps out = []) /\
            (forall p, PasswordPrompt p ∈ out -> getpass t = EndOfFile ->
               e = Traceback EOFError /\ s' = s /\ steps out = [])) as Hpass.
  { intros user out2 Hs2 Hnp Hline.
    assert (forall p (l : list output),
              Prompt p ∈ levels ++ [Printed ("Authenticating to " +:+ String c u)] ++ out2 ++ l ->
              (forall q, Prompt q ∉ l) ->
              exists text, input t = Line text) as Hprompt.
    { intros p l Hp Hnl. elem_inv; try by apply Hl1 in Hp.
      - by apply Hline in Hp.
      - by apply Hnl in Hp. }
    unfold ask_password.
    destruct (getpass t) as [[|cp up]| |] eqn:Hg.
    - cbv beta iota zeta.
      split; [|split; [|split]]; intros p Hp Hi; try congruence.
      + destruct (Hprompt p _ Hp) as [text Ht]; [intros q Hq; elem_inv|congruence].
      + destruct (Hprompt p _ Hp) as [text Ht]; [intros q Hq; elem_inv|congruence].
    - set (r := main w' (String c u) user (String cp up) s).
      assert (forall q, Prompt q ∉ [PasswordPrompt ("Enter Cyberark password for " +:+ user +:+ ": ")]
                                   ++ (Step <$> trace_of r)) as Hnl
        by (intros q Hq; elem_inv).
      destruct (outcome_of r) as [[]|code|e]; cbv beta iota zeta;
        (split; [|split; [|split]]); intros p Hp Hi; try congruence;
        destruct (Hprompt p _ Hp) as [text Ht]; try exact Hnl; congruence.
    - cbv beta iota zeta.
      split; [|split; [|split]]; intros p Hp Hi; try congruence.
      + rewrite app_assoc in Hp. apply elem_of_app in Hp as [Hp|Hp]; [|elem_inv].
        destruct (Hprompt p _ Hp) as [text Ht]; [intros q Hq; elem_inv|congruence].
      + split; [done|]. split; [done|]. split.
        * rewrite !steps_app, Hl, Hs2. done.
        * rewrite !app_assoc. apply last_snoc.
      + rewrite app_assoc in Hp. apply elem_of_app in Hp as [Hp|Hp]; [|elem_inv].
        destruct (Hprompt p _ Hp) as [text Ht]; [intros q Hq; elem_inv|congruence].
    - cbv beta iota zeta.
      split; [|split; [|split]]; intros p Hp Hi; try congruence.
      + destruct (Hprompt p _ Hp) as [text Ht]; [intros q Hq; elem_inv|congruence].
      + destruct (Hprompt p _ Hp) as [text Ht]; [intros q Hq; elem_inv|congruence].
      + split; [done|]. split; [done|]. rewrite !steps_app, Hl, Hs2. done. }
  pose proof (ask_username_cases t w' username) as Hc.
  destruct (ask_username t w' username) as [[e|user] out2].
  - destruct Hc as (Hs2 & Hnp & [[-> ->]|[(-> & Hin & q & ->)|(-> & Hin & q & ->)]]).
    + cbv beta iota zeta. rewrite app_nil_r.
      split; [|split; [|split]]; intros p Hp Hi; exfalso; elem_inv;
        first [by apply Hl1 in Hp | by apply Hl2 in Hp].
    + cbv beta iota zeta.
      split; [|split; [|split]]; intros p Hp Hi; try congruence.
      * split; [done|]. split; [done|]. split.
        -- by rewrite !steps_app, Hl.
        -- rewrite !app_assoc. apply last_snoc.
      * exfalso. elem_inv. by apply Hl2 in Hp.
      * exfalso. elem_inv. by apply Hl2 in Hp.
    + cbv beta iota zeta.
      split; [|split; [|split]]; intros p Hp Hi; try congruence.
      * exfalso. elem_inv. by apply Hl2 in Hp.
      * split; [done|]. split; [done|]. by rewrite !steps_app, Hl.
      * exfalso. elem_inv. by apply Hl2 in Hp.
  - destruct Hc as (Hs2 & Hnp & Hline). by apply Hpass.
Qed.

End Interrupts.

(** * More concrete runs *)

Section MoreRuns.
#[local] Existing Instance Sample.lib.
Import Sample.

Lemma sample_agent_refuses home logon fetch :
  agent_refuses (world_of home logon fetch (commands 2)).
Proof. intros n path c. simpl. intros [= <-]. done. Qed.

Lemma sample_agent_accepts home logon fetch :
  agent_accepts (world_of home logon fetch (commands 0)).
Proof. intros n path c. simpl. intros [= <-]. done. Qed.

Lemma failed_fetch_touches_nothing_witness :
  http_post w_fetch_denied (fetch_request session) =
    Responded (mkResponse 503 "Service Unavailable") /\
  503 <> 200 /\
  exit_status (outcome_of (get_key w_fetch_denied session start)) = 1 /\
  purge_count (events_of (get_key w_fetch_denied session start)) = 0%nat.
Proof.
  assert (http_post w_fetch_denied (fetch_request session) =
          Responded (mkResponse 503 "Service Unavailable")) as H1 by (vm_compute; reflexivity).
  assert (503 <> 200) as H2 by discriminate.
  split; [exact H1|]. split; [exact H2|].
  destruct (failed_fetch_touches_nothing w_fetch_denied session start _ _ H1 H2)
    as (_ & Hexit & Hpurge & _).
  split; [exact Hexit|exact Hpurge].
Defined.

Lemma password_only_in_logon_request_witness :
  http_post w_one (logon_request (mkFetcher base None "alice" "pw")) =
  http_post w_one (logon_request (mkFetcher base None "alice" "another")) /\
  state_of (main w_one base "alice" "pw" start) =
  state_of (main w_one base "alice" "another" start) /\
  tail (trace_of (main w_one base "alice" "pw" start)) =
  tail (trace_of (main w_one base "alice" "another" start)).
Proof.
  assert (http_post w_one (logon_request (mkFetcher base None "alice" "pw")) =
          http_post w_one (logon_request (mkFetcher base None "alice" "another"))) as H1
    by reflexivity.
  split; [exact H1|].
  destruct (password_only_in_logon_request w_one base "alice" "pw" "another" start H1)
    as (_ & Hstate & Htail & _).
  split; [exact Hstate|exact Htail].
Defined.

Lemma token_head_logged_witness :
  http_post w_one (logon_request (mkFetcher base None "alice" "pw")) =
    Responded (mkResponse 200 token_body) /\
  decode_utf8 token_body = Some token_body /\
  exists head rest,
    events_of (auth w_one (mkFetcher base None "alice" "pw") start) =
      [EPost (logon_request (mkFetcher base None "alice" "pw")); ELog DEBUG (MAuthOk head)] /\
    strip quote token_body = head +:+ rest /\
    String.length head = Nat.min 10 (String.length (strip quote token_body)).
Proof.
  assert (http_post w_one (logon_request (mkFetcher base None "alice" "pw")) =
          Responded (mkResponse 200 token_body)) as H1 by reflexivity.
  assert (decode_utf8 token_body = Some token_body) as H2 by reflexivity.
  split; [exact H1|]. split; [exact H2|].
  exact (token_head_logged w_one (mkFetcher base None "alice" "pw") start _ _ H1 H2).
Defined.

Lemma other_files_untouched_witness :
  (forall home, homepath w_two = Some home ->
     let prefix := os_path_join home [".ssh"; "id_cyberark_session"] in
     glob_match (prefix +:+ "_*") "/home/alice/.ssh/id_rsa" = false /\
     String.prefix (prefix +:+ "_") "/home/alice/.ssh/id_rsa" = false) /\
  fs (state_of (main w_two base "alice" "pw" start)) !! "/home/alice/.ssh/id_rsa" =
    fs start !! "/home/alice/.ssh/id_rsa".
Proof.
  assert (forall home, homepath w_two = Some home ->
            let prefix := os_path_join home [".ssh"; "id_cyberark_session"] in
            glob_match (prefix +:+ "_*") "/home/alice/.ssh/id_rsa" = false /\
            String.prefix (prefix +:+ "_") "/home/alice/.ssh/id_rsa" = false) as H1.
  { intros home [= <-]. split; vm_compute; reflexivity. }
  split; [exact H1|].
  exact (proj1 (other_files_untouched w_two base "alice" "pw" start _ H1)).
Defined.

Lemma keys_left_when_agent_refuses_witness :
  http_post w_two_no_agent (fetch_request session) = Responded (mkResponse 200 body_two) /\
  json_loads body_two = Some (bundle [rsa_key; ed_key]) /\
  homepath w_two_no_agent = Some "/home/alice" /\
  outcome_of (get_key w_two_no_agent session start) = Ret tt /\
  agent (state_of (get_key w_two_no_agent session start)) = [] /\
  warned_left rsa_path (events_of (get_key w_two_no_agent session start)) = true.
Proof.
  assert (http_post w_two_no_agent (fetch_request session) =
          Responded (mkResponse 200 body_two)) as H1 by (vm_compute; reflexivity).
  assert (json_loads body_two = Some (bundle [rsa_key; ed_key])) as H2
    by (vm_compute; reflexivity).
  assert (homepath w_two_no_agent = Some "/home/alice") as H3 by reflexivity.
  assert (outcome_of (get_key w_two_no_agent session start) = Ret tt) as H4
    by (vm_compute; reflexivity).
  split; [exact H1|]. split; [exact H2|]. split; [exact H3|]. split; [exact H4|].
  destruct (keys_left_when_agent_refuses w_two_no_agent session start body_two _
              [rsa_key; ed_key] _ _ _ H1 H2 eq_refl H3 (sample_head _))
    as (Hagent & _ & Hwarn & _).
  - repeat constructor; by eexists.
  - apply sample_agent_refuses.
  - exact H4.
  - split; [exact Hagent|].
    exact (Forall_inv Hwarn).
Defined.

Lemma keys_in_agent_when_accepted_witness :
  http_post w_two (fetch_request session) = Responded (mkResponse 200 body_two) /\
  json_loads body_two = Some (bundle [rsa_key; ed_key]) /\
  homepath w_two = Some "/home/alice" /\
  outcome_of (get_key w_two session start) = Ret tt /\
  agent (state_of (get_key w_two session start)) =
    ["KEY-MATERIAL-ED25519"; "KEY-MATERIAL-RSA"] /\
  fs (state_of (get_key w_two session start)) ⊆ disk.
Proof.
  assert (http_post w_two (fetch_request session) = Responded (mkResponse 200 body_two))
    as H1 by (vm_compute; reflexivity).
  assert (json_loads body_two = Some (bundle [rsa_key; ed_key])) as H2
    by (vm_compute; reflexivity).
  assert (homepath w_two = Some "/home/alice") as H3 by reflexivity.
  assert (outcome_of (get_key w_two session start) = Ret tt) as H4
    by (vm_compute; reflexivity).
  split; [exact H1|]. split; [exact H2|]. split; [exact H3|]. split; [exact H4|].
  destruct (keys_in_agent_when_accepted w_two session start body_two _
              [rsa_key; ed_key] _ _ _ H1 H2 eq_refl H3 (sample_head _))
    as (Hagent & _ & Hsub).
  - repeat constructor; by eexists.
  - apply sample_agent_accepts.
  - exact H4.
  - split; [exact Hagent|exact Hsub].
Defined.

Lemma public_key_not_text_witness :
  assoc "expirationTime" null_public_key = Some (JInt 1700000000) /\
  assoc "publicKey" null_public_key = Some JNull /\
  key_record rsa_key = Some ("OpenSSH", "RSA", "KEY-MATERIAL-RSA") /\
  outcome_of (install_key w_one prefix (JObj null_public_key) rsa_key start) =
    Raise TypeError /\
  commands_run (events_of (install_key w_one prefix (JObj null_public_key) rsa_key start)) = [].
Proof.
  assert (key_record rsa_key = Some ("OpenSSH", "RSA", "KEY-MATERIAL-RSA")) as H3
    by reflexivity.
  assert (fromtimestamp_isoformat (JInt 1700000000) = Some "2023-11-14T22:13:20") as H4
    by reflexivity.
  split; [reflexivity|]. split; [reflexivity|]. split; [exact H3|].
  destruct (public_key_not_text w_one prefix null_public_key (JInt 1700000000)
              "2023-11-14T22:13:20" JNull rsa_key _ _ _ start
              eq_refl eq_refl H4 eq_refl eq_refl H3) as (Hr & _ & Hc).
  split; [|exact Hc]. by rewrite Hr.
Defined.

Lemma exposure_follows_mode_at_open_witness :
  bundle_head (bundle [rsa_key]) = Some ("2023-11-14T22:13:20", JStr "ssh-rsa AAAAB3Nza") /\
  key_record rsa_key = Some ("OpenSSH", "RSA", "KEY-MATERIAL-RSA") /\
  exposed rsa_path (trace_of (install_key w_one prefix (bundle [rsa_key]) rsa_key start)) =
    [EOpen rsa_path; EWrite rsa_path "KEY-MATERIAL-RSA"].
Proof.
  assert (key_record rsa_key = Some ("OpenSSH", "RSA", "KEY-MATERIAL-RSA")) as H2
    by reflexivity.
  split; [apply sample_head|]. split; [exact H2|].
  exact (proj1 (exposure_follows_mode_at_open w_one prefix (bundle [rsa_key]) rsa_key
                  _ _ _ _ _ start (sample_head _) H2)).
Defined.

Lemma username_sources_witness :
  parse_args at_the_prompts = Namespace None None /\
  py_or None (getenv (load_dotenv at_the_prompts w_one) "CYBERARK_BASEURL") = Some base /\
  base <> "" /\
  getpass at_the_prompts = Line "pw" /\
  "pw" <> "" /\
  prompts (script at_the_prompts w_one start).2 =
    ["Enter your Cyberark username [alice]: "; "Enter Cyberark password for alice: "] /\
  head (steps (script at_the_prompts w_one start).2) =
    Some (EPost (logon_request (mkFetcher base None "alice" "pw")), fs start).
Proof.
  assert (parse_args at_the_prompts = Namespace None None) as H1 by reflexivity.
  assert (py_or None (getenv (load_dotenv at_the_prompts w_one) "CYBERARK_BASEURL") =
          Some base) as H2 by (vm_compute; reflexivity).
  assert (base <> "") as H3 by discriminate.
  assert (getpass at_the_prompts = Line "pw") as H4 by reflexivity.
  assert ("pw" <> "") as H5 by discriminate.
  assert (truthy (getenv (load_dotenv at_the_prompts w_one) "CYBERARK_USERNAME") = false)
    as H6 by (vm_compute; reflexivity).
  split; [exact H1|]. split; [exact H2|]. split; [exact H3|]. split; [exact H4|].
  split; [exact H5|].
  destruct (username_sources at_the_prompts w_one start None None base "pw" H1 H2 H3 H4 H5)
    as [_ Hrest].
  destruct (Hrest eq_refl) as [_ Hlogin].
  destruct (Hlogin H6) as [_ Hl].
  destruct (Hl "alice" eq_refl) as [_ Hempty].
  destruct (Hempty eq_refl) as [[_ Hhead] Hprompts].
  split; [exact Hprompts|exact Hhead].
Defined.

Lemma purge_edges_and_repeat_witness :
  prefix <> "" /\
  outcome_of (delete_old_keys prefix start) = Ret tt /\
  stale (prefix +:+ "_*") (fs (state_of (delete_old_keys prefix start))) = [].
Proof.
  assert (prefix <> "") as H1 by discriminate.
  split; [exact H1|].
  destruct (proj2 (purge_edges_and_repeat prefix start) H1) as (Hret & Hstale & _).
  split; [exact Hret|exact Hstale].
Defined.

Lemma keyfile_path_edges_witness :
  getenv w_empty_profile "HOME" = None /\
  getenv w_empty_profile "USERPROFILE" = Some "" /\
  get_ssh_keyfile_path w_empty_profile "id_cyberark_session" start =
    (Ret ".ssh/id_cyberark_session", start, []).
Proof.
  split; [reflexivity|]. split; [reflexivity|].
  exact (proj1 (proj2 (keyfile_path_edges w_empty_profile "id_cyberark_session" start))
           (or_introl eq_refl) eq_refl eq_refl).
Defined.

Lemma ill_typed_fields_raise_witness :
  bundle_head (bundle [JObj numeric_alg]) =
    Some ("2023-11-14T22:13:20", JStr "ssh-rsa AAAAB3Nza") /\
  assoc "keyAlg" numeric_alg = Some (JInt 2048) /\
  install_key w_one prefix (bundle [JObj numeric_alg]) (JObj numeric_alg) start =
    (Raise AttributeError, start, []).
Proof.
  split; [apply sample_head|]. split; [reflexivity|].
  exact (proj1 (proj2 (proj2 (proj2 (proj2
           (ill_typed_fields_raise w_one prefix _ start)) _ _ (sample_head _))))
           numeric_alg "OpenSSH" (JInt 2048) eq_refl eq_refl eq_refl).
Defined.

Lemma debug_log_needs_process_environment_witness :
  dotenv_values at_the_prompts !! "DEBUG" = Some (Some "1") /\
  truthy (getenv w_one "DEBUG") = false /\
  Forall (fun m => debug_line m = false) (shown (script at_the_prompts w_one start).2).
Proof.
  split; [vm_compute; reflexivity|]. split; [reflexivity|].
  exact (proj2 (proj1 (debug_log_needs_process_environment at_the_prompts w_one start)
                  eq_refl)).
Defined.

Lemma interrupt_at_a_prompt_witness :
  getpass interrupted_terminal = Interrupt /\
  (script interrupted_terminal w_one start).1.1 = SystemExit 1 /\
  steps (script interrupted_terminal w_one start).2 = [].
Proof.
  split; [reflexivity|].
  pose proof (interrupt_at_a_prompt interrupted_terminal w_one start) as Hint.
  destruct (script interrupted_terminal w_one start) as [[e s'] out] eqn:Hrun.
  destruct Hint as (_ & Hpass & _).
  assert (PasswordPrompt "Enter Cyberark password for alice: " ∈ out) as Hin.
  { assert (out = (script interrupted_terminal w_one start).2) as -> by (by rewrite Hrun).
    vm_compute. apply elem_of_cons. right. apply elem_of_cons. right.
    apply elem_of_cons. by left. }
  destruct (Hpass _ Hin eq_refl) as (He & _ & Hsteps & _).
  split; [exact He|exact Hsteps].
Defined.

Lemma status_zero_means_witness :
  exit_status (outcome_of (main w_one base "alice" "pw" start)) = 0 /\
  exists body text fetched kv value home,
    http_post w_one (logon_request (mkFetcher base None "alice" "pw")) =
      Responded (mkResponse 200 body) /\
    decode_utf8 body = Some text /\
    http_post w_one (fetch_request (mkFetcher base (Some (strip quote text)) "alice" "pw")) =
      Responded (mkResponse 200 fetched) /\
    json_loads fetched = Some (JObj kv) /\
    assoc "value" kv = Some value /\
    homepath w_one = Some home.
Proof.
  assert (exit_status (outcome_of (main w_one base "alice" "pw" start)) = 0) as H0
    by (vm_compute; reflexivity).
  split; [exact H0|].
  exact (proj2 (status_zero_means w_one base "alice" "pw" start) H0).
Defined.

End MoreRuns.
